(** * Hybrid concept-based models: artifact addressing and experiment driver

    A shallow embedding of [src/common/path_utils.py] (path resolution,
    hyperparameter store, histories, model weights and data lists of the
    Shapes and CUB datasets) and of [evaluation.py] (test evaluation, training
    orchestration, subset/bootstrap driver), with the properties of the
    specification stated and proved over it.

    Conventions of the embedding:
    - Python [int] values are [Z]; an argument that may be [None] is an
      [option Z]; [str(n)] is the decimal numeral of [n].
    - Python exceptions are values of [exn]; code that can raise returns a
      [result].
    - [pathlib.Path] on a POSIX system is a root together with the list of
      its name components.
    - The file system is a finite map from paths to nodes; [os.makedirs],
      [os.path.exists], [open] are given by their effect on that map.
    - Python floats holding test accuracies and history values are
      rationals ([Q]): [100 * k / n] on two Python integers is the correctly
      rounded value of that rational, and rounding is monotone and fixes
      0 and 100. *)

From Stdlib Require Import String Ascii ZArith QArith List DecimalString Lia.
From Stdlib Require DecimalZ DecimalPos.
From stdpp Require Import base option gmap strings list.

Local Open Scope string_scope.
Local Open Scope list_scope.

(** ** Python exceptions and results *)

Inductive exn : Type :=
  | ValueError (msg : string)
  | TypeError (msg : string)
  | KeyError (key : string)
  | IndexError
  | ZeroDivisionError
  | FileNotFoundError (where_ : string)
  | FileExistsError (where_ : string)
  | NotADirectoryError (where_ : string)
  | IsADirectoryError (where_ : string)
  | RuntimeError (msg : string).

Inductive result (A : Type) : Type :=
  | Ok (a : A)
  | Raise (e : exn).
Arguments Ok {A} a.
Arguments Raise {A} e.

Definition is_ok {A} (r : result A) : bool :=
  match r with Ok _ => true | Raise _ => false end.

(** ** Python strings *)

Module PyStr.

(** [str(n)] for an integer. *)
Definition str (z : Z) : string := NilZero.string_of_int (Z.to_int z).

(** [str(x)] / [repr(x)] for a value that is an integer or [None]. *)
Definition fmt (x : option Z) : string :=
  match x with
  | Some z => str z
  | None => "None"
  end.

(** [int(s)] on a decimal numeral with an optional minus sign; any other
    text raises [ValueError]. (Python also accepts blanks around the numeral,
    a plus sign and underscores between digits; the strings that reach
    [int] here are built from [str(n)] and hold none of these.) *)
Definition int (s : string) : result Z :=
  match NilZero.int_of_string s with
  | Some d => Ok (Z.of_int d)
  | None => Raise (ValueError ("invalid literal for int() with base 10: " +:+ s))
  end.

(** [c in s] for a one-character [c]. *)
Fixpoint contains (c : ascii) (s : string) : bool :=
  match s with
  | EmptyString => false
  | String a s' => if Ascii.eqb a c then true else contains c s'
  end.

(** [s.split(c)]. *)
Fixpoint split (c : ascii) (s : string) : list string :=
  match s with
  | EmptyString => [EmptyString]
  | String a s' =>
      if Ascii.eqb a c then EmptyString :: split c s'
      else match split c s' with
           | h :: t => String a h :: t
           | [] => [String a EmptyString]
           end
  end.

(** [sep.join(l)]. *)
Fixpoint join (sep : string) (l : list string) : string :=
  match l with
  | [] => EmptyString
  | [x] => x
  | x :: rest => x +:+ sep +:+ join sep rest
  end.

(** [s.lstrip(chars)], [s.rstrip(chars)] and [s.strip(chars)]: characters
    of the set [chars] are removed from the ends. *)
Fixpoint lstrip (chars : string) (s : string) : string :=
  match s with
  | EmptyString => EmptyString
  | String a s' => if contains a chars then lstrip chars s' else s
  end.

Fixpoint rstrip (chars : string) (s : string) : string :=
  match s with
  | EmptyString => EmptyString
  | String a s' =>
      match rstrip chars s' with
      | EmptyString => if contains a chars then EmptyString else String a EmptyString
      | r => String a r
      end
  end.

Definition strip (chars : string) (s : string) : string :=
  rstrip chars (lstrip chars s).

(** The ASCII whitespace that [s.strip()] removes: the space, the control
    characters tab, LF, VT, FF, CR, and the separators FS, GS, RS, US
    (codes 28 to 31). The whitespace outside ASCII (U+0085, U+00A0, ...)
    is not covered: on a string of ASCII characters [strip_ws] is
    [s.strip()]. *)
Definition whitespace : string :=
  String " " (String "009" (String "010" (String "011" (String "012"
    (String "013" (String "028" (String "029" (String "030"
    (String "031" EmptyString))))))))).

Definition strip_ws (s : string) : string := strip whitespace s.

(** [s.isascii()]. *)
Fixpoint is_ascii (s : string) : bool :=
  match s with
  | EmptyString => true
  | String a s' => (nat_of_ascii a <? 128)%nat && is_ascii s'
  end.

(** [s.lower()] on ASCII letters. *)
Definition lower_ascii (a : ascii) : ascii :=
  let n := nat_of_ascii a in
  if (65 <=? n)%nat && (n <=? 90)%nat then ascii_of_nat (n + 32) else a.

Fixpoint lower (s : string) : string :=
  match s with
  | EmptyString => EmptyString
  | String a s' => String (lower_ascii a) (lower s')
  end.

(** The characters of a numeral. *)
Definition is_digit (a : ascii) : bool :=
  let n := nat_of_ascii a in (48 <=? n)%nat && (n <=? 57)%nat.

(** [x in l] for a list of strings. *)
Definition mem (x : string) (l : list string) : bool :=
  bool_decide (x ∈ l).

End PyStr.

(** ** pathlib.Path (POSIX flavour) *)

Record Path : Type := MkPath {
  root : string;          (* "", "/" or "//" *)
  names : list string     (* the components after the root *)
}.

#[global] Instance Path_eq_dec : EqDecision Path.
Proof. solve_decision. Defined.

#[global] Instance Path_countable : Countable Path :=
  inj_countable' (λ p, (root p, names p)) (λ t, MkPath t.1 t.2)
    (λ p, match p with MkPath r n => eq_refl end).

Module PathLib.

Definition slash : ascii := "/"%char.
Definition backslash : ascii := "\"%char.

(** [posixpath.splitroot]: one slash or three and more give the root
    ["/"], exactly two give ["//"]. *)
Definition splitroot (s : string) : string * string :=
  match s with
  | String a rest =>
      if negb (Ascii.eqb a slash) then ("", s)
      else match rest with
           | String b rest2 =>
               if negb (Ascii.eqb b slash) then ("/", rest)
               else match rest2 with
                    | String c _ =>
                        if Ascii.eqb c slash then ("/", PyStr.lstrip "/" s)
                        else ("//", rest2)
                    | EmptyString => ("//", rest2)
                    end
           | EmptyString => ("/", rest)
           end
  | EmptyString => ("", s)
  end.

Definition keep_name (x : string) : bool :=
  negb (String.eqb x "") && negb (String.eqb x ".").

(** [Path(s)] for a string. *)
Definition of_str (s : string) : Path :=
  let '(r, rel) := splitroot s in
  MkPath r (List.filter keep_name (PyStr.split slash rel)).

(** [p.as_posix()], which is also [str(p)]. *)
Definition as_posix (p : Path) : string :=
  match root p, names p with
  | EmptyString, [] => "."
  | r, ns => r +:+ PyStr.join "/" ns
  end.

(** [p / q] for two paths: a rooted right operand replaces the left one. *)
Definition div (p q : Path) : Path :=
  match root q with
  | EmptyString => MkPath (root p) (names p ++ names q)
  | _ => q
  end.

(** [p.parent]. *)
Definition parent (p : Path) : Path :=
  MkPath (root p) (removelast (names p)).

(** A bare file name: no separator in it, and a name of its own. *)
Definition bare (s : string) : bool :=
  negb (PyStr.contains slash s) && negb (PyStr.contains backslash s)
  && negb (String.eqb s "") && negb (String.eqb s ".").

(** [under d p]: [p] lies in the directory tree of [d]. *)
Definition under (d p : Path) : Prop :=
  root p = root d ∧ names d `prefix_of` names p.

End PathLib.

Infix "</>" := PathLib.div (at level 40, left associativity).

(** A Python argument documented as "str or pathlib.Path"; any other object
    is kept with its type name and its [str()]. *)
Inductive pathlike : Type :=
  | AStr (s : string)
  | APath (p : Path)
  | AOther (tyname : string) (shown : string).

Definition pathlike_str (a : pathlike) : string :=
  match a with
  | AStr s => s
  | APath p => PathLib.as_posix p
  | AOther _ shown => shown
  end.

(** [Path(a)]. *)
Definition to_Path (a : pathlike) : result Path :=
  match a with
  | AStr s => Ok (PathLib.of_str s)
  | APath p => Ok p
  | AOther ty _ =>
      Raise (TypeError ("expected str, bytes or os.PathLike object, not " +:+ ty))
  end.

(** ** Hyperparameter documents *)

(** A scalar of a YAML hyperparameter file; a float is kept as the text of
    its literal. *)
Inductive hpval : Type :=
  | HBool (b : bool)
  | HInt (z : Z)
  | HFloat (literal : string)
  | HStr (s : string).

(** The hyperparameters of one model, and the set for all models
    (model_type -> name -> value). *)
Abbreviation hpdict := (gmap string hpval).
Abbreviation hpset := (gmap string (gmap string hpval)).

(** ** The monad of effectful Python code

    A computation reads and updates a state and either returns a value or
    raises; the state reached when it raises is kept. *)

Definition Py (S A : Type) : Type := S → result A * S.

Definition ret {S A} (a : A) : Py S A := λ w, (Ok a, w).

Definition bind {S A B} (m : Py S A) (k : A → Py S B) : Py S B :=
  λ w, match m w with
       | (Ok a, w') => k a w'
       | (Raise e, w') => (Raise e, w')
       end.

Definition raise {S A} (e : exn) : Py S A := λ w, (Raise e, w).

Definition lift {S A} (r : result A) : Py S A := λ w, (r, w).

(** A [for] loop over [l] that threads the variables [b] it assigns. *)
Fixpoint for_each {S A B} (l : list A) (body : B → A → Py S B) (b : B) : Py S B :=
  match l with
  | [] => ret b
  | x :: rest => bind (body b x) (for_each rest body)
  end.

(** [range(n)]. *)
Definition range (n : Z) : list nat := seq 0 (Z.to_nat n).

(** ** The file system seen by [path_utils] *)

Section World.

(** Serialized objects whose inside is of no concern here: the state-dict
    of a model ([torch.save]) and a pickled history. *)
Context {state_dict history : Type}.

Inductive content : Type :=
  | CYaml (doc : option hpset)      (* [None]: an empty document *)
  | CPickle (h : history)
  | CTorch (sd : state_dict)
  | CFigure.

Inductive node : Type :=
  | Dir
  | File (c : content).

Record world : Type := MkWorld {
  fs : gmap Path node;
  warned : list string     (* messages given to [warnings.warn], oldest first *)
}.

Definition get_fs : Py world (gmap Path node) := λ w, (Ok (fs w), w).

Definition put_fs (f : gmap Path node) : Py world unit :=
  λ w, (Ok tt, MkWorld f (warned w)).

(** [warnings.warn(message)]. *)
Definition warn (message : string) : Py world unit :=
  λ w, (Ok tt, MkWorld (fs w) (warned w ++ [message])).

End World.

Arguments content : clear implicits.
Arguments node : clear implicits.
Arguments world : clear implicits.

Declare Scope pymonad_scope.
Delimit Scope pymonad_scope with py.
Notation "x <- c1 ;; c2" := (bind c1 (λ x, c2))
  (at level 100, c1 at next level, right associativity) : pymonad_scope.
Notation "c1 ;;; c2" := (bind c1 (λ _, c2))
  (at level 100, right associativity) : pymonad_scope.

Local Open Scope pymonad_scope.

(** ** Operating-system calls on the modelled file system *)

Section OS.

Context {state_dict history : Type}.
Local Abbreviation node := (node state_dict history).
Local Abbreviation content := (content state_dict history).
Local Abbreviation M := (Py (world state_dict history)).

(** The working directory and the roots always exist. *)
Definition isdir (f : gmap Path node) (p : Path) : bool :=
  match names p with
  | [] => true
  | _ => match f !! p with Some Dir => true | _ => false end
  end.

(** [os.path.exists(p)]. *)
Definition path_exists (f : gmap Path node) (p : Path) : bool :=
  match names p with
  | [] => true
  | _ => bool_decide (is_Some (f !! p))
  end.

Definition exists_ (p : Path) : M bool :=
  f <- get_fs ;; ret (path_exists f p).

(** [os.makedirs(p, exist_ok)]: the missing directories of the chain
    [done_/n1], [done_/n1/n2], ... are created from the top; a regular
    file in the chain stops it. *)
Fixpoint mkdir_chain (r : string) (done_ todo : list string) (exist_ok : bool)
    (f : gmap Path node) : result (gmap Path node) :=
  match todo with
  | [] => Ok f
  | n :: rest =>
      let q := MkPath r (done_ ++ [n]) in
      match f !! q with
      | None => mkdir_chain r (done_ ++ [n]) rest exist_ok (<[q := Dir]> f)
      | Some Dir =>
          match rest with
          | [] => if exist_ok then Ok f
                  else Raise (FileExistsError (PathLib.as_posix q))
          | _ => mkdir_chain r (done_ ++ [n]) rest exist_ok f
          end
      | Some (File _) =>
          match rest with
          | [] => Raise (FileExistsError (PathLib.as_posix q))
          | _ => Raise (NotADirectoryError (PathLib.as_posix q))
          end
      end
  end.

Definition makedirs (p : Path) (exist_ok : bool) : M unit :=
  f <- get_fs ;;
  match names p with
  | [] => if exist_ok then ret tt else raise (FileExistsError (PathLib.as_posix p))
  | _ => f' <- lift (mkdir_chain (root p) [] (names p) exist_ok f) ;; put_fs f'
  end.

(** No regular file lies on the way to [p], so that [makedirs] can make it. *)
Definition creatable (f : gmap Path node) (p : Path) : Prop :=
  ∀ k c, f !! MkPath (root p) (take k (names p)) ≠ Some (File c).

(** Some file in the directory tree of [d] holds [c]. *)
Definition holds_under (f : gmap Path node) (d : Path) (c : content) : Prop :=
  ∃ p, PathLib.under d p ∧ f !! p = Some (File c).

(** [open(p, "w")] followed by writing [c] and closing. *)
Definition write_file (p : Path) (c : content) : M unit :=
  f <- get_fs ;;
  match names p with
  | [] => raise (IsADirectoryError (PathLib.as_posix p))
  | _ =>
      if negb (isdir f (PathLib.parent p)) then
        raise (FileNotFoundError (PathLib.as_posix p))
      else match f !! p with
           | Some Dir => raise (IsADirectoryError (PathLib.as_posix p))
           | _ => put_fs (<[p := File c]> f)
           end
  end.

(** [open(p, "r")] followed by reading everything. *)
Definition read_file (p : Path) : M content :=
  f <- get_fs ;;
  match names p with
  | [] => raise (IsADirectoryError (PathLib.as_posix p))
  | _ => match f !! p with
         | Some (File c) => ret c
         | Some Dir => raise (IsADirectoryError (PathLib.as_posix p))
         | None => raise (FileNotFoundError (PathLib.as_posix p))
         end
  end.

(** [yaml.safe_load] of the file at [p]. *)
Definition yaml_load (p : Path) : M (option hpset) :=
  c <- read_file p ;;
  match c with
  | CYaml doc => ret doc
  | _ => raise (RuntimeError "not a YAML document")
  end.

(** [yaml.dump(doc, outfile)] into the file at [p]. *)
Definition yaml_dump (p : Path) (doc : hpset) : M unit :=
  write_file p (CYaml (Some doc)).

(** [torch.load(p)] and [torch.save(sd, p)]. *)
Definition torch_load (p : Path) : M state_dict :=
  c <- read_file p ;;
  match c with
  | CTorch sd => ret sd
  | _ => raise (RuntimeError "not a serialized state-dict")
  end.

Definition torch_save (sd : state_dict) (p : Path) : M unit :=
  write_file p (CTorch sd).

(** [pickle.load(open(p, "rb"))] and [pickle.dump(h, open(p, "wb"))]. *)
Definition pickle_load (p : Path) : M history :=
  c <- read_file p ;;
  match c with
  | CPickle h => ret h
  | _ => raise (RuntimeError "not a pickle")
  end.

Definition pickle_dump (h : history) (p : Path) : M unit :=
  write_file p (CPickle h).

(** [plt.savefig(p)]; [plt.close()] leaves the file system alone. *)
Definition savefig (p : Path) : M unit :=
  write_file p CFigure.

End OS.

(** ** [src/common/path_utils.py] *)

(** The names imported from [src/constants.py], which is not part of the
    sources at hand: they are taken as parameters. *)
Record constants : Type := MkConstants {
  RESULTS_FOLDER : string;
  SHAPES_FOLDER : string;
  CUB_FOLDER : string;
  HISTORY_FOLDER : string;
  SAVED_MODELS_FOLDER : string;
  PLOTS_FOLDER : string;
  HYPERPARAMETERS_FOLDER : string;
  ORACLE_FOLDER : string;
  FAST_HYPERPARAMETERS_FILENAME_SHAPES : string;
  FAST_HYPERPARAMETERS_FILENAME_SHAPES_HARD : string;
  DEFAULT_HYPERPARAMETERS_FILENAME_SHAPES : string;
  DEFAULT_HYPERPARAMETERS_FILENAME_SHAPES_HARD : string;
  MODEL_STRINGS_ALL_SHAPES : list string
}.

Module PathUtils.
Section Shapes.

Context {state_dict history : Type}.
Variable K : constants.
Local Abbreviation M := (Py (world state_dict history)).

(** [str(l)] for a list of strings. *)
Definition repr_list (l : list string) : string :=
  "[" +:+ PyStr.join ", " (List.map (λ s, "'" +:+ s +:+ "'") l) +:+ "]".

(** The double-quote character, as a string. *)
Definition dquote : string := String (ascii_of_nat 34) EmptyString.

(** [s.replace(c, '')] for a one-character [c]. *)
Fixpoint remove_char (c : ascii) (s : string) : string :=
  match s with
  | EmptyString => EmptyString
  | String a s' => if Ascii.eqb a c then remove_char c s' else String a (remove_char c s')
  end.

Definition _check_just_file (filename : pathlike) : result unit :=
  let message :=
    "Filename must not be inside a directory, but only be the filename. Was "
      +:+ pathlike_str filename +:+ ". " in
  match filename with
  | AOther ty _ =>
      Raise (TypeError
        ("Filename must be of type `str` or `pathlib.Path`. Was <class '" +:+ ty +:+ "'>. "))
  | _ =>
      let filename := pathlike_str filename in   (* [as_posix()] for a Path *)
      if PyStr.contains PathLib.slash filename || PyStr.contains PathLib.backslash filename
      then Raise (ValueError message)
      else Ok tt
  end.

Definition create_folder (folder_path : Path) (exist_ok : bool) : M unit :=
  makedirs folder_path exist_ok.

Definition make_file_path (folder filename : pathlike) (check_folder_exists : bool)
    : M Path :=
  lift (_check_just_file filename) ;;;
  folder_path <- lift (to_Path folder) ;;
  (if check_folder_exists then create_folder folder_path true else ret tt) ;;;
  name <- lift (to_Path filename) ;;
  let file_path := folder_path </> name in
  ret file_path.

Definition get_shapes_folder_name (n_classes n_attr signal_strength : option Z) : Path :=
  PathLib.of_str ("c" +:+ PyStr.fmt n_classes +:+ "_a" +:+ PyStr.fmt n_attr
                  +:+ "_s" +:+ PyStr.fmt signal_strength +:+ "/").

Definition get_dataset_folder (dataset_name : string) : result Path :=
  let dataset_name :=
    remove_char PathLib.backslash
      (remove_char PathLib.slash (PyStr.strip_ws (PyStr.lower dataset_name))) in
  if String.eqb dataset_name "shapes" then Ok (PathLib.of_str (SHAPES_FOLDER K))
  else if String.eqb dataset_name "cub" then Ok (PathLib.of_str (CUB_FOLDER K))
  else Raise (ValueError
    ("Argument `dataset_name` must be in [" +:+ dquote +:+ "shapes" +:+ dquote +:+ ", "
       +:+ dquote +:+ "cub" +:+ dquote +:+ "]. Was " +:+ dataset_name +:+ ". ")).

Definition get_full_shapes_folder_path (n_classes n_attr signal_strength : option Z)
    (relative_folder : string) : result Path :=
  let base_folder := PathLib.of_str (RESULTS_FOLDER K) in
  match get_dataset_folder "shapes" with
  | Raise e => Raise e
  | Ok dataset_folder =>
      let folder_name := get_shapes_folder_name n_classes n_attr signal_strength in
      let full_shapes_folder :=
        base_folder </> PathLib.of_str relative_folder </> dataset_folder </> folder_name in
      Ok full_shapes_folder
  end.

Definition hard_suffix (hard_bottleneck : bool) : string :=
  if negb hard_bottleneck then "" else "_hard".

Definition load_history_shapes (n_classes n_attr signal_strength n_bootstrap n_subset : option Z)
    (hard_bottleneck oracle_only : bool) : M history :=
  folder_name <- lift (get_full_shapes_folder_path n_classes n_attr signal_strength
                         (HISTORY_FOLDER K)) ;;
  let folder_name :=
    if oracle_only then folder_name </> PathLib.of_str (ORACLE_FOLDER K) else folder_name in
  let hard_bottleneck := if oracle_only then false else hard_bottleneck in
  let bottleneck := hard_suffix hard_bottleneck in
  let filename := PathLib.of_str
    ("histories_sub" +:+ PyStr.fmt n_subset +:+ "_b" +:+ PyStr.fmt n_bootstrap
       +:+ bottleneck +:+ ".pkl") in
  file_path <- make_file_path (APath folder_name) (APath filename) false ;;
  pickle_load file_path.

Definition save_history_shapes (n_classes n_attr signal_strength n_bootstrap n_subset : option Z)
    (history_ : history) (oracle_only hard_bottleneck : bool) : M unit :=
  folder_name <- lift (get_full_shapes_folder_path n_classes n_attr signal_strength
                         (HISTORY_FOLDER K)) ;;
  let folder_name :=
    if oracle_only then folder_name </> PathLib.of_str (ORACLE_FOLDER K) else folder_name in
  let bottleneck := hard_suffix hard_bottleneck in
  let filename := PathLib.of_str
    ("histories_sub" +:+ PyStr.fmt n_subset +:+ "_b" +:+ PyStr.fmt n_bootstrap
       +:+ bottleneck +:+ ".pkl") in
  file_path <- make_file_path (APath folder_name) (APath filename) true ;;
  pickle_dump history_ file_path.

Definition check_model_type (model_type : string) : result unit :=
  if negb (PyStr.mem model_type (MODEL_STRINGS_ALL_SHAPES K)) then
    Raise (ValueError
      ("Argument `model_type` must be in " +:+ repr_list (MODEL_STRINGS_ALL_SHAPES K)
         +:+ ". " +:+ "Was " +:+ model_type +:+ ". "))
  else Ok tt.

Definition adversarial_suffix (adversarial : bool) : string :=
  if adversarial then "_adversarial" else "".

Definition load_model_shapes (n_classes n_attr signal_strength n_subset : option Z)
    (model_type metric : string) (hard_bottleneck adversarial : bool) : M state_dict :=
  let model_type := PyStr.lower (PyStr.strip_ws model_type) in
  lift (check_model_type model_type) ;;;
  folder_name <- lift (get_full_shapes_folder_path n_classes n_attr signal_strength
                         (SAVED_MODELS_FOLDER K)) ;;
  let bottleneck := hard_suffix hard_bottleneck in
  let adversarial_string := adversarial_suffix adversarial in
  let filename := PathLib.of_str
    (model_type +:+ "_sub" +:+ PyStr.fmt n_subset +:+ "_" +:+ metric +:+ bottleneck
       +:+ adversarial_string +:+ ".pth") in
  file_path <- make_file_path (APath folder_name) (APath filename) false ;;
  torch_load file_path.

Definition save_model_shapes (n_classes n_attr signal_strength n_subset : option Z)
    (state_dict_ : state_dict) (model_type metric : string)
    (hard_bottleneck adversarial : bool) : M unit :=
  let model_type := PyStr.lower (PyStr.strip_ws model_type) in
  lift (check_model_type model_type) ;;;
  folder_name <- lift (get_full_shapes_folder_path n_classes n_attr signal_strength
                         (SAVED_MODELS_FOLDER K)) ;;
  let bottleneck :=
    if String.eqb model_type "cnn" || negb hard_bottleneck then "" else "_hard" in
  let adversarial_string := adversarial_suffix adversarial in
  let filename := PathLib.of_str
    (model_type +:+ "_sub" +:+ PyStr.fmt n_subset +:+ "_" +:+ metric +:+ bottleneck
       +:+ adversarial_string +:+ ".pth") in
  file_path <- make_file_path (APath folder_name) (APath filename) true ;;
  torch_save state_dict_ file_path.

Definition save_mpo_plot_shapes (n_classes n_attr signal_strength n_bootstrap n_subset : option Z)
    (hard_bottleneck : bool) : M unit :=
  folder_name <- lift (get_full_shapes_folder_path n_classes n_attr signal_strength
                         (PLOTS_FOLDER K)) ;;
  let bottleneck := hard_suffix hard_bottleneck in
  let filename := PathLib.of_str
    ("mpo_sub" +:+ PyStr.fmt n_subset +:+ "_b" +:+ PyStr.fmt n_bootstrap
       +:+ bottleneck +:+ ".pdf") in
  file_path <- make_file_path (APath folder_name) (APath filename) true ;;
  savefig file_path.

Definition save_training_plot_shapes
    (n_classes n_attr signal_strength n_bootstrap n_subset : option Z)
    (hard_bottleneck attr : bool) : M unit :=
  folder_name <- lift (get_full_shapes_folder_path n_classes n_attr signal_strength
                         (PLOTS_FOLDER K)) ;;
  let attr_string := if negb attr then "" else "attr_" in
  let bottleneck := hard_suffix hard_bottleneck in
  let filename := PathLib.of_str
    ("training_history_" +:+ attr_string +:+ "sub" +:+ PyStr.fmt n_subset +:+ "_b"
       +:+ PyStr.fmt n_bootstrap +:+ bottleneck +:+ ".pdf") in
  file_path <- make_file_path (APath folder_name) (APath filename) true ;;
  savefig file_path.

Definition save_test_plot_shapes (n_classes n_attr signal_strength n_bootstrap : option Z)
    (hard_bottleneck : bool) : M unit :=
  folder_name <- lift (get_full_shapes_folder_path n_classes n_attr signal_strength
                         (PLOTS_FOLDER K)) ;;
  let bottleneck := hard_suffix hard_bottleneck in
  let filename := PathLib.of_str
    ("test_accuracies_b" +:+ PyStr.fmt n_bootstrap +:+ bottleneck +:+ ".pdf") in
  file_path <- make_file_path (APath folder_name) (APath filename) true ;;
  savefig file_path.

(** [for key in hyperparameters: hyperparameters[key]["hard"] = True]. *)
Definition set_hard (hyperparameters : hpset) : hpset :=
  (λ entry : gmap string hpval, <["hard" := HBool true]> entry) <$> hyperparameters.

Definition load_hyperparameters_shapes (n_classes n_attr signal_strength n_subset : option Z)
    (hard_bottleneck fast default oracle : bool) : M (option hpset) :=
  if (negb default && negb fast)
     && (bool_decide (n_classes = None) || bool_decide (n_attr = None)
         || bool_decide (n_subset = None))
  then
    raise (ValueError
      ("When getting non-default or non-fast hyperparameters, arguments `n_classes`, `n_attr` and "
         +:+ "`n_subset` must be provided (all of them must be int). Was n_classes="
         +:+ PyStr.fmt n_classes +:+ ", n_attr=" +:+ PyStr.fmt n_attr
         +:+ ", n_subset=" +:+ PyStr.fmt n_subset +:+ ". "))
  else
  let results_folder := PathLib.of_str (RESULTS_FOLDER K) in
  let base_folder :=
    results_folder </> PathLib.of_str (HYPERPARAMETERS_FOLDER K)
      </> PathLib.of_str (SHAPES_FOLDER K) in
  if fast then
    let fast_file :=
      if hard_bottleneck then FAST_HYPERPARAMETERS_FILENAME_SHAPES_HARD K
      else FAST_HYPERPARAMETERS_FILENAME_SHAPES K in
    fast_path <- make_file_path (APath base_folder) (AStr fast_file) false ;;
    yaml_load fast_path
  else
  (* the block under [if default:] *)
  let use_default : M (option hpset) :=
    let default_file :=
      if hard_bottleneck then DEFAULT_HYPERPARAMETERS_FILENAME_SHAPES_HARD K
      else DEFAULT_HYPERPARAMETERS_FILENAME_SHAPES K in
    default_path <- make_file_path (APath base_folder) (AStr default_file) false ;;
    yaml_load default_path in
  (* the warning that ends the block "no hp for this class-attr-sub" *)
  let fall_back (file_path : Path) : M (option hpset) :=
    warn ("No hyperparameters found for n_classes=" +:+ PyStr.fmt n_classes
            +:+ ", n_attr=" +:+ PyStr.fmt n_attr +:+ " and n_subset=" +:+ PyStr.fmt n_subset
            +:+ ". " +:+ "Tried path " +:+ PathLib.as_posix file_path +:+ ". "
            +:+ "Falling back on default hyperparameters. ") ;;;
    use_default in
  folder_name <- lift (get_full_shapes_folder_path n_classes n_attr signal_strength
                         (HYPERPARAMETERS_FOLDER K)) ;;
  let bottleneck := hard_suffix hard_bottleneck in
  let filename := PathLib.of_str
    ("hyperparameters_sub" +:+ PyStr.fmt n_subset +:+ bottleneck +:+ ".yaml") in
  file_path <- make_file_path (APath folder_name) (APath filename) false ;;
  present <- exists_ file_path ;;
  if negb default && negb present then
    if hard_bottleneck then
      let alt_filename := PathLib.of_str
        ("hyperparameters_sub" +:+ PyStr.fmt n_subset +:+ ".yaml") in
      alt_file_path <- make_file_path (APath folder_name) (APath alt_filename) false ;;
      let file_path := alt_file_path in
      alt_present <- exists_ alt_file_path ;;
      if alt_present then
        warn ("No hard hyperparameters found for n_classes=" +:+ PyStr.fmt n_classes
                +:+ ", n_attr=" +:+ PyStr.fmt n_attr +:+ " and n_subset="
                +:+ PyStr.fmt n_subset +:+ ". " +:+ "Tried path "
                +:+ PathLib.as_posix file_path +:+ ". "
                +:+ "Using soft hyperparameters with hard set to `True`. ") ;;;
        hyperparameters <- yaml_load alt_file_path ;;
        match hyperparameters with
        | None => raise (TypeError "'NoneType' object is not iterable")
        | Some hyperparameters => ret (Some (set_hard hyperparameters))
        end
      else fall_back file_path
    else fall_back file_path
  else if default then use_default
  else yaml_load file_path.

Definition save_hyperparameters_shapes (n_classes n_attr signal_strength n_subset : option Z)
    (hyperparameters_dict : gmap string hpval) (model_type : string)
    (hard_bottleneck : bool) : M unit :=
  lift (check_model_type model_type) ;;;
  folder_name <- lift (get_full_shapes_folder_path n_classes n_attr signal_strength
                         (HYPERPARAMETERS_FOLDER K)) ;;
  let bottleneck := hard_suffix hard_bottleneck in
  let filename := PathLib.of_str
    ("hyperparameters_sub" +:+ PyStr.fmt n_subset +:+ bottleneck +:+ ".yaml") in
  file_path <- make_file_path (APath folder_name) (APath filename) false ;;
  present <- exists_ file_path ;;
  if negb present then
    makedirs folder_name true ;;;
    let hyperparameters_full : hpset := {[ model_type := hyperparameters_dict ]} in
    yaml_dump file_path hyperparameters_full
  else
    hyperparameters_full <- yaml_load file_path ;;
    let hyperparameters_full : hpset :=
      match hyperparameters_full with
      | None => ∅
      | Some full => full
      end in
    let hyperparameters_full := <[ model_type := hyperparameters_dict ]> hyperparameters_full in
    yaml_dump file_path hyperparameters_full.

(** *** Paths named in the statements *)

(** [filename] holds a separator, as [_check_just_file] sees it. *)
Definition has_separator (filename : pathlike) : bool :=
  match filename with
  | AOther _ _ => false
  | _ => PyStr.contains PathLib.slash (pathlike_str filename)
         || PyStr.contains PathLib.backslash (pathlike_str filename)
  end.

(** The folder name [c{n}_a{a}_s{s}]. *)
Definition shapes_name (n_classes n_attr signal_strength : option Z) : string :=
  "c" +:+ PyStr.fmt n_classes +:+ "_a" +:+ PyStr.fmt n_attr
    +:+ "_s" +:+ PyStr.fmt signal_strength.

(** The Shapes folder of one kind of result. *)
Definition shapes_folder (n_classes n_attr signal_strength : option Z)
    (relative_folder : string) : Path :=
  PathLib.of_str (RESULTS_FOLDER K) </> PathLib.of_str relative_folder
    </> PathLib.of_str (SHAPES_FOLDER K)
    </> MkPath "" [shapes_name n_classes n_attr signal_strength].

(** The hyperparameter file of one (classes, attributes, signal strength,
    subset, hardness). *)
Definition hp_file (n_classes n_attr signal_strength n_subset : option Z)
    (hard_bottleneck : bool) : Path :=
  shapes_folder n_classes n_attr signal_strength (HYPERPARAMETERS_FOLDER K)
    </> MkPath "" ["hyperparameters_sub" +:+ PyStr.fmt n_subset
                     +:+ hard_suffix hard_bottleneck +:+ ".yaml"].

(** The global default file of one hardness. *)
Definition default_hp_file (hard_bottleneck : bool) : Path :=
  PathLib.of_str (RESULTS_FOLDER K) </> PathLib.of_str (HYPERPARAMETERS_FOLDER K)
    </> PathLib.of_str (SHAPES_FOLDER K)
    </> PathLib.of_str (if hard_bottleneck
                        then DEFAULT_HYPERPARAMETERS_FILENAME_SHAPES_HARD K
                        else DEFAULT_HYPERPARAMETERS_FILENAME_SHAPES K).

(** The hyperparameter file can be written: it is absent and its folder
    can be made, or it is a YAML document in a folder. *)
Definition hp_store_ready (f : gmap Path (node state_dict history))
    (n_classes n_attr signal_strength n_subset : option Z) (hard_bottleneck : bool) : Prop :=
  let file := hp_file n_classes n_attr signal_strength n_subset hard_bottleneck in
  let folder := shapes_folder n_classes n_attr signal_strength (HYPERPARAMETERS_FOLDER K) in
  (f !! file = None ∧ creatable f folder)
  ∨ (∃ doc, f !! file = Some (File (CYaml doc)) ∧ isdir f folder = true).

(** The document held by a file, the empty one when there is none. *)
Definition stored_set (f : gmap Path (node state_dict history)) (p : Path) : hpset :=
  match f !! p with
  | Some (File (CYaml (Some doc))) => doc
  | _ => ∅
  end.

End Shapes.
End PathUtils.

(** ** [evaluation.py] *)

(** A training history: metric name -> one value per epoch. *)
Abbreviation History := (gmap string (list Q)).

(** The calls that [evaluation.py] makes to its collaborators, in the order
    in which they happen. *)
Inductive event : Type :=
  | EvPrint (text : string)
  | EvGetHyperparameters (n_classes n_attr n_subset : Z) (fast : bool)
  | EvLoadModels (n_classes n_attr : Z)
  | EvMakedirs (path : string)
  | EvSeedEverything (seed : Z)
  | EvTrainSimple (model_name model_dir model_save_name : string) (n_epochs : Z)
  | EvTrainCbm (model_name model_dir model_save_name : string) (n_epochs : Z)
  | EvTorchLoad (path : string)
  | EvLoadData (mode path subset_dir : string)
  | EvMakeSubset (dataset_dir : string) (subset n_classes seed : Z)
  | EvPlotTrainingHistories (save_dir save_name : string)
  | EvPlotSubsetTestAccuracies (save_name : string)
  | EvPickleDump (path : string).

Module Evaluation.
Section Eval.

(** Tensors of inputs and of attribute labels, state-dicts, and whatever
    the collaborators keep outside of this program (files, generator
    state). *)
Context {input attr_labels state_dict env : Type}.

(** What a model returns on a batch: class logits, one row per input, and
    for a concept model the tuple (class logits, attribute logits). *)
Inductive outputs : Type :=
  | Tensor (rows : list (list Q))
  | Tuple (rows : list (list Q)) (attributes : list (list Q)).

Record model : Type := MkModel {
  name : string;
  weights : state_dict;
  training : bool;
  forward : state_dict → bool → input → outputs
}.

(** [model(input)]. *)
Definition call_model (m : model) (x : input) : outputs :=
  forward m (weights m) (training m) x.

(** [model.eval()] and [model.load_state_dict(state_dict)]. *)
Definition eval_mode (m : model) : model :=
  MkModel (name m) (weights m) false (forward m).

Definition load_state_dict (m : model) (sd : state_dict) : model :=
  MkModel (name m) sd (training m) (forward m).

(** One batch of a loader: [(input, labels, attr_labels, paths)]. *)
Record batch : Type := MkBatch {
  b_input : input;
  b_labels : list Z;
  b_attr_labels : attr_labels;
  b_paths : list string
}.

Record dataloader : Type := MkLoader {
  dataset : list (Z * string);     (* label and path of every item *)
  batches : list batch             (* what iterating the loader yields *)
}.

(** Index of the first maximal entry of a row, as [torch.max(outputs, 1)]
    returns it; an empty row has no maximum. *)
Fixpoint argmax_from (best : Q) (best_i i : nat) (row : list Q) : nat :=
  match row with
  | [] => best_i
  | x :: rest =>
      if Qle_bool x best then argmax_from best best_i (S i) rest
      else argmax_from x i (S i) rest
  end.

Definition argmax (row : list Q) : result Z :=
  match row with
  | [] => Raise (RuntimeError "max(): expected reduction dim 1 to have non-zero size")
  | x :: rest => Ok (Z.of_nat (argmax_from x 0 1 rest))
  end.

Fixpoint torch_max_1 (rows : list (list Q)) : result (list Z) :=
  match rows with
  | [] => Ok []
  | r :: rest =>
      match argmax r, torch_max_1 rest with
      | Ok p, Ok ps => Ok (p :: ps)
      | Raise e, _ => Raise e
      | _, Raise e => Raise e
      end
  end.

Definition count_eq (l : list (Z * Z)) : Z :=
  Z.of_nat (length (List.filter (λ pl, Z.eqb pl.1 pl.2) l)).

(** [(preds == labels).sum().item()]: equal lengths compare elementwise, a
    tensor of one element is broadcast, other shapes do not fit. *)
Definition correct_in_batch (preds labels : list Z) : result Z :=
  if (length preds =? length labels)%nat then Ok (count_eq (combine preds labels))
  else match preds, labels with
       | [p], _ => Ok (count_eq (List.map (λ l, (p, l)) labels))
       | _, [l] => Ok (count_eq (List.map (λ p, (p, l)) preds))
       | _, _ => Raise (RuntimeError "The size of tensor a must match the size of tensor b")
       end.

Variable cuda_is_available : bool.

Definition evaluate_on_test_set (model_ : model) (test_loader : dataloader)
    (device : option string) (non_blocking : bool) : result Q :=
  let device :=
    match device with
    | None => if cuda_is_available then "cuda:0" else "cpu"
    | Some d => d
    end in
  let model_ := eval_mode model_ in
  let step (test_correct : result Z) (b : batch) : result Z :=
    match test_correct with
    | Raise e => Raise e
    | Ok test_correct =>
        let outputs_ := call_model model_ (b_input b) in
        let outputs_ :=
          match outputs_ with
          | Tuple rows _ => rows      (* concept model, returns (outputs, attributes) *)
          | Tensor rows => rows
          end in
        match torch_max_1 outputs_ with
        | Raise e => Raise e
        | Ok preds =>
            match correct_in_batch preds (b_labels b) with
            | Raise e => Raise e
            | Ok c => Ok (test_correct + c)%Z
            end
        end
    end in
  match fold_left step (batches test_loader) (Ok 0%Z) with
  | Raise e => Raise e
  | Ok test_correct =>
      let n := Z.of_nat (length (dataset test_loader)) in
      if (n =? 0)%Z then Raise ZeroDivisionError
      else Ok (inject_Z (100 * test_correct) / inject_Z n)%Q
  end.

(** *** The training orchestrator and the driver *)

(** What the program sees of the outside: the calls made so far and the
    state kept by the collaborators. *)
Record state : Type := MkState {
  trace : list event;
  ext : env
}.

(** From [st] to [st'] calls were added, and all of them satisfy [P]. *)
Definition extends_with (P : event → Prop) (st st' : state) : Prop :=
  ∃ t, trace st' = trace st ++ t ∧ Forall P t.

(** A call to a collaborator: it is recorded, then it runs on the outside
    state. *)
Definition call {A} (ev : event) (f : env → result A * env) : Py state A :=
  λ st, let '(r, e') := f (ext st) in (r, MkState (trace st ++ [ev]) e').

(** What the trainers are given besides the model and the loaders: the
    Adam optimizer over the trainable parameters with its learning rate, the
    [StepLR] scheduler with its step size and decay, and the keyword
    arguments. *)
Record train_args : Type := MkTrainArgs {
  learning_rate : hpval;
  scheduler_step_size : Z;
  scheduler_gamma : hpval;
  attr_weight : option hpval;       (* [train_cbm] only *)
  n_epochs : Z;
  n_early_stop : option Z;
  train_device : string;
  train_non_blocking : bool;
  train_verbose : Z;
  model_dir : string;
  model_save_name : string;
  history_save_name : option string
}.

(** The names that [evaluation.py] imports from [constants], [utils],
    [train], [shapes.datasets_shapes] and [plotting], and the library calls
    that touch the disk. None of them is part of the sources at hand: they
    are parameters. *)
Record collaborators : Type := MkCollaborators {
  MODEL_STRINGS : list string;
  COLORS : list string;
  MAX_EPOCHS : Z;
  get_hyperparameters : Z → Z → Z → bool → env → result hpset * env;
  load_models_shapes : Z → Z → hpset → env → result (list model) * env;
  seed_everything : Z → env → result unit * env;
  add_histories :
    option (list History) → list History → Z → result (list History);
  train_simple : model → train_args → dataloader → dataloader → env → result History * env;
  train_cbm : model → train_args → dataloader → dataloader → env → result History * env;
  load_data_shapes_test : string → string → Z → env → result dataloader * env;
  load_data_shapes_train_val :
    string → string → Z → env → result (dataloader * dataloader) * env;
  make_subset_shapes : string → Z → Z → Z → env → result unit * env;
  plot_training_histories :
    option (list History) → list string → list string → string → string → string
    → env → result unit * env;
  plot_subset_test_accuracies :
    list Z → list (list Q) → list string → list string → string → env → result unit * env;
  os_makedirs : string → env → result unit * env;
  torch_load_file : string → env → result state_dict * env;
  pickle_dump_histories : option (list History) → string → env → result unit * env;
  pickle_dump_accuracies : list (list Q) → string → env → result unit * env
}.

Variable C : collaborators.

(** [hp[model_string][key]]. *)
Definition hp_item (hp : hpset) (model_string key : string) : result hpval :=
  match hp !! model_string with
  | None => Raise (KeyError model_string)
  | Some entry =>
      match entry !! key with
      | None => Raise (KeyError key)
      | Some v => Ok v
      end
  end.

(** [l[i]] for a list. *)
Definition item {A} (l : list A) (i : nat) : result A :=
  match l !! i with
  | Some x => Ok x
  | None => Raise IndexError
  end.

(** ["c" + str(n_classes) + "_a" + str(n_attr) + "/"], with ["testing/"]
    appended under [fast]. *)
Definition class_dir_of (n_classes n_attr : Z) (fast : bool) : string :=
  let class_dir := "c" +:+ PyStr.str n_classes +:+ "_a" +:+ PyStr.str n_attr +:+ "/" in
  if fast then class_dir +:+ "testing/" else class_dir.

(** The body of the loop over the models in [train_and_evaluate_shapes]. *)
Definition train_and_evaluate_model (n_classes n_attr : Z)
    (train_loader val_loader test_loader : dataloader) (sub_dir : string) (hp : hpset)
    (fast : bool) (device : string) (non_blocking : bool) (n_bootstrap : Z)
    (seed : option Z) (verbose : Z) (models : list model)
    (histories : list History) (i : nat) : Py state (list History) :=
  model_ <- lift (item models i) ;;
  model_string <- lift (item (MODEL_STRINGS C) i) ;;
  call (EvPrint ("Running model " +:+ name model_ +:+ ":")) (λ e, (Ok tt, e)) ;;;
  lr <- lift (hp_item hp model_string "learning_rate") ;;
  gamma <- lift (hp_item hp model_string "gamma") ;;
  let class_dir := class_dir_of n_classes n_attr fast in
  let n_epochs_ := if fast then 2%Z else MAX_EPOCHS C in
  let save_model_path := "saved_models/" +:+ class_dir +:+ sub_dir in
  save_name_i <- lift (item (MODEL_STRINGS C) i) ;;
  let save_name := save_name_i +:+ "_b" +:+ PyStr.str n_bootstrap in
  call (EvMakedirs save_model_path) (os_makedirs C save_model_path) ;;;
  match seed with
  | Some seed => call (EvSeedEverything seed) (seed_everything C seed)
  | None => ret tt
  end ;;;
  let args (w : option hpval) : train_args :=
    MkTrainArgs lr 5 gamma w n_epochs_ None device non_blocking verbose
      save_model_path save_name None in
  history <-
    (if String.eqb (name model_) "ShapesCNN" then
       call (EvTrainSimple (name model_) save_model_path save_name n_epochs_)
         (train_simple C model_ (args None) train_loader val_loader)
     else
       w <- lift (hp_item hp model_string "attr_weight") ;;
       call (EvTrainCbm (name model_) save_model_path save_name n_epochs_)
         (train_cbm C model_ (args (Some w)) train_loader val_loader)) ;;
  let checkpoint := save_model_path +:+ save_name +:+ "_loss.pth" in
  state_dict_ <- call (EvTorchLoad checkpoint) (torch_load_file C checkpoint) ;;
  let model_ := load_state_dict model_ state_dict_ in
  test_accuracy <- lift (evaluate_on_test_set model_ test_loader (Some device) non_blocking) ;;
  let history := <["test_accuracy" := [test_accuracy]]> history in
  ret (histories ++ [history]).

Definition train_and_evaluate_shapes (n_classes n_attr : Z)
    (train_loader val_loader test_loader : dataloader) (sub_dir : string)
    (hyperparameters : option hpset) (fast : bool) (device : option string)
    (non_blocking : bool) (n_bootstrap : Z) (seed : option Z) (verbose : Z)
    : Py state (list History) :=
  let device :=
    match device with
    | None => if cuda_is_available then "cuda" else "cpu"
    | Some d => if String.eqb d "" then (if cuda_is_available then "cuda" else "cpu") else d
    end in
  hp <-
    match hyperparameters with
    | Some hp => ret hp
    | None =>
        n_subset <- lift (PyStr.int (PyStr.strip "sub" (PyStr.strip "/" sub_dir))) ;;
        call (EvGetHyperparameters n_classes n_attr n_subset fast)
          (get_hyperparameters C n_classes n_attr n_subset fast)
    end ;;
  models <- call (EvLoadModels n_classes n_attr) (load_models_shapes C n_classes n_attr hp) ;;
  for_each (seq 0 (length models))
    (train_and_evaluate_model n_classes n_attr train_loader val_loader test_loader sub_dir hp
       fast device non_blocking n_bootstrap seed verbose models)
    [].

(** [histories_total[i]["test_accuracy"][0]]. *)
Definition test_accuracy_of (histories_total : option (list History)) (i : nat) : result Q :=
  match histories_total with
  | None => Raise (TypeError "'NoneType' object is not subscriptable")
  | Some hs =>
      match hs !! i with
      | None => Raise IndexError
      | Some h =>
          match h !! "test_accuracy" with
          | None => Raise (KeyError "test_accuracy")
          | Some [] => Raise IndexError
          | Some (a :: _) => Ok a
          end
      end
  end.

(** The body of the loop over the bootstrap iterations; the variables that
    it assigns are [seed] and [histories_total]. *)
Definition bootstrap_iteration (dataset_dir : string) (n_classes n_attr subset : Z)
    (subset_dir : string) (test_loader : dataloader) (n_bootstrap : Z) (fast : bool)
    (batch_size : Z) (device : option string) (non_blocking : bool)
    (base_seed verbose : Z)
    (vars : Z * option (list History)) (i : nat) : Py state (Z * option (list History)) :=
  let '(seed, histories_total) := vars in
  call (EvMakeSubset dataset_dir subset n_classes seed)
    (make_subset_shapes C dataset_dir subset n_classes seed) ;;;
  let seed := (seed + 1)%Z in
  loaders <- call (EvLoadData "train-val" dataset_dir subset_dir)
               (load_data_shapes_train_val C dataset_dir subset_dir batch_size) ;;
  let '(train_loader, val_loader) := loaders in
  histories <- train_and_evaluate_shapes n_classes n_attr train_loader val_loader test_loader
                 subset_dir None fast device non_blocking n_bootstrap (Some base_seed) verbose ;;
  histories_total <- lift (add_histories C histories_total histories n_bootstrap) ;;
  ret (seed, Some histories_total).

(** The body of the loop over the subsets; the variable that it updates is
    [test_accuracies_lists]. *)
Definition run_subset (dataset_dir : string) (n_classes n_attr : Z) (n_bootstrap : Z)
    (fast : bool) (batch_size : Z) (device : option string) (non_blocking : bool)
    (base_seed verbose : Z) (class_dir : string)
    (test_accuracies_lists : list (list Q)) (subset : Z) : Py state (list (list Q)) :=
  let seed := base_seed in
  let subset_dir := "sub" +:+ PyStr.str subset +:+ "/" in
  (if negb (verbose =? 0)%Z
   then call (EvPrint ("Beginning subset " +:+ PyStr.str subset +:+ ":")) (λ e, (Ok tt, e))
   else ret tt) ;;;
  let histories_total : option (list History) := None in
  test_loader <- call (EvLoadData "test" dataset_dir "")
                   (load_data_shapes_test C dataset_dir "" batch_size) ;;
  vars <- for_each (range n_bootstrap)
            (bootstrap_iteration dataset_dir n_classes n_attr subset subset_dir test_loader
               n_bootstrap fast batch_size device non_blocking base_seed verbose)
            (seed, histories_total) ;;
  let '(seed, histories_total) := vars in
  test_accuracies_lists <-
    for_each (seq 0 (length (MODEL_STRINGS C)))
      (λ (lists : list (list Q)) (i : nat),
         a <- lift (test_accuracy_of histories_total i) ;;
         l <- lift (item lists i) ;;
         ret (<[i := l ++ [a]]> lists))
      test_accuracies_lists ;;
  let save_name :=
    class_dir +:+ "c" +:+ PyStr.str n_classes +:+ "_a" +:+ PyStr.str n_attr
      +:+ "_b" +:+ PyStr.str n_bootstrap in
  let save_name := save_name +:+ "_sub" +:+ PyStr.str subset +:+ ".png" in
  call (EvMakedirs ("plots/" +:+ class_dir)) (os_makedirs C ("plots/" +:+ class_dir)) ;;;
  call (EvPlotTrainingHistories "plots/" save_name)
    (plot_training_histories C histories_total (MODEL_STRINGS C) (COLORS C)
       save_name "plots/" save_name) ;;;
  let pickle_save_name :=
    "history/" +:+ class_dir +:+ "histories_sub" +:+ PyStr.str subset +:+ "_b"
      +:+ PyStr.str n_bootstrap +:+ ".pkl" in
  call (EvMakedirs ("history/" +:+ class_dir)) (os_makedirs C ("history/" +:+ class_dir)) ;;;
  call (EvPickleDump pickle_save_name)
    (pickle_dump_histories C histories_total pickle_save_name) ;;;
  (* Reset subset to base-seed *)
  call (EvMakeSubset dataset_dir subset n_classes base_seed)
    (make_subset_shapes C dataset_dir subset n_classes base_seed) ;;;
  ret test_accuracies_lists.

Definition run_models_on_subsets_and_plot (dataset_dir : string) (n_classes n_attr : Z)
    (subsets : list Z) (n_bootstrap : Z) (fast : bool) (batch_size : Z)
    (device : option string) (non_blocking : bool) (base_seed verbose : Z)
    : Py state unit :=
  let class_dir := class_dir_of n_classes n_attr fast in
  (* Test accuracies for every model for every subset *)
  let test_accuracies_lists : list (list Q) :=
    List.map (λ _, []) (seq 0 (length (MODEL_STRINGS C))) in
  test_accuracies_lists <-
    for_each subsets
      (run_subset dataset_dir n_classes n_attr n_bootstrap fast batch_size device
         non_blocking base_seed verbose class_dir)
      test_accuracies_lists ;;
  let accuracies_plot := class_dir +:+ "test_accuracies_b" +:+ PyStr.str n_bootstrap +:+ ".png" in
  call (EvPlotSubsetTestAccuracies accuracies_plot)
    (plot_subset_test_accuracies C subsets test_accuracies_lists (MODEL_STRINGS C) (COLORS C)
       accuracies_plot) ;;;
  let accuracies_pickle :=
    "history/" +:+ class_dir +:+ "test_accuracies_b" +:+ PyStr.str n_bootstrap +:+ ".pkl" in
  call (EvPickleDump accuracies_pickle)
    (pickle_dump_accuracies C test_accuracies_lists accuracies_pickle).

(** *** Notions used in the statements *)

(** The class logits of an output. *)
Definition rows_of (o : outputs) : list (list Q) :=
  match o with
  | Tensor rows => rows
  | Tuple rows _ => rows
  end.

(** The top-1 prediction of a row of logits. *)
Definition top1 (row : list Q) : Z :=
  match row with
  | [] => 0
  | x :: rest => Z.of_nat (argmax_from x 0 1 rest)
  end.

(** The number of correct top-1 predictions, in a batch and over a loader. *)
Definition batch_correct (m : model) (b : batch) : Z :=
  count_eq (combine (List.map top1 (rows_of (call_model (eval_mode m) (b_input b))))
                    (b_labels b)).

Definition total_correct (m : model) (loader : dataloader) : Z :=
  fold_right (λ b acc, (batch_correct m b + acc)%Z) 0%Z (batches loader).

(** The model gives one non-empty row of logits per label of each batch. *)
Definition well_shaped (m : model) (loader : dataloader) : bool :=
  forallb (λ b,
    let rows := rows_of (call_model (eval_mode m) (b_input b)) in
    (length rows =? length (b_labels b))%nat
    && forallb (λ row, negb (length row =? 0)%nat) rows)
    (batches loader).

(** The batches hold as many items as the dataset. *)
Definition covers (loader : dataloader) : bool :=
  (fold_right (λ b acc, (length (b_labels b) + acc)%nat) 0%nat (batches loader)
   =? length (dataset loader))%nat.

(** The calls made for one model by the loop of [train_and_evaluate_shapes]. *)
Definition model_events (model_name save_model_path save_name : string) (n_epochs_ : Z)
    (seed : option Z) : list event :=
  [EvPrint ("Running model " +:+ model_name +:+ ":"); EvMakedirs save_model_path]
  ++ match seed with
     | Some seed => [EvSeedEverything seed]
     | None => []
     end
  ++ [if String.eqb model_name "ShapesCNN"
      then EvTrainSimple model_name save_model_path save_name n_epochs_
      else EvTrainCbm model_name save_model_path save_name n_epochs_;
      EvTorchLoad (save_model_path +:+ save_name +:+ "_loss.pth")].

(** What the loop leaves for the model at index [i]: the calls [t] and the
    history [h']. The state-dict that is evaluated is the one read from the
    ["_loss.pth"] file of this model's training. *)
Definition model_outcome (n_classes n_attr : Z) (test_loader : dataloader) (sub_dir : string)
    (fast : bool) (device : string) (non_blocking : bool) (n_bootstrap : Z)
    (seed : option Z) (models : list model) (i : nat) (t : list event) (h' : History)
    : Prop :=
  ∃ model_ model_string sd e1 e2 test_accuracy h,
    models !! i = Some model_
    ∧ MODEL_STRINGS C !! i = Some model_string
    ∧ t = model_events (name model_)
            ("saved_models/" +:+ class_dir_of n_classes n_attr fast +:+ sub_dir)
            (model_string +:+ "_b" +:+ PyStr.str n_bootstrap)
            (if fast then 2%Z else MAX_EPOCHS C) seed
    ∧ torch_load_file C
        (("saved_models/" +:+ class_dir_of n_classes n_attr fast +:+ sub_dir)
           +:+ (model_string +:+ "_b" +:+ PyStr.str n_bootstrap) +:+ "_loss.pth") e1
      = (Ok sd, e2)
    ∧ evaluate_on_test_set (load_state_dict model_ sd) test_loader (Some device) non_blocking
      = Ok test_accuracy
    ∧ h' = <["test_accuracy" := [test_accuracy]]> h.

(** The device that [train_and_evaluate_shapes] ends up with. *)
Definition resolve_device (device : option string) : string :=
  match device with
  | None => if cuda_is_available then "cuda" else "cpu"
  | Some d => if String.eqb d "" then (if cuda_is_available then "cuda" else "cpu") else d
  end.

(** A [torch.load] among the calls reads a file named [..._loss.pth]. *)
Definition loads_loss_checkpoint (e : event) : Prop :=
  match e with
  | EvTorchLoad path => ∃ stem, path = stem +:+ "_loss.pth"
  | _ => True
  end.

(** The history holds exactly one value under ["test_accuracy"]. *)
Definition has_test_accuracy (h : History) : Prop :=
  ∃ test_accuracy, h !! "test_accuracy" = Some [test_accuracy].

(** Where a call puts or looks for an artifact: under [saved_models/],
    [plots/] or [history/], always inside the folder [class_dir]. *)
Definition artifact_in (class_dir : string) (e : event) : Prop :=
  match e with
  | EvMakedirs path =>
      (∃ rest, path = "saved_models/" +:+ class_dir +:+ rest)
      ∨ path = "plots/" +:+ class_dir ∨ path = "history/" +:+ class_dir
  | EvTrainSimple _ model_dir_ _ _ | EvTrainCbm _ model_dir_ _ _ =>
      ∃ rest, model_dir_ = "saved_models/" +:+ class_dir +:+ rest
  | EvTorchLoad path => ∃ rest, path = "saved_models/" +:+ class_dir +:+ rest
  | EvPlotTrainingHistories save_dir save_name =>
      save_dir = "plots/" ∧ ∃ file, save_name = class_dir +:+ file
  | EvPlotSubsetTestAccuracies save_name => ∃ file, save_name = class_dir +:+ file
  | EvPickleDump path => ∃ file, path = "history/" +:+ class_dir +:+ file
  | _ => True
  end.

(** Calls that set up the models, before any of them is trained. *)
Definition is_setup (e : event) : bool :=
  match e with
  | EvGetHyperparameters _ _ _ _ | EvLoadModels _ _ => true
  | _ => false
  end.




End Eval.
End Evaluation.

(** ** [utils.add_histories] *)

Module Utils.
Section AddHistories.

(** The values of a history and their addition (floating-point addition in
    the program; nothing is assumed of it). *)
Context {V : Type}.
Variable add : V → V → V.

(** Elementwise addition of two sequences of the same length. *)
Fixpoint add_sequences (xs ys : list V) : result (list V) :=
  match xs, ys with
  | [], [] => Ok []
  | x :: xs', y :: ys' =>
      match add_sequences xs' ys' with
      | Ok r => Ok (add x y :: r)
      | Raise e => Raise e
      end
  | _, _ => Raise (ValueError "operands could not be broadcast together")
  end.

(** One model's histories: every metric key present in both is summed; a
    key of the running total that the new history lacks is kept. *)
Definition add_history (total new : gmap string (list V))
    : result (gmap string (list V)) :=
  let merged : gmap string (result (list V)) :=
    merge (λ a b, match a, b with
                  | Some xs, Some ys => Some (add_sequences xs ys)
                  | Some xs, None => Some (Ok xs)
                  | None, _ => None
                  end) total new in
  if decide (map_Forall (λ _ r, is_ok r = true) merged)
  then Ok (omap (λ r, match r with Ok l => Some l | Raise _ => None end) merged)
  else Raise (ValueError "operands could not be broadcast together").

Fixpoint add_all (total new : list (gmap string (list V)))
    : result (list (gmap string (list V))) :=
  match total, new with
  | [], [] => Ok []
  | t :: total', h :: new' =>
      match add_history t h, add_all total' new' with
      | Ok s, Ok rest => Ok (s :: rest)
      | Raise e, _ => Raise e
      | _, Raise e => Raise e
      end
  | _, _ => Raise IndexError
  end.

(** Modelled from the spec: [add_histories] is imported from [utils], which
    is not among the sources. The specification gives
    [accumulate(running_total, new_histories, n_bootstrap)]: on the first
    call ([running_total = None]) the new histories are returned unchanged;
    afterwards, for each model index and each metric key present in both,
    the sequences are added elementwise, sequences of different lengths
    being an error; the function only sums and leaves the division by
    [n_bootstrap] to its caller. Lists with different numbers of models, of
    which the specification says nothing, are an error here. *)
Definition add_histories (running_total : option (list (gmap string (list V))))
    (new_histories : list (gmap string (list V))) (n_bootstrap : Z)
    : result (list (gmap string (list V))) :=
  match running_total with
  | None => Ok new_histories
  | Some total => add_all total new_histories
  end.

(** [accumulate(accumulate(None, A, n), B, n)]. *)
Definition accumulate_twice (a b : list (gmap string (list V))) (n_bootstrap : Z)
    : result (list (gmap string (list V))) :=
  match add_histories None a n_bootstrap with
  | Ok running_total => add_histories (Some running_total) b n_bootstrap
  | Raise e => Raise e
  end.

(** Two lists of histories fit: as many models, and under every metric key
    that a model has in both, sequences of the same length. *)
Definition same_shape (a b : list (gmap string (list V))) : Prop :=
  Forall2 (λ ha hb : gmap string (list V),
             ∀ key xs ys, ha !! key = Some xs → hb !! key = Some ys →
                          length xs = length ys) a b.

End AddHistories.
End Utils.

(** ** A concrete configuration

    Values for the constants and small stand-ins for the collaborators, on
    which the functions above can be run. *)

Module Example.

Definition K : constants :=
  MkConstants "results/" "shapes/" "cub/" "history/" "saved_models/" "plots/"
    "hyperparameters/" "oracle/" "fast.yaml" "fast_hard.yaml" "default.yaml"
    "default_hard.yaml" ["cnn"; "cbm"; "cbm_res"; "cbm_skip"; "scm"].

(** State-dicts and pickled histories are numbers here. *)
Definition empty_world : world nat nat := MkWorld ∅ [].

Definition cnn_values : gmap string hpval :=
  {[ "learning_rate" := HFloat "0.001"; "gamma" := HFloat "0.7" ]}.

Definition cbm_values : gmap string hpval :=
  {[ "learning_rate" := HFloat "0.01"; "gamma" := HFloat "0.1";
     "attr_weight" := HFloat "1.0"; "hard" := HBool false ]}.

Definition soft_set : hpset := {[ "cnn" := cnn_values; "cbm" := cbm_values ]}.

Definition default_hard_set : hpset :=
  {[ "cbm" := {[ "learning_rate" := HFloat "0.005"; "hard" := HBool true ]} ]}.

Definition hp_folder : Path :=
  MkPath "" ["results"; "hyperparameters"; "shapes"; "c10_a5_s98"].

(** Only the soft hyperparameters of subset 3 are on disk. *)
Definition soft_only_world : world nat nat :=
  MkWorld {[ hp_folder </> MkPath "" ["hyperparameters_sub3.yaml"]
               := File (CYaml (Some soft_set)) ]} [].

(** Only the default hyperparameters for hard bottlenecks are on disk. *)
Definition default_only_world : world nat nat :=
  MkWorld {[ MkPath "" ["results"; "hyperparameters"; "shapes"; "default_hard.yaml"]
               := File (CYaml (Some default_hard_set)) ]} [].

(** Collaborators of [evaluation.py]: a batch is a number, the outside
    state is the set of checkpoint files. *)
Definition logits (x : nat) : list (list Q) :=
  match x with
  | O => [[1%Q; 0%Q]; [0%Q; 1%Q]]
  | _ => [[0%Q; 1%Q]; [1%Q; 0%Q]]
  end.

Definition cnn : @Evaluation.model nat nat :=
  Evaluation.MkModel "ShapesCNN" 0%nat true (λ _ _ x, Evaluation.Tensor (logits x)).

Definition cbm : @Evaluation.model nat nat :=
  Evaluation.MkModel "ShapesCBM" 0%nat true
    (λ _ _ x, Evaluation.Tuple (logits x) [[1%Q]; [1%Q]]).

Definition test_loader : @Evaluation.dataloader nat unit :=
  Evaluation.MkLoader [(0%Z, "a.png"); (1%Z, "b.png"); (1%Z, "c.png"); (1%Z, "d.png")]
    [Evaluation.MkBatch 0%nat [0%Z; 1%Z] tt ["a.png"; "b.png"];
     Evaluation.MkBatch 1%nat [1%Z; 1%Z] tt ["c.png"; "d.png"]].

Definition empty_loader : @Evaluation.dataloader nat unit :=
  Evaluation.MkLoader [] [].

Definition trainer (m : @Evaluation.model nat nat) (a : Evaluation.train_args)
    (train val : @Evaluation.dataloader nat unit) (files : gmap string nat)
    : result History * gmap string nat :=
  let stem := Evaluation.model_dir a +:+ Evaluation.model_save_name a in
  (Ok {[ "train_loss" := [(1 # 2)%Q; (1 # 4)%Q]; "val_loss" := [(1 # 2)%Q; (1 # 3)%Q] ]},
   <[stem +:+ "_loss.pth" := 1%nat]> (<[stem +:+ "_accuracy.pth" := 2%nat]> files)).

Definition collaborators
    : @Evaluation.collaborators nat unit nat (gmap string nat) :=
  Evaluation.MkCollaborators
    ["cnn"; "cbm"] ["red"; "blue"] 50%Z
    (λ _ _ _ _ e, (Ok soft_set, e))
    (λ _ _ _ e, (Ok [cnn; cbm], e))
    (λ _ e, (Ok tt, e))
    (Utils.add_histories Qplus)
    trainer trainer
    (λ _ _ _ e, (Ok test_loader, e))
    (λ _ _ _ e, (Ok (test_loader, test_loader), e))
    (λ _ _ _ _ e, (Ok tt, e))
    (λ _ _ _ _ _ _ e, (Ok tt, e))
    (λ _ _ _ _ _ e, (Ok tt, e))
    (λ _ e, (Ok tt, e))
    (λ p e, match e !! p with
            | Some sd => (Ok sd, e)
            | None => (Raise (FileNotFoundError p), e)
            end)
    (λ _ _ e, (Ok tt, e))
    (λ _ _ e, (Ok tt, e)).

Definition start : @Evaluation.state (gmap string nat) := Evaluation.MkState [] ∅.

(** The driver on subsets 3 and 7 with two bootstrap iterations. *)
Definition run : result unit * @Evaluation.state (gmap string nat) :=
  Evaluation.run_models_on_subsets_and_plot false collaborators
    "data/shapes/" 10 5 [3%Z; 7%Z] 2 false 16 None false 57 1 start.

(** One call of the orchestrator, on subset 3. *)
Definition train : result (list History) * @Evaluation.state (gmap string nat) :=
  Evaluation.train_and_evaluate_shapes false collaborators 10 5 test_loader test_loader
    test_loader "sub3/" None false None false 2 (Some 57%Z) 1 start.

(** The weights of a CNN saved with the hard-bottleneck flag set. *)
Definition saved_cnn : result unit * world nat nat :=
  PathUtils.save_model_shapes K (Some 10%Z) (Some 5%Z) (Some 98%Z) (Some 3%Z)
    7%nat "cnn" "loss" true false empty_world.

(** Histories of one model over two bootstrap iterations. *)
Definition first_run : list (gmap string (list Z)) :=
  [ {[ "test_accuracy" := [75%Z] ]} ].

Definition second_run : list (gmap string (list Z)) :=
  [ {[ "test_accuracy" := [50%Z] ]} ].

Definition short_run : list (gmap string (list Z)) :=
  [ {[ "test_accuracy" := [] ]} ].

End Example.

(** ** The rest of [path_utils]: data lists and the CUB results *)

#[global] Instance under_dec (d p : Path) : Decision (PathLib.under d p).
Proof. unfold PathLib.under. apply _. Defined.

Section Shutil.

Context {state_dict history : Type}.
Local Abbreviation M := (Py (world state_dict history)).

(** [shutil.rmtree(p)]: a directory goes with everything in its tree; a
    regular file and a missing path are errors. The working directory and
    the roots cannot be removed themselves: what they hold goes, then the
    call fails. *)
Definition rmtree (p : Path) : M unit :=
  f <- get_fs ;;
  let rest := filter (λ entry, ¬ PathLib.under p entry.1) f in
  match names p with
  | [] => put_fs rest ;;; raise (RuntimeError "OSError: [Errno 22] Invalid argument")
  | _ =>
      match f !! p with
      | Some Dir => put_fs rest
      | Some (File _) => raise (NotADirectoryError (PathLib.as_posix p))
      | None => raise (FileNotFoundError (PathLib.as_posix p))
      end
  end.

(** [try: body] with [except Exception: handler]; every exception of [exn]
    is an [Exception]. *)
Definition try_except {A} (body : M A) (handler : exn → M A) : M A :=
  λ w, match body w with
       | (Ok a, w') => (Ok a, w')
       | (Raise e, w') => handler e w'
       end.

End Shutil.

(** More names of [src/constants.py]. *)
Record data_constants : Type := MkDataConstants {
  DATA_FOLDER : string;
  CUB_TABLES_FOLDER : string;
  MODEL_STRINGS_ALL_CUB : list string
}.

Module PathUtilsData.
Section DataLists.

(** A data list is a pickled object like a history: the pickles of the
    world are of one type here. *)
Context {state_dict pickled : Type}.
Variable K : constants.
Variable D : data_constants.
Local Abbreviation M := (Py (world state_dict pickled)).

Definition get_shapes_dataset_path (n_classes n_attr signal_strength : option Z)
    (check_already_exists : bool) : M Path :=
  let base_path := PathLib.of_str (DATA_FOLDER D +:+ SHAPES_FOLDER K) in
  let base_folder_name :=
    if bool_decide (n_classes = Some 10%Z) && bool_decide (n_attr = Some 5%Z)
       && bool_decide (signal_strength = Some 98%Z)
    then PathLib.of_str "shapes_2k_"   (* c10_a5 (s98) has 2k images of each class *)
    else PathLib.of_str "shapes_1k_" in
  let signal_string := "_s" +:+ PyStr.fmt signal_strength in
  let folder_name := PathLib.of_str
    (PathLib.as_posix base_folder_name +:+ "c" +:+ PyStr.fmt n_classes +:+ "_a"
       +:+ PyStr.fmt n_attr +:+ signal_string +:+ "/") in
  let dataset_path := base_path </> folder_name in
  (if check_already_exists then
     present <- exists_ dataset_path ;;
     if negb present then
       raise (ValueError
         ("Shapes dataset for n_classes=" +:+ PyStr.fmt n_classes +:+ ", n_attr="
            +:+ PyStr.fmt n_attr +:+ ", signal_strength=" +:+ PyStr.fmt signal_strength
            +:+ " does not exist. "
            +:+ "Check if there were a typo, or create the dataset with "
            +:+ "`src/datasets/make_shapes_datasets.py. "))
     else ret tt
   else ret tt) ;;;
  ret dataset_path.

Definition load_data_list_shapes (n_classes n_attr signal_strength n_subset : option Z)
    (mode : string) : M pickled :=
  dataset_path <- get_shapes_dataset_path n_classes n_attr signal_strength true ;;
  let filename := PathLib.of_str (mode +:+ "_data.pkl") in
  let data_list_path :=
    match n_subset with
    | Some _ =>
        dataset_path </> PathLib.of_str "tables/"
          </> PathLib.of_str ("sub" +:+ PyStr.fmt n_subset) </> filename
    | None =>   (* Load the full dataset-data-list *)
        dataset_path </> PathLib.of_str "tables/" </> filename
    end in
  try_except (pickle_load data_list_path)
    (λ _, raise (FileNotFoundError
       ("Data-list " +:+ PathLib.as_posix data_list_path
          +:+ " not found. Try creating datalist with make_subset_shapes() from "
          +:+ "src.datasets.datasets_shapes.py, or create datasets with "
          +:+ "src.datasets.make_shapes_datasets.py. "))).

Definition write_data_list_shapes (n_classes n_attr signal_strength n_subset : option Z)
    (train_data val_data : pickled) : M unit :=
  dataset_path <- get_shapes_dataset_path n_classes n_attr signal_strength true ;;
  let tables_path :=
    dataset_path </> PathLib.of_str "tables"
      </> PathLib.of_str ("sub" +:+ PyStr.fmt n_subset) in
  present <- exists_ tables_path ;;
  (if present then rmtree tables_path   (* Delete previous folder and re-create *)
   else ret tt) ;;;
  makedirs tables_path false ;;;
  train_filename <-
    PathUtils.make_file_path (APath tables_path) (AStr "train_data.pkl") true ;;
  val_filename <-
    PathUtils.make_file_path (APath tables_path) (AStr "val_data.pkl") true ;;
  pickle_dump train_data train_filename ;;;
  pickle_dump val_data val_filename.

Definition load_data_list_cub (mode : string) (n_subset : option Z) : M pickled :=
  let base_path := PathLib.of_str (DATA_FOLDER D) in
  let filename := PathLib.of_str (mode +:+ ".pkl") in
  let data_list_path :=
    match n_subset with
    | Some _ =>
        base_path </> PathLib.of_str (CUB_TABLES_FOLDER D)
          </> PathLib.of_str ("sub" +:+ PyStr.fmt n_subset) </> filename
    | None =>   (* Load the full dataset-data-list *)
        base_path </> PathLib.of_str (CUB_TABLES_FOLDER D) </> filename
    end in
  try_except (pickle_load data_list_path)
    (λ _, raise (FileNotFoundError
       ("Data-list " +:+ PathLib.as_posix data_list_path
          +:+ " not found. Try creating datalist with make_subset_cub() from "
          +:+ "`src.datasets.datasets_cub.py`, and check the paths in "
          +:+ "`src.constants.py`. "))).

Definition write_data_list_cub (n_subset : option Z) (train_data val_data : pickled)
    : M unit :=
  let base_path := PathLib.of_str (DATA_FOLDER D) in
  let tables_path :=
    base_path </> PathLib.of_str (CUB_TABLES_FOLDER D)
      </> PathLib.of_str ("sub" +:+ PyStr.fmt n_subset) in
  present <- exists_ tables_path ;;
  (if present then rmtree tables_path   (* Delete previous folder and re-create *)
   else ret tt) ;;;
  makedirs tables_path false ;;;
  train_filename <- PathUtils.make_file_path (APath tables_path) (AStr "train.pkl") true ;;
  val_filename <- PathUtils.make_file_path (APath tables_path) (AStr "val.pkl") true ;;
  pickle_dump train_data train_filename ;;;
  pickle_dump val_data val_filename.

Definition write_test_data_list_cub (test_data_list : pickled) (filename : pathlike)
    : M unit :=
  let base_path := PathLib.of_str (DATA_FOLDER D) in
  let tables_path := base_path </> PathLib.of_str (CUB_TABLES_FOLDER D) in
  save_path <- PathUtils.make_file_path (APath tables_path) filename true ;;
  pickle_dump test_data_list save_path.

(** *** Paths named in the statements *)

(** The folder of the data lists of one Shapes dataset, the one of the CUB
    dataset, and their folders for one subset. *)
Definition shapes_dataset (n_classes n_attr signal_strength : option Z) : Path :=
  PathLib.of_str (DATA_FOLDER D +:+ SHAPES_FOLDER K)
    </> MkPath "" [(if bool_decide (n_classes = Some 10%Z) && bool_decide (n_attr = Some 5%Z)
                       && bool_decide (signal_strength = Some 98%Z)
                    then "shapes_2k_" else "shapes_1k_")
                     +:+ "c" +:+ PyStr.fmt n_classes +:+ "_a" +:+ PyStr.fmt n_attr
                     +:+ "_s" +:+ PyStr.fmt signal_strength].

Definition shapes_tables (n_classes n_attr signal_strength n_subset : option Z) : Path :=
  shapes_dataset n_classes n_attr signal_strength
    </> MkPath "" ["tables"] </> MkPath "" ["sub" +:+ PyStr.fmt n_subset].

Definition cub_tables : Path :=
  PathLib.of_str (DATA_FOLDER D) </> PathLib.of_str (CUB_TABLES_FOLDER D).

Definition cub_subset_tables (n_subset : option Z) : Path :=
  cub_tables </> MkPath "" ["sub" +:+ PyStr.fmt n_subset].

(** The folder [d] is a directory, or neither it nor anything in its tree
    exists; and no regular file stands where a directory of the way to [d]
    has to be. *)
Definition replaceable (f : gmap Path (node state_dict pickled)) (d : Path) : Prop :=
  creatable f d
  ∧ (f !! d = Some Dir ∨ ∀ q, PathLib.under d q → f !! q = None).

End DataLists.
End PathUtilsData.

Module PathUtilsCub.
Section Cub.

Context {state_dict history : Type}.
Variable K : constants.
Variable D : data_constants.
Local Abbreviation M := (Py (world state_dict history)).

Definition get_cub_folder_path (relative_folder : string) : result Path :=
  let base_folder := PathLib.of_str (RESULTS_FOLDER K) in
  match PathUtils.get_dataset_folder K "cub" with
  | Raise e => Raise e
  | Ok dataset_folder =>
      let full_shapes_folder :=
        base_folder </> PathLib.of_str relative_folder </> dataset_folder in
      Ok full_shapes_folder
  end.

(** [f"_sub{n_subset}"], and ["_full"] for [None], which means the full
    dataset. *)
Definition sub_string (n_subset : option Z) : string :=
  match n_subset with
  | Some _ => "_sub" +:+ PyStr.fmt n_subset
  | None => "_full"
  end.

Definition load_history_cub (n_bootstrap n_subset : option Z)
    (hard_bottleneck oracle_only : bool) : M history :=
  folder_name <- lift (get_cub_folder_path (HISTORY_FOLDER K)) ;;
  let folder_name :=
    if oracle_only then folder_name </> PathLib.of_str (ORACLE_FOLDER K) else folder_name in
  let bottleneck := PathUtils.hard_suffix hard_bottleneck in
  let filename := PathLib.of_str
    ("histories" +:+ sub_string n_subset +:+ "_b" +:+ PyStr.fmt n_bootstrap
       +:+ bottleneck +:+ ".pkl") in
  file_path <- PathUtils.make_file_path (APath folder_name) (APath filename) false ;;
  pickle_load file_path.

Definition save_history_cub (n_bootstrap n_subset : option Z) (history_ : history)
    (oracle_only hard_bottleneck : bool) : M unit :=
  folder_name <- lift (get_cub_folder_path (HISTORY_FOLDER K)) ;;
  let folder_name :=
    if oracle_only then folder_name </> PathLib.of_str (ORACLE_FOLDER K) else folder_name in
  let bottleneck := PathUtils.hard_suffix hard_bottleneck in
  let filename := PathLib.of_str
    ("histories" +:+ sub_string n_subset +:+ "_b" +:+ PyStr.fmt n_bootstrap
       +:+ bottleneck +:+ ".pkl") in
  file_path <- PathUtils.make_file_path (APath folder_name) (APath filename) true ;;
  pickle_dump history_ file_path.

Definition check_model_type_cub (model_type : string) : result unit :=
  if negb (PyStr.mem model_type (MODEL_STRINGS_ALL_CUB D)) then
    Raise (ValueError
      ("Argument `model_type` must be in "
         +:+ PathUtils.repr_list (MODEL_STRINGS_ALL_CUB D)
         +:+ ". " +:+ "Was " +:+ model_type +:+ ". "))
  else Ok tt.

Definition load_model_cub (n_subset : option Z) (model_type metric : string)
    (hard_bottleneck adversarial : bool) : M state_dict :=
  let model_type := PyStr.lower (PyStr.strip_ws model_type) in
  lift (check_model_type_cub model_type) ;;;
  folder_name <- lift (get_cub_folder_path (SAVED_MODELS_FOLDER K)) ;;
  let bottleneck := PathUtils.hard_suffix hard_bottleneck in
  let adversarial_string := PathUtils.adversarial_suffix adversarial in
  let filename := PathLib.of_str
    (model_type +:+ sub_string n_subset +:+ "_" +:+ metric +:+ bottleneck
       +:+ adversarial_string +:+ ".pth") in
  file_path <- PathUtils.make_file_path (APath folder_name) (APath filename) false ;;
  torch_load file_path.

Definition save_model_cub (n_subset : option Z) (state_dict_ : state_dict)
    (model_type metric : string) (hard_bottleneck adversarial : bool) : M unit :=
  let model_type := PyStr.lower (PyStr.strip_ws model_type) in
  lift (check_model_type_cub model_type) ;;;
  folder_name <- lift (get_cub_folder_path (SAVED_MODELS_FOLDER K)) ;;
  let bottleneck :=
    if String.eqb model_type "cnn" || negb hard_bottleneck then "" else "_hard" in
  let adversarial_string := PathUtils.adversarial_suffix adversarial in
  let filename := PathLib.of_str
    (model_type +:+ sub_string n_subset +:+ "_" +:+ metric +:+ bottleneck
       +:+ adversarial_string +:+ ".pth") in
  file_path <- PathUtils.make_file_path (APath folder_name) (APath filename) true ;;
  torch_save state_dict_ file_path.

Definition load_hyperparameters_cub (n_subset : option Z)
    (hard_bottleneck fast default : bool) : M (option hpset) :=
  folder_name <- lift (get_cub_folder_path (HYPERPARAMETERS_FOLDER K)) ;;
  if fast then
    (* the file names are the same for Shapes and Cub *)
    let fast_file :=
      if hard_bottleneck then FAST_HYPERPARAMETERS_FILENAME_SHAPES_HARD K
      else FAST_HYPERPARAMETERS_FILENAME_SHAPES K in
    fast_path <- PathUtils.make_file_path (APath folder_name) (AStr fast_file) false ;;
    yaml_load fast_path
  else
  (* the block under [if default:] *)
  let use_default : M (option hpset) :=
    let default_file :=
      if hard_bottleneck then DEFAULT_HYPERPARAMETERS_FILENAME_SHAPES_HARD K
      else DEFAULT_HYPERPARAMETERS_FILENAME_SHAPES K in
    default_path <- PathUtils.make_file_path (APath folder_name) (AStr default_file) false ;;
    yaml_load default_path in
  (* the warning that ends the block "no hp for this class-attr-sub" *)
  let fall_back (file_path : Path) : M (option hpset) :=
    warn ("No hyperparameters found for n_subset=" +:+ PyStr.fmt n_subset +:+ ". "
            +:+ "Tried path " +:+ PathLib.as_posix file_path +:+ ". "
            +:+ "Falling back on default hyperparameters. ") ;;;
    use_default in
  let bottleneck := PathUtils.hard_suffix hard_bottleneck in
  let filename := PathLib.of_str
    ("hyperparameters" +:+ sub_string n_subset +:+ bottleneck +:+ ".yaml") in
  file_path <- PathUtils.make_file_path (APath folder_name) (APath filename) false ;;
  present <- exists_ file_path ;;
  if negb default && negb present then
    if hard_bottleneck then
      let alt_filename := PathLib.of_str
        ("hyperparameters" +:+ sub_string n_subset +:+ ".yaml") in
      alt_file_path <-
        PathUtils.make_file_path (APath folder_name) (APath alt_filename) false ;;
      let file_path := alt_file_path in
      alt_present <- exists_ alt_file_path ;;
      if alt_present then
        warn ("No hard hyperparameters found for n_subset=" +:+ PyStr.fmt n_subset
                +:+ ". " +:+ "Tried path " +:+ PathLib.as_posix file_path +:+ ". "
                +:+ "Using soft hyperparameters with hard set to `True`. ") ;;;
        hyperparameters <- yaml_load alt_file_path ;;
        match hyperparameters with
        | None => raise (TypeError "'NoneType' object is not iterable")
        | Some hyperparameters => ret (Some (PathUtils.set_hard hyperparameters))
        end
      else fall_back file_path
    else fall_back file_path
  else if default then use_default
  else yaml_load file_path.

Definition save_hyperparameters_cub (n_subset : option Z)
    (hyperparameters_dict : gmap string hpval) (model_type : string)
    (hard_bottleneck : bool) : M unit :=
  lift (check_model_type_cub model_type) ;;;
  folder_name <- lift (get_cub_folder_path (HYPERPARAMETERS_FOLDER K)) ;;
  let bottleneck := PathUtils.hard_suffix hard_bottleneck in
  let filename := PathLib.of_str
    ("hyperparameters" +:+ sub_string n_subset +:+ bottleneck +:+ ".yaml") in
  file_path <- PathUtils.make_file_path (APath folder_name) (APath filename) false ;;
  present <- exists_ file_path ;;
  if negb present then
    makedirs folder_name true ;;;
    let hyperparameters_full : hpset := {[ model_type := hyperparameters_dict ]} in
    yaml_dump file_path hyperparameters_full
  else
    hyperparameters_full <- yaml_load file_path ;;
    let hyperparameters_full : hpset :=
      match hyperparameters_full with
      | None => ∅
      | Some full => full
      end in
    let hyperparameters_full := <[ model_type := hyperparameters_dict ]> hyperparameters_full in
    yaml_dump file_path hyperparameters_full.

(** *** Paths named in the statements *)

(** The CUB folder of one kind of result. *)
Definition cub_folder (relative_folder : string) : Path :=
  PathLib.of_str (RESULTS_FOLDER K) </> PathLib.of_str relative_folder
    </> PathLib.of_str (CUB_FOLDER K).

(** The folder of the histories, inside the oracle folder or not. *)
Definition history_folder (oracle_only : bool) : Path :=
  if oracle_only then cub_folder (HISTORY_FOLDER K) </> PathLib.of_str (ORACLE_FOLDER K)
  else cub_folder (HISTORY_FOLDER K).

(** The hyperparameter file of one subset and hardness. *)
Definition cub_hp_file (n_subset : option Z) (hard_bottleneck : bool) : Path :=
  cub_folder (HYPERPARAMETERS_FOLDER K)
    </> MkPath "" ["hyperparameters" +:+ sub_string n_subset
                     +:+ PathUtils.hard_suffix hard_bottleneck +:+ ".yaml"].

End Cub.
End PathUtilsCub.

(** ** More notions for [evaluation.py] *)

Module EvaluationCalls.
Section Eval.

Context {input attr_labels state_dict env : Type}.
Variable C : @Evaluation.collaborators input attr_labels state_dict env.

(** What the driver asks of its collaborators for its subsets: a request
    for hyperparameters is for the classes, attributes and mode of the run
    and for one of the subsets; a checkpoint that is loaded is the
    ["_loss.pth"] file of one of the models in the folder of one of the
    subsets, named after the number of bootstrap iterations of the run
    (not after the iteration at hand). *)
Definition driver_call (n_classes n_attr : Z) (subsets : list Z) (n_bootstrap : Z)
    (fast : bool) (e : event) : Prop :=
  match e with
  | EvGetHyperparameters n a n_subset f =>
      n = n_classes ∧ a = n_attr ∧ n_subset ∈ subsets ∧ f = fast
  | EvTorchLoad path =>
      ∃ subset model_string,
        subset ∈ subsets ∧ model_string ∈ Evaluation.MODEL_STRINGS C
        ∧ path = "saved_models/" +:+ Evaluation.class_dir_of n_classes n_attr fast
                   +:+ "sub" +:+ PyStr.str subset +:+ "/"
                   +:+ model_string +:+ "_b" +:+ PyStr.str n_bootstrap +:+ "_loss.pth"
  | _ => True
  end.

End Eval.
End EvaluationCalls.

(** ** A concrete configuration for the data lists and for CUB *)

Module ExampleData.

Definition D : data_constants :=
  MkDataConstants "data/" "cub/tables/" ["cnn"; "cbm"; "cbm_res"; "cbm_skip"; "scm"].

(** The folder of subset 10 of CUB, with a test list from an earlier run. *)
Definition cub_sub10 : Path := MkPath "" ["data"; "cub"; "tables"; "sub10"].

Definition cub_world : world nat nat :=
  MkWorld {[ MkPath "" ["data"] := Dir;
             MkPath "" ["data"; "cub"] := Dir;
             MkPath "" ["data"; "cub"; "tables"] := Dir;
             cub_sub10 := Dir;
             cub_sub10 </> MkPath "" ["test.pkl"] := File (CPickle 9%nat) ]} [].

(** The Shapes dataset of 10 classes and 5 attributes, with the folder of
    subset 3 holding a list from an earlier run. *)
Definition shapes_sub3 : Path :=
  MkPath "" ["data"; "shapes"; "shapes_2k_c10_a5_s98"; "tables"; "sub3"].

Definition shapes_world : world nat nat :=
  MkWorld {[ MkPath "" ["data"] := Dir;
             MkPath "" ["data"; "shapes"] := Dir;
             MkPath "" ["data"; "shapes"; "shapes_2k_c10_a5_s98"] := Dir;
             MkPath "" ["data"; "shapes"; "shapes_2k_c10_a5_s98"; "tables"] := Dir;
             shapes_sub3 := Dir;
             shapes_sub3 </> MkPath "" ["test_data.pkl"] := File (CPickle 9%nat) ]} [].

(** The fast and the default hyperparameters of CUB. *)
Definition cub_hp_world : world nat nat :=
  MkWorld {[ MkPath "" ["results"; "hyperparameters"; "cub"; "fast.yaml"]
               := File (CYaml (Some Example.soft_set));
             MkPath "" ["results"; "hyperparameters"; "cub"; "default.yaml"]
               := File (CYaml (Some Example.default_hard_set)) ]} [].

End ExampleData.

(** ** What a completed run of [evaluation.py] consists of

    The runs of the orchestrator and of the driver, told call by call: each
    call is the collaborator itself run on the outside state that the call
    before it left. *)

Module EvaluationScript.
Import Evaluation.
Section Script.

Context {input attr_labels state_dict env : Type}.
Variable cuda_is_available : bool.
Variable C : @collaborators input attr_labels state_dict env.
Local Abbreviation state := (@state env).
Local Abbreviation model := (@model input state_dict).
Local Abbreviation dataloader := (@dataloader input attr_labels).

(** The call [ev] is made from [st]: the collaborator [f] runs on the
    outside state of [st], returns [a] and leaves the outside state of
    [st'], where the call is on record after those of [st]. *)
Definition made {A} (ev : event) (f : env → result A * env) (a : A) (st st' : state)
    : Prop :=
  f (ext st) = (Ok a, ext st') ∧ trace st' = trace st ++ [ev].

(** A [for] loop over [l] as a chain of turns, each from the variables and
    the state that the turn before it left. *)
Fixpoint turns {A B} (turn : B → A → state → B → state → Prop) (l : list A)
    (b : B) (st : state) (b' : B) (st' : state) : Prop :=
  match l with
  | [] => b' = b ∧ st' = st
  | x :: rest => ∃ b1 st1, turn b x st b1 st1 ∧ turns turn rest b1 st1 b' st'
  end.

(** Where the checkpoints of a model go, and what the trainers are given. *)
Definition checkpoint_folder (n_classes n_attr : Z) (fast : bool) (sub_dir : string)
    : string :=
  "saved_models/" +:+ class_dir_of n_classes n_attr fast +:+ sub_dir.

Definition checkpoint_name (model_string : string) (n_bootstrap : Z) : string :=
  model_string +:+ "_b" +:+ PyStr.str n_bootstrap.

Definition trainer_args (lr gamma : hpval) (w : option hpval) (fast : bool)
    (device : string) (non_blocking : bool) (verbose : Z) (folder save_name : string)
    : train_args :=
  MkTrainArgs lr 5 gamma w (if fast then 2%Z else MAX_EPOCHS C) None device non_blocking
    verbose folder save_name None.

(** The turn of the model at index [i] in [train_and_evaluate_shapes]: the
    model is announced, its checkpoint folder is made, the random state is
    seeded when a seed is given, the model is trained ([train_simple] for
    ["ShapesCNN"], [train_cbm] otherwise) and its history is [history];
    from the state that the trainer left, the file
    [folder + save_name + "_loss.pth"] is loaded; the model with the loaded
    state-dict is evaluated on the test loader, and the trainer's history
    with ["test_accuracy"] set to the one accuracy is appended. *)
Definition model_turn (n_classes n_attr : Z)
    (train_loader val_loader test_loader : dataloader) (sub_dir : string) (hp : hpset)
    (fast : bool) (device : string) (non_blocking : bool) (n_bootstrap : Z)
    (seed : option Z) (verbose : Z) (models : list model)
    (histories : list History) (i : nat) (st : state)
    (histories' : list History) (st' : state) : Prop :=
  ∃ model_ model_string lr gamma st1 st2 st3 st4 history state_dict_ test_accuracy,
    models !! i = Some model_
    ∧ MODEL_STRINGS C !! i = Some model_string
    ∧ hp_item hp model_string "learning_rate" = Ok lr
    ∧ hp_item hp model_string "gamma" = Ok gamma
    ∧ made (EvPrint ("Running model " +:+ name model_ +:+ ":")) (λ e, (Ok tt, e)) tt st st1
    ∧ made (EvMakedirs (checkpoint_folder n_classes n_attr fast sub_dir))
        (os_makedirs C (checkpoint_folder n_classes n_attr fast sub_dir)) tt st1 st2
    ∧ match seed with
      | Some seed => made (EvSeedEverything seed) (seed_everything C seed) tt st2 st3
      | None => st3 = st2
      end
    ∧ (if String.eqb (name model_) "ShapesCNN" then
         made (EvTrainSimple (name model_) (checkpoint_folder n_classes n_attr fast sub_dir)
                 (checkpoint_name model_string n_bootstrap)
                 (if fast then 2%Z else MAX_EPOCHS C))
           (train_simple C model_
              (trainer_args lr gamma None fast device non_blocking verbose
                 (checkpoint_folder n_classes n_attr fast sub_dir)
                 (checkpoint_name model_string n_bootstrap))
              train_loader val_loader)
           history st3 st4
       else
         ∃ w, hp_item hp model_string "attr_weight" = Ok w
           ∧ made (EvTrainCbm (name model_) (checkpoint_folder n_classes n_attr fast sub_dir)
                     (checkpoint_name model_string n_bootstrap)
                     (if fast then 2%Z else MAX_EPOCHS C))
               (train_cbm C model_
                  (trainer_args lr gamma (Some w) fast device non_blocking verbose
                     (checkpoint_folder n_classes n_attr fast sub_dir)
                     (checkpoint_name model_string n_bootstrap))
                  train_loader val_loader)
               history st3 st4)
    ∧ made (EvTorchLoad (checkpoint_folder n_classes n_attr fast sub_dir
                           +:+ checkpoint_name model_string n_bootstrap +:+ "_loss.pth"))
        (torch_load_file C (checkpoint_folder n_classes n_attr fast sub_dir
                              +:+ checkpoint_name model_string n_bootstrap +:+ "_loss.pth"))
        state_dict_ st4 st'
    ∧ evaluate_on_test_set cuda_is_available (load_state_dict model_ state_dict_)
        test_loader (Some device) non_blocking = Ok test_accuracy
    ∧ histories' = histories ++ [<["test_accuracy" := [test_accuracy]]> history].

(** A run of [train_and_evaluate_shapes]: the hyperparameters are the given
    ones, or those that [get_hyperparameters] returns for the subset read
    from [sub_dir]; [load_models_shapes] returns the models; then each model
    has its turn, in order. *)
Definition training_run (n_classes n_attr : Z)
    (train_loader val_loader test_loader : dataloader) (sub_dir : string)
    (hyperparameters : option hpset) (fast : bool) (device : option string)
    (non_blocking : bool) (n_bootstrap : Z) (seed : option Z) (verbose : Z)
    (st : state) (histories : list History) (st' : state) : Prop :=
  ∃ hp st1 models st2,
    match hyperparameters with
    | Some given => hp = given ∧ st1 = st
    | None =>
        ∃ n_subset,
          PyStr.int (PyStr.strip "sub" (PyStr.strip "/" sub_dir)) = Ok n_subset
          ∧ made (EvGetHyperparameters n_classes n_attr n_subset fast)
              (get_hyperparameters C n_classes n_attr n_subset fast) hp st st1
    end
    ∧ made (EvLoadModels n_classes n_attr) (load_models_shapes C n_classes n_attr hp)
        models st1 st2
    ∧ turns (model_turn n_classes n_attr train_loader val_loader test_loader sub_dir hp fast
               (resolve_device cuda_is_available device) non_blocking n_bootstrap seed verbose
               models)
        (seq 0 (length models)) [] st2 histories st'.

(** A bootstrap iteration of the driver on one subset, with the seed of the
    subset generation [vars.1] and the histories added up so far [vars.2]:
    the subset is regenerated with that seed, its loaders are built,
    [train_and_evaluate_shapes] runs on them with [seed = base_seed], and
    the histories are added up; the seed of the subset generation goes up
    by one. *)
Definition bootstrap_turn (dataset_dir : string) (n_classes n_attr subset : Z)
    (test_loader : dataloader) (n_bootstrap : Z) (fast : bool) (batch_size : Z)
    (device : option string) (non_blocking : bool) (base_seed verbose : Z)
    (vars : Z * option (list History)) (i : nat) (st : state)
    (vars' : Z * option (list History)) (st' : state) : Prop :=
  ∃ st1 train_loader val_loader st2 histories st3 histories_total,
    made (EvMakeSubset dataset_dir subset n_classes vars.1)
      (make_subset_shapes C dataset_dir subset n_classes vars.1) tt st st1
    ∧ made (EvLoadData "train-val" dataset_dir ("sub" +:+ PyStr.str subset +:+ "/"))
        (load_data_shapes_train_val C dataset_dir ("sub" +:+ PyStr.str subset +:+ "/")
           batch_size)
        (train_loader, val_loader) st1 st2
    ∧ training_run n_classes n_attr train_loader val_loader test_loader
        ("sub" +:+ PyStr.str subset +:+ "/") None fast device non_blocking n_bootstrap
        (Some base_seed) verbose st2 histories st3
    ∧ add_histories C vars.2 histories n_bootstrap = Ok histories_total
    ∧ vars' = ((vars.1 + 1)%Z, Some histories_total)
    ∧ st' = st3.

(** The test accuracy of the model at index [i] is appended to its list;
    nothing is called. *)
Definition accuracy_turn (histories_total : option (list History))
    (lists : list (list Q)) (i : nat) (st : state)
    (lists' : list (list Q)) (st' : state) : Prop :=
  ∃ a l,
    test_accuracy_of histories_total i = Ok a
    ∧ lists !! i = Some l
    ∧ lists' = <[i := l ++ [a]]> lists
    ∧ st' = st.

(** The file names of the plot of the training histories of a subset. *)
Definition histories_plot (n_classes n_attr subset n_bootstrap : Z) (fast : bool) : string :=
  (class_dir_of n_classes n_attr fast +:+ "c" +:+ PyStr.str n_classes +:+ "_a"
     +:+ PyStr.str n_attr +:+ "_b" +:+ PyStr.str n_bootstrap)
    +:+ "_sub" +:+ PyStr.str subset +:+ ".png".

(** What the driver stores for a subset once its bootstrap iterations are
    over: the plot of the training histories and the pickled histories. *)
Definition subset_stored (n_classes n_attr : Z) (subset n_bootstrap : Z) (fast : bool)
    (histories_total : option (list History)) (st st' : state) : Prop :=
  ∃ st1 st2 st3,
    made (EvMakedirs ("plots/" +:+ class_dir_of n_classes n_attr fast))
      (os_makedirs C ("plots/" +:+ class_dir_of n_classes n_attr fast)) tt st st1
    ∧ made (EvPlotTrainingHistories "plots/"
              (histories_plot n_classes n_attr subset n_bootstrap fast))
        (plot_training_histories C histories_total (MODEL_STRINGS C) (COLORS C)
           (histories_plot n_classes n_attr subset n_bootstrap fast) "plots/"
           (histories_plot n_classes n_attr subset n_bootstrap fast))
        tt st1 st2
    ∧ made (EvMakedirs ("history/" +:+ class_dir_of n_classes n_attr fast))
        (os_makedirs C ("history/" +:+ class_dir_of n_classes n_attr fast)) tt st2 st3
    ∧ made (EvPickleDump ("history/" +:+ class_dir_of n_classes n_attr fast
                            +:+ "histories_sub" +:+ PyStr.str subset +:+ "_b"
                            +:+ PyStr.str n_bootstrap +:+ ".pkl"))
        (pickle_dump_histories C histories_total
           ("history/" +:+ class_dir_of n_classes n_attr fast
              +:+ "histories_sub" +:+ PyStr.str subset +:+ "_b"
              +:+ PyStr.str n_bootstrap +:+ ".pkl"))
        tt st3 st'.

(** The turn of one subset in the driver: the subset is announced (unless
    [verbose] is 0), the test loader is built, once; the bootstrap
    iterations have their turns, the first with the base seed; the test
    accuracies are collected, the plot and the histories are stored; at the
    end the subset is regenerated with the base seed. *)
Definition subset_turn (dataset_dir : string) (n_classes n_attr : Z) (n_bootstrap : Z)
    (fast : bool) (batch_size : Z) (device : option string) (non_blocking : bool)
    (base_seed verbose : Z) (lists : list (list Q)) (subset : Z) (st : state)
    (lists' : list (list Q)) (st' : state) : Prop :=
  ∃ st0 test_loader st1 seed histories_total st2 st3,
    (if negb (verbose =? 0)%Z
     then made (EvPrint ("Beginning subset " +:+ PyStr.str subset +:+ ":"))
            (λ e, (Ok tt, e)) tt st st0
     else st0 = st)
    ∧ made (EvLoadData "test" dataset_dir "")
        (load_data_shapes_test C dataset_dir "" batch_size) test_loader st0 st1
    ∧ turns (bootstrap_turn dataset_dir n_classes n_attr subset test_loader n_bootstrap fast
               batch_size device non_blocking base_seed verbose)
        (range n_bootstrap) (base_seed, None) st1 (seed, histories_total) st2
    ∧ turns (accuracy_turn histories_total) (seq 0 (length (MODEL_STRINGS C)))
        lists st2 lists' st2
    ∧ subset_stored n_classes n_attr subset n_bootstrap fast histories_total st2 st3
    ∧ made (EvMakeSubset dataset_dir subset n_classes base_seed)
        (make_subset_shapes C dataset_dir subset n_classes base_seed) tt st3 st'.

(** What the driver stores at the end: the plot of the test accuracies over
    the subsets and the pickled accuracies. *)
Definition accuracies_stored (n_classes n_attr : Z) (subsets : list Z) (n_bootstrap : Z)
    (fast : bool) (lists : list (list Q)) (st st' : state) : Prop :=
  ∃ st1,
    made (EvPlotSubsetTestAccuracies
            (class_dir_of n_classes n_attr fast +:+ "test_accuracies_b"
               +:+ PyStr.str n_bootstrap +:+ ".png"))
      (plot_subset_test_accuracies C subsets lists (MODEL_STRINGS C) (COLORS C)
         (class_dir_of n_classes n_attr fast +:+ "test_accuracies_b"
            +:+ PyStr.str n_bootstrap +:+ ".png"))
      tt st st1
    ∧ made (EvPickleDump ("history/" +:+ class_dir_of n_classes n_attr fast
                            +:+ "test_accuracies_b" +:+ PyStr.str n_bootstrap +:+ ".pkl"))
        (pickle_dump_accuracies C lists
           ("history/" +:+ class_dir_of n_classes n_attr fast
              +:+ "test_accuracies_b" +:+ PyStr.str n_bootstrap +:+ ".pkl"))
        tt st1 st'.

(** A run of [run_models_on_subsets_and_plot]: the subsets have their turns,
    in order, then the accuracies are stored. *)
Definition driver_run (dataset_dir : string) (n_classes n_attr : Z) (subsets : list Z)
    (n_bootstrap : Z) (fast : bool) (batch_size : Z) (device : option string)
    (non_blocking : bool) (base_seed verbose : Z) (st st' : state) : Prop :=
  ∃ lists st1,
    turns (subset_turn dataset_dir n_classes n_attr n_bootstrap fast batch_size device
             non_blocking base_seed verbose)
      subsets (List.map (λ _, []) (seq 0 (length (MODEL_STRINGS C)))) st lists st1
    ∧ accuracies_stored n_classes n_attr subsets n_bootstrap fast lists st1 st'.

(** The turn of one subset with two bootstrap iterations and the base seed
    57, step by step: the test loader is built, once; the subset is
    regenerated with seed 57 and the models are trained and evaluated on it;
    the subset is regenerated with seed 58 and the models are trained and
    evaluated on it; the accuracies are collected and the results stored;
    after that, the subset is regenerated with seed 57. The trainings
    ([training_run]) hold no call that regenerates a subset or builds a
    test loader. *)
Definition scenario_turn (dataset_dir : string) (n_classes n_attr : Z) (fast : bool)
    (batch_size : Z) (device : option string) (non_blocking : bool) (verbose : Z)
    (lists : list (list Q)) (subset : Z) (st : state)
    (lists' : list (list Q)) (st' : state) : Prop :=
  ∃ st0 test_loader st1 st2 first_train first_val st3 first_histories st4 first_total
    st5 second_train second_val st6 second_histories st7 second_total st8,
    (if negb (verbose =? 0)%Z
     then made (EvPrint ("Beginning subset " +:+ PyStr.str subset +:+ ":"))
            (λ e, (Ok tt, e)) tt st st0
     else st0 = st)
    ∧ made (EvLoadData "test" dataset_dir "")
        (load_data_shapes_test C dataset_dir "" batch_size) test_loader st0 st1
    (* the first bootstrap iteration *)
    ∧ made (EvMakeSubset dataset_dir subset n_classes 57)
        (make_subset_shapes C dataset_dir subset n_classes 57) tt st1 st2
    ∧ made (EvLoadData "train-val" dataset_dir ("sub" +:+ PyStr.str subset +:+ "/"))
        (load_data_shapes_train_val C dataset_dir ("sub" +:+ PyStr.str subset +:+ "/")
           batch_size)
        (first_train, first_val) st2 st3
    ∧ training_run n_classes n_attr first_train first_val test_loader
        ("sub" +:+ PyStr.str subset +:+ "/") None fast device non_blocking 2 (Some 57%Z)
        verbose st3 first_histories st4
    ∧ add_histories C None first_histories 2 = Ok first_total
    (* the second bootstrap iteration *)
    ∧ made (EvMakeSubset dataset_dir subset n_classes 58)
        (make_subset_shapes C dataset_dir subset n_classes 58) tt st4 st5
    ∧ made (EvLoadData "train-val" dataset_dir ("sub" +:+ PyStr.str subset +:+ "/"))
        (load_data_shapes_train_val C dataset_dir ("sub" +:+ PyStr.str subset +:+ "/")
           batch_size)
        (second_train, second_val) st5 st6
    ∧ training_run n_classes n_attr second_train second_val test_loader
        ("sub" +:+ PyStr.str subset +:+ "/") None fast device non_blocking 2 (Some 57%Z)
        verbose st6 second_histories st7
    ∧ add_histories C (Some first_total) second_histories 2 = Ok second_total
    (* after the last bootstrap iteration *)
    ∧ turns (accuracy_turn (Some second_total)) (seq 0 (length (MODEL_STRINGS C)))
        lists st7 lists' st7
    ∧ subset_stored n_classes n_attr subset 2 fast (Some second_total) st7 st8
    ∧ made (EvMakeSubset dataset_dir subset n_classes 57)
        (make_subset_shapes C dataset_dir subset n_classes 57) tt st8 st'.

(** A run of the driver with two bootstrap iterations and the base seed
    57: each requested subset has its [scenario_turn], in order, then the
    accuracies are stored. *)
Definition scenario_run (dataset_dir : string) (n_classes n_attr : Z) (subsets : list Z)
    (fast : bool) (batch_size : Z) (device : option string) (non_blocking : bool)
    (verbose : Z) (st st' : state) : Prop :=
  ∃ lists st1,
    turns (scenario_turn dataset_dir n_classes n_attr fast batch_size device non_blocking
             verbose)
      subsets (List.map (λ _, []) (seq 0 (length (MODEL_STRINGS C)))) st lists st1
    ∧ accuracies_stored n_classes n_attr subsets 2 fast lists st1 st'.

End Script.
End EvaluationScript.

(** * Properties *)

(** ** Strings and paths *)

Module PyStrFacts.

Lemma append_assoc a b c : (a +:+ b) +:+ c = a +:+ (b +:+ c).
Proof.
  induction a as [|x a IH]; [done|].
  change (String x ((a +:+ b) +:+ c) = String x (a +:+ (b +:+ c))). by f_equal.
Qed.

Lemma append_nil_r a : a +:+ "" = a.
Proof.
  induction a as [|x a IH]; [done|].
  change (String x (a +:+ "") = String x a). by f_equal.
Qed.

Lemma append_inj_l a b c : a +:+ b = a +:+ c → b = c.
Proof.
  induction a as [|x a IH]; [done|].
  change (String x (a +:+ b) = String x (a +:+ c) → b = c). intros [= H]. by apply IH.
Qed.

Lemma contains_app c a b :
  PyStr.contains c (a +:+ b) = PyStr.contains c a || PyStr.contains c b.
Proof.
  induction a as [|x a IH]; simpl; [done|].
  destruct (Ascii.eqb x c); [done | exact IH].
Qed.

Lemma contains_uint c d :
  PyStr.is_digit c = false → PyStr.contains c (NilEmpty.string_of_uint d) = false.
Proof.
  intros Hc. induction d; cbn [NilEmpty.string_of_uint PyStr.contains]; try done;
    match goal with
    | |- (if Ascii.eqb ?x c then _ else _) = _ =>
        destruct (Ascii.eqb_spec x c) as [<-|_]; [discriminate Hc | assumption]
    end.
Qed.

Lemma contains_str c z :
  PyStr.is_digit c = false → c ≠ "-"%char → PyStr.contains c (PyStr.str z) = false.
Proof.
  intros Hc Hm. unfold PyStr.str.
  assert (Hu : ∀ d, PyStr.contains c (NilZero.string_of_uint d) = false).
  { intros d. destruct d; try apply (contains_uint c _ Hc).
    cbn [NilZero.string_of_uint PyStr.contains].
    destruct (Ascii.eqb_spec "0"%char c) as [<-|_]; [discriminate Hc | done]. }
  destruct (Z.to_int z) as [d|d]; cbn [NilZero.string_of_int PyStr.contains]; [apply Hu|].
  destruct (Ascii.eqb_spec "-"%char c) as [E|_]; [by destruct Hm | apply Hu].
Qed.

Lemma contains_fmt c x :
  PyStr.is_digit c = false → c ≠ "-"%char → PyStr.contains c "None" = false →
  PyStr.contains c (PyStr.fmt x) = false.
Proof.
  intros Hc Hm Hn. destruct x as [z|]; [by apply contains_str | exact Hn].
Qed.

Lemma slash_fmt x : PyStr.contains PathLib.slash (PyStr.fmt x) = false.
Proof. by apply contains_fmt. Qed.

Lemma backslash_fmt x : PyStr.contains PathLib.backslash (PyStr.fmt x) = false.
Proof. by apply contains_fmt. Qed.

(** Splitting at a character that does not occur. *)
Lemma split_absent c s : PyStr.contains c s = false → PyStr.split c s = [s].
Proof.
  induction s as [|a s IH]; simpl; [done|].
  destruct (Ascii.eqb a c); [done|]. intros H. by rewrite (IH H).
Qed.

Lemma split_before c s rest :
  PyStr.contains c s = false →
  PyStr.split c (s +:+ String c rest) = s :: PyStr.split c rest.
Proof.
  induction s as [|a s IH]; simpl.
  - intros _. by rewrite Ascii.eqb_refl.
  - destruct (Ascii.eqb a c); [done|]. intros H. by rewrite (IH H).
Qed.

Lemma contains_head c a s : PyStr.contains c (String a s) = false → a ≠ c.
Proof. simpl. destruct (Ascii.eqb_spec a c); [done | auto]. Qed.

(** A name without a slash, other than the empty one and ["."], is a path
    of one component, with or without a slash after it. *)
Lemma splitroot_relative a s :
  a ≠ "/"%char → PathLib.splitroot (String a s) = ("", String a s).
Proof.
  intros Ha. unfold PathLib.splitroot, PathLib.slash.
  by destruct (Ascii.eqb_spec a "/"%char).
Qed.

Lemma keep_name_true s : s ≠ "" → s ≠ "." → PathLib.keep_name s = true.
Proof.
  intros He Hd. unfold PathLib.keep_name.
  destruct (String.eqb_spec s ""); [done|]. by destruct (String.eqb_spec s ".").
Qed.

(** A name without a slash, other than the empty one and ["."], is a path
    of one component, with or without a slash after it. *)
Lemma of_str_name s :
  PyStr.contains PathLib.slash s = false → s ≠ "" → s ≠ "." →
  PathLib.of_str s = MkPath "" [s].
Proof.
  intros Hs He Hd. unfold PathLib.of_str.
  destruct s as [|a s]; [done|].
  rewrite (splitroot_relative a s (contains_head _ _ _ Hs)).
  rewrite (split_absent _ _ Hs). simpl. by rewrite keep_name_true.
Qed.

Lemma of_str_name_slash s :
  PyStr.contains PathLib.slash s = false → s ≠ "" → s ≠ "." →
  PathLib.of_str (s +:+ "/") = MkPath "" [s].
Proof.
  intros Hs He Hd. unfold PathLib.of_str.
  destruct s as [|a s]; [done|].
  change (String a s +:+ "/") with (String a (s +:+ "/")).
  rewrite (splitroot_relative a _ (contains_head _ _ _ Hs)).
  change (String a (s +:+ "/")) with (String a s +:+ String PathLib.slash "").
  rewrite (split_before _ _ "" Hs). simpl. by rewrite keep_name_true.
Qed.

Lemma bare_inv s :
  PathLib.bare s = true →
  PyStr.contains PathLib.slash s = false ∧ PyStr.contains PathLib.backslash s = false
  ∧ s ≠ "" ∧ s ≠ ".".
Proof.
  unfold PathLib.bare. rewrite !andb_true_iff, !negb_true_iff.
  intros [[[? ?] He] Hd]. repeat split; try done.
  - by destruct (String.eqb_spec s "").
  - by destruct (String.eqb_spec s ".").
Qed.

Lemma of_str_bare s : PathLib.bare s = true → PathLib.of_str s = MkPath "" [s].
Proof. intros (? & ? & ? & ?)%bare_inv. by apply of_str_name. Qed.

(** The root of a parsed path. *)
Lemma root_of_str s :
  root (PathLib.of_str s) = "" ∨ root (PathLib.of_str s) = "/"
  ∨ root (PathLib.of_str s) = "//".
Proof.
  unfold PathLib.of_str, PathLib.splitroot.
  destruct s as [|a [|b [|c s]]]; simpl; auto;
    repeat match goal with
           | |- context [Ascii.eqb ?x ?y] => destruct (Ascii.eqb x y); simpl; auto
           end.
Qed.

Lemma path_eta p : MkPath (root p) (names p) = p.
Proof. by destruct p. Qed.

Lemma as_posix_name s : s ≠ "" → PathLib.as_posix (MkPath "" [s]) = s.
Proof. done. Qed.

Lemma div_name p s : p </> MkPath "" [s] = MkPath (root p) (names p ++ [s]).
Proof. done. Qed.

Lemma parent_div_name p s : PathLib.parent (p </> MkPath "" [s]) = MkPath (root p) (names p).
Proof. unfold PathLib.parent. simpl. by rewrite removelast_last. Qed.

Lemma under_div_name p s : PathLib.under p (p </> MkPath "" [s]).
Proof. split; [done|]. simpl. by apply prefix_app_r. Qed.

End PyStrFacts.

(** ** The monad and the file system *)

Lemma bind_ok {S A B} (m : Py S A) (k : A → Py S B) w a w' :
  m w = (Ok a, w') → bind m k w = k a w'.
Proof. intros H. unfold bind. by rewrite H. Qed.

Lemma bind_raise {S A B} (m : Py S A) (k : A → Py S B) w e w' :
  m w = (Raise e, w') → bind m k w = (Raise e, w').
Proof. intros H. unfold bind. by rewrite H. Qed.

Lemma bind_lift_ok {S A B} (a : A) (k : A → Py S B) w : bind (lift (Ok a)) k w = k a w.
Proof. done. Qed.

(** Inversion of a successful [bind]. *)
Lemma bind_ok_inv {S A B} (m : Py S A) (k : A → Py S B) w b w2 :
  bind m k w = (Ok b, w2) → ∃ a w1, m w = (Ok a, w1) ∧ k a w1 = (Ok b, w2).
Proof.
  unfold bind. destruct (m w) as [[a|e] w1]; [eauto | discriminate].
Qed.

Section OSFacts.

Context {state_dict history : Type}.
Local Abbreviation node := (node state_dict history).
Local Abbreviation world := (world state_dict history).

Lemma mkdir_chain_ok r todo : ∀ done_ (f : gmap Path node),
  (∀ k c, f !! MkPath r (done_ ++ take k todo) ≠ Some (File c)) →
  ∃ f', mkdir_chain r done_ todo true f = Ok f'
    ∧ (∀ k, (0 < k ≤ length todo)%nat → f' !! MkPath r (done_ ++ take k todo) = Some Dir)
    ∧ (∀ q, (∀ k, (0 < k ≤ length todo)%nat → q ≠ MkPath r (done_ ++ take k todo)) →
            f' !! q = f !! q)
    ∧ (∀ q x, f !! q = Some x → f' !! q = Some x).
Proof.
  induction todo as [|n rest IH]; intros done_ f Hfree.
  { exists f. simpl. repeat split; auto. intros k [? ?]. simpl in *. lia. }
  assert (Hshift : ∀ k, done_ ++ take (S k) (n :: rest) = (done_ ++ [n]) ++ take k rest).
  { intros k. simpl. by rewrite <- app_assoc. }
  assert (Hfirst : done_ ++ [n] = done_ ++ take 1 (n :: rest)).
  { simpl. by rewrite take_0. }
  assert (Hdeeper : ∀ k, (0 < k ≤ length rest)%nat →
            MkPath r (done_ ++ [n]) ≠ MkPath r ((done_ ++ [n]) ++ take k rest)).
  { intros k Hk E. injection E as E.
    apply (f_equal length) in E. rewrite !length_app, length_take in E. lia. }
  cbn [mkdir_chain].
  destruct (f !! MkPath r (done_ ++ [n])) as [[|c]|] eqn:Hq.
  - (* the directory is there *)
    destruct (IH (done_ ++ [n]) f) as (f' & Hrun & Hdirs & Hsame & Hkeep).
    { intros k c. rewrite <- Hshift. apply Hfree. }
    exists f'. split.
    { destruct rest; [simpl in Hrun |- *; injection Hrun as <-; done | exact Hrun]. }
    split; [|split; [|exact Hkeep]].
    + intros [|k] Hk; [lia|]. destruct k as [|k].
      * rewrite <- Hfirst. by apply Hkeep.
      * rewrite Hshift. apply Hdirs. simpl in Hk. lia.
    + intros q Hq'. apply Hsame. intros k Hk. rewrite <- Hshift. apply Hq'. simpl. lia.
  - (* a regular file is in the way *)
    exfalso. apply (Hfree 1%nat c). by rewrite <- Hfirst.
  - (* the directory is created *)
    destruct (IH (done_ ++ [n]) (<[MkPath r (done_ ++ [n]) := Dir]> f))
      as (f' & Hrun & Hdirs & Hsame & Hkeep).
    { intros k c. rewrite lookup_insert. case_decide; [done|].
      rewrite <- Hshift. apply Hfree. }
    exists f'. split; [exact Hrun|].
    split; [|split].
    + intros [|k] Hk; [lia|]. destruct k as [|k].
      * rewrite <- Hfirst. apply Hkeep. by rewrite lookup_insert_eq.
      * rewrite Hshift. apply Hdirs. simpl in Hk. lia.
    + intros q Hq'. rewrite Hsame.
      * apply lookup_insert_ne. rewrite Hfirst. intros E. symmetry in E. revert E.
        apply Hq'. simpl. lia.
      * intros k Hk. rewrite <- Hshift. apply Hq'. simpl. lia.
    + intros q x Hx. apply Hkeep. rewrite lookup_insert_ne; [done|].
      intros <-. congruence.
Qed.

Lemma makedirs_ok p (w : world) :
  creatable (fs w) p →
  ∃ f', makedirs p true w = (Ok tt, MkWorld f' (warned w))
    ∧ isdir f' p = true
    ∧ (∀ q, (∀ k, q ≠ MkPath (root p) (take k (names p))) → f' !! q = fs w !! q)
    ∧ (∀ q x, fs w !! q = Some x → f' !! q = Some x).
Proof.
  intros Hfree. unfold makedirs, isdir. destruct (names p) as [|n rest] eqn:Hn.
  { exists (fs w). destruct w. simpl. done. }
  destruct (mkdir_chain_ok (root p) (n :: rest) [] (fs w)) as (f' & Hrun & Hdirs & Hsame & Hkeep).
  { intros k c. simpl app. rewrite <- Hn. apply Hfree. }
  exists f'. split.
  { unfold bind, lift, put_fs, get_fs. cbn [fst snd fs]. by rewrite Hrun. }
  split; [|split; [|exact Hkeep]].
  - specialize (Hdirs (length (n :: rest))). rewrite firstn_all in Hdirs.
    simpl app in Hdirs. destruct p as [r ns]. simpl in *. subst ns.
    rewrite Hdirs; [done | simpl; lia].
  - intros q Hq. apply Hsame. intros k _. apply Hq.
Qed.

Lemma write_file_ok p c (w : world) :
  names p ≠ [] → isdir (fs w) (PathLib.parent p) = true → fs w !! p ≠ Some Dir →
  write_file p c w = (Ok tt, MkWorld (<[p := File c]> (fs w)) (warned w)).
Proof.
  intros Hn Hparent Hnodir. unfold write_file, bind, get_fs.
  destruct (names p); [done|]. rewrite Hparent. simpl.
  destruct (fs w !! p) as [[|?]|]; done.
Qed.

Lemma read_file_ok p c (w : world) :
  names p ≠ [] → fs w !! p = Some (File c) → read_file p w = (Ok c, w).
Proof.
  intros Hn Hc. unfold read_file, bind, get_fs.
  destruct (names p); [done|]. by rewrite Hc.
Qed.

Lemma read_file_missing p (w : world) :
  names p ≠ [] → fs w !! p = None →
  read_file p w = (Raise (FileNotFoundError (PathLib.as_posix p)), w).
Proof.
  intros Hn Hc. unfold read_file, bind, get_fs.
  destruct (names p); [done|]. by rewrite Hc.
Qed.

Lemma yaml_load_ok p doc (w : world) :
  names p ≠ [] → fs w !! p = Some (File (CYaml doc)) → yaml_load p w = (Ok doc, w).
Proof.
  intros Hn Hc. unfold yaml_load. by rewrite (bind_ok _ _ _ _ _ (read_file_ok p _ w Hn Hc)).
Qed.

Lemma bind_warn {B} message (k : unit → Py world B) (w : world) :
  bind (warn message) k w = k tt (MkWorld (fs w) (warned w ++ [message])).
Proof. done. Qed.

Lemma exists_eq p (w : world) : exists_ p w = (Ok (path_exists (fs w) p), w).
Proof. done. Qed.

Lemma path_exists_false (f : gmap Path node) p :
  path_exists f p = false → f !! p = None.
Proof.
  unfold path_exists. destruct (names p); [done|].
  intros H. apply bool_decide_eq_false in H.
  destruct (f !! p); [by destruct H | done].
Qed.

Lemma path_exists_true (f : gmap Path node) p x :
  f !! p = Some x → path_exists f p = true.
Proof.
  unfold path_exists. intros H. destruct (names p); [done|].
  apply bool_decide_eq_true. by rewrite H.
Qed.

End OSFacts.

(** ** Path resolution in [path_utils] *)

Module PathUtilsFacts.
Import PyStrFacts.
Section Shapes.

Context {state_dict history : Type}.
Variable K : constants.
Local Abbreviation world := (world state_dict history).
Local Abbreviation node := (node state_dict history).

(** Names assembled from literals and numerals are bare. *)
Ltac bare_name :=
  unfold PathLib.bare, PathUtils.hard_suffix, PathUtils.adversarial_suffix;
  rewrite ?contains_app, ?slash_fmt, ?backslash_fmt;
  repeat match goal with |- context [if ?b then _ else _] => destruct b end;
  reflexivity.

Lemma check_bare_path s :
  PathLib.bare s = true → PathUtils._check_just_file (APath (PathLib.of_str s)) = Ok tt.
Proof.
  intros Hb. rewrite (of_str_bare s Hb).
  apply bare_inv in Hb as (Hs & Hb & He & _).
  unfold PathUtils._check_just_file, pathlike_str.
  rewrite (as_posix_name s He), Hs, Hb. done.
Qed.

Lemma check_separator filename :
  PathUtils.has_separator filename = true →
  ∃ msg, PathUtils._check_just_file filename = Raise (ValueError msg).
Proof.
  unfold PathUtils.has_separator, PathUtils._check_just_file.
  destruct filename; intros H; try discriminate; rewrite H; eauto.
Qed.

Lemma check_no_separator filename name :
  PathUtils.has_separator filename = false → to_Path filename = Ok name →
  PathUtils._check_just_file filename = Ok tt.
Proof.
  unfold PathUtils.has_separator, PathUtils._check_just_file.
  destruct filename; intros H Hn; try discriminate; by rewrite H.
Qed.

(** Without the folder check nothing but the join happens. *)
Lemma make_file_path_join folder filename fp name (w : world) :
  PathUtils._check_just_file filename = Ok tt →
  to_Path folder = Ok fp → to_Path filename = Ok name →
  PathUtils.make_file_path folder filename false w = (Ok (fp </> name), w).
Proof.
  intros Hc Hf Hn. unfold PathUtils.make_file_path, bind, lift, ret.
  by rewrite Hc, Hf, Hn.
Qed.

(** With the folder check the folder is made first. *)
Lemma make_file_path_create folder filename fp name (w : world) :
  PathUtils._check_just_file filename = Ok tt →
  to_Path folder = Ok fp → to_Path filename = Ok name →
  creatable (fs w) fp →
  ∃ f', PathUtils.make_file_path folder filename true w
          = (Ok (fp </> name), MkWorld f' (warned w))
    ∧ isdir f' fp = true
    ∧ (∀ q, (∀ k, q ≠ MkPath (root fp) (take k (names fp))) → f' !! q = fs w !! q)
    ∧ (∀ q x, fs w !! q = Some x → f' !! q = Some x).
Proof.
  intros Hc Hf Hn Hfree.
  destruct (makedirs_ok fp w Hfree) as (f' & Hrun & Hdir & Hsame & Hkeep).
  exists f'. split; [|done].
  unfold PathUtils.make_file_path, PathUtils.create_folder, bind, lift, ret.
  by rewrite Hc, Hf, Hrun, Hn.
Qed.

Lemma make_file_path_raise folder filename chk e (w : world) :
  PathUtils._check_just_file filename = Raise e →
  PathUtils.make_file_path folder filename chk w = (Raise e, w).
Proof.
  intros Hc. unfold PathUtils.make_file_path, bind, lift. by rewrite Hc.
Qed.

(** A path that passes the check has no root. *)
Lemma check_relative x :
  PathUtils._check_just_file (APath (PathLib.of_str x)) = Ok tt →
  root (PathLib.of_str x) = "".
Proof.
  unfold PathUtils._check_just_file, pathlike_str, PathLib.as_posix.
  destruct (root_of_str x) as [E|[E|E]]; rewrite E; [done|..];
    destruct (names (PathLib.of_str x)); simpl; discriminate.
Qed.

Lemma under_refl p : PathLib.under p p.
Proof. by split. Qed.

Lemma under_div p q : root q = "" → PathLib.under p (p </> q).
Proof.
  intros Hq. unfold PathLib.under, PathLib.div. rewrite Hq. simpl.
  split; [done | by apply prefix_app_r].
Qed.

Lemma under_trans p q r : PathLib.under p q → PathLib.under q r → PathLib.under p r.
Proof.
  intros [H1 H2] [H3 H4]. split; [congruence | by etrans].
Qed.

(** What a successful [make_file_path] returns lies in the folder. *)
Lemma make_file_path_under fp x chk (w w' : world) p :
  PathUtils.make_file_path (APath fp) (APath (PathLib.of_str x)) chk w = (Ok p, w') →
  p = fp </> PathLib.of_str x ∧ PathLib.under fp p.
Proof.
  unfold PathUtils.make_file_path. intros H.
  apply bind_ok_inv in H as ([] & w1 & Hc & H).
  unfold lift in Hc. injection Hc as Hc <-.
  apply bind_ok_inv in H as (fp' & w2 & Hf & H). injection Hf as <- <-.
  apply bind_ok_inv in H as ([] & w3 & _ & H).
  apply bind_ok_inv in H as (name & w4 & Hn & H). injection Hn as <- <-.
  injection H as <- <-. split; [done|]. apply under_div. by apply check_relative.
Qed.

Lemma write_file_inv p c (w w' : world) :
  write_file p c w = (Ok tt, w') → fs w' !! p = Some (File c).
Proof.
  unfold write_file, bind, get_fs, raise, put_fs.
  destruct (names p); [discriminate|]. simpl.
  destruct (negb _); [discriminate|].
  destruct (fs w !! p) as [[|?]|]; try discriminate;
    intros [= <-]; simpl; by rewrite lookup_insert_eq.
Qed.

Lemma read_file_inv p c (w w' : world) :
  read_file p w = (Ok c, w') → fs w !! p = Some (File c) ∧ w' = w.
Proof.
  unfold read_file, bind, get_fs, raise, ret.
  destruct (names p); [discriminate|]. simpl.
  destruct (fs w !! p) as [[|?]|]; try discriminate. by intros [= <- <-].
Qed.

(** The folder of each kind of result ends in [c{n}_a{a}_s{s}]. *)
Lemma shapes_name_bare n a s : PathLib.bare (PathUtils.shapes_name n a s) = true.
Proof. unfold PathUtils.shapes_name. bare_name. Qed.

Lemma get_shapes_folder_name_eq n a s :
  PathUtils.get_shapes_folder_name n a s = MkPath "" [PathUtils.shapes_name n a s].
Proof.
  pose proof (shapes_name_bare n a s) as (? & ? & ? & ?)%bare_inv.
  rewrite <- (of_str_name_slash (PathUtils.shapes_name n a s)) by done.
  unfold PathUtils.get_shapes_folder_name, PathUtils.shapes_name.
  by rewrite !append_assoc.
Qed.

Lemma get_full_shapes_folder_path_eq n a s rel :
  PathUtils.get_full_shapes_folder_path K n a s rel = Ok (PathUtils.shapes_folder K n a s rel).
Proof.
  unfold PathUtils.get_full_shapes_folder_path, PathUtils.shapes_folder.
  change (PathUtils.get_dataset_folder K "shapes") with (Ok (PathLib.of_str (SHAPES_FOLDER K))).
  cbv beta iota. by rewrite get_shapes_folder_name_eq.
Qed.

Lemma shapes_folder_names n a s rel :
  names (PathUtils.shapes_folder K n a s rel)
  = names (PathLib.of_str (RESULTS_FOLDER K) </> PathLib.of_str rel
           </> PathLib.of_str (SHAPES_FOLDER K))
    ++ [PathUtils.shapes_name n a s].
Proof. done. Qed.

(** *** File names are validated before anything else *)

(** C7. [make_file_path] raises [ValueError] whenever the file name holds
    ["/"] or a backslash, whatever the folder is, and before any folder is
    made: the world is left as it was. With a file name free of separators
    it returns the folder joined with the name; when [check_folder_exists]
    is set the folder is a directory afterwards (provided no regular file
    stands where a directory has to be made), what was on disk is still
    there, and without the check the world is untouched. For a bare name
    the joined path is the folder path followed by that name. *)
Theorem make_file_path_validates folder filename chk (w : world) :
  (PathUtils.has_separator filename = true →
     ∃ msg, PathUtils.make_file_path folder filename chk w = (Raise (ValueError msg), w))
  ∧ (∀ fp name,
       PathUtils.has_separator filename = false →
       to_Path folder = Ok fp → to_Path filename = Ok name →
       (chk = true → creatable (fs w) fp) →
       ∃ w', PathUtils.make_file_path folder filename chk w = (Ok (fp </> name), w')
         ∧ (chk = true → isdir (fs w') fp = true)
         ∧ (chk = false → w' = w)
         ∧ (∀ q x, fs w !! q = Some x → fs w' !! q = Some x)
         ∧ (∀ s, filename = AStr s → PathLib.bare s = true →
              fp </> name = MkPath (root fp) (names fp ++ [s]))).
Proof.
  split.
  - intros Hsep. destruct (check_separator filename Hsep) as [msg Hmsg].
    exists msg. by apply make_file_path_raise.
  - intros fp name Hsep Hf Hn Hfree.
    pose proof (check_no_separator filename name Hsep Hn) as Hc.
    assert (Hbare : ∀ s, filename = AStr s → PathLib.bare s = true →
                      fp </> name = MkPath (root fp) (names fp ++ [s])).
    { intros s -> Hb. simpl in Hn. injection Hn as <-. by rewrite (of_str_bare s Hb). }
    destruct chk.
    + destruct (make_file_path_create folder filename fp name w Hc Hf Hn (Hfree eq_refl))
        as (f' & Hrun & Hdir & _ & Hkeep).
      exists (MkWorld f' (warned w)). by rewrite Hrun.
    + exists w. rewrite (make_file_path_join folder filename fp name w Hc Hf Hn).
      repeat split; auto; discriminate.
Qed.

(** *** The "hard" suffix of model weights *)

(** When saving, a model type that normalizes to ["cnn"] makes the
    hardness flag irrelevant. *)
Lemma save_model_shapes_cnn_ignores_hard n a s sub sd model_type metric adversarial
    (w : world) :
  PyStr.lower (PyStr.strip_ws model_type) = "cnn" →
  PathUtils.save_model_shapes K n a s sub sd model_type metric true adversarial w
  = PathUtils.save_model_shapes K n a s sub sd model_type metric false adversarial w.
Proof. intros H. unfold PathUtils.save_model_shapes. by rewrite H. Qed.

(** *** Resolving the hyperparameter files *)

Lemma resolve_in_folder F name (w : world) :
  PathLib.bare name = true →
  PathUtils.make_file_path (APath F) (APath (PathLib.of_str name)) false w
  = (Ok (F </> MkPath "" [name]), w).
Proof.
  intros Hb.
  rewrite (make_file_path_join (APath F) (APath (PathLib.of_str name)) F (PathLib.of_str name));
    [by rewrite (of_str_bare name Hb) | by apply check_bare_path | done | done].
Qed.

Lemma hp_name_bare sub hard :
  PathLib.bare ("hyperparameters_sub" +:+ PyStr.fmt sub +:+ PathUtils.hard_suffix hard
                  +:+ ".yaml") = true.
Proof. destruct hard; bare_name. Qed.

Lemma hp_file_names n a s sub hard : names (PathUtils.hp_file K n a s sub hard) ≠ [].
Proof. unfold PathUtils.hp_file. simpl. by destruct (names _). Qed.

Lemma set_hard_lookup (soft : hpset) model_type :
  PathUtils.set_hard soft !! model_type
  = (λ entry : gmap string hpval, <["hard" := HBool true]> entry) <$> soft !! model_type.
Proof. unfold PathUtils.set_hard. by rewrite lookup_fmap. Qed.

Lemma set_hard_is_hard (soft : hpset) model_type (entry : gmap string hpval) :
  PathUtils.set_hard soft !! model_type = Some entry → entry !! "hard" = Some (HBool true).
Proof.
  rewrite set_hard_lookup. destruct (soft !! model_type); [|done].
  intros [= <-]. by rewrite lookup_insert_eq.
Qed.

(** C4. Hard-bottleneck hyperparameters are asked for ([fast] and [default]
    unset) and the file of that hardness is missing. If the soft file of the
    same classes, attributes and subset holds a set, that set comes back
    with ["hard"] set to [True] in every model entry (the other values as
    they were), one warning is issued and nothing raises. If the soft file
    is missing too, the set of the global default file for hard bottlenecks
    comes back, again with one warning and without an error. *)
Theorem load_hyperparameters_shapes_fallback (n a sub : Z) (s : option Z) oracle (w : world) :
  path_exists (fs w) (PathUtils.hp_file K (Some n) (Some a) s (Some sub) true) = false →
  (∀ soft : hpset,
     fs w !! PathUtils.hp_file K (Some n) (Some a) s (Some sub) false
       = Some (File (CYaml (Some soft))) →
     ∃ message,
       PathUtils.load_hyperparameters_shapes K (Some n) (Some a) s (Some sub)
         true false false oracle w
       = (Ok (Some (PathUtils.set_hard soft)), MkWorld (fs w) (warned w ++ [message]))
       ∧ (∀ model_type entry, PathUtils.set_hard soft !! model_type = Some entry →
            entry !! "hard" = Some (HBool true))
       ∧ (∀ model_type,
            PathUtils.set_hard soft !! model_type
            = (λ entry : gmap string hpval, <["hard" := HBool true]> entry)
                <$> soft !! model_type))
  ∧ (∀ doc,
       path_exists (fs w) (PathUtils.hp_file K (Some n) (Some a) s (Some sub) false) = false →
       PathLib.bare (DEFAULT_HYPERPARAMETERS_FILENAME_SHAPES_HARD K) = true →
       fs w !! PathUtils.default_hp_file K true = Some (File (CYaml doc)) →
       ∃ message,
         PathUtils.load_hyperparameters_shapes K (Some n) (Some a) s (Some sub)
           true false false oracle w
         = (Ok doc, MkWorld (fs w) (warned w ++ [message]))).
Proof.
  intros Hexact.
  assert (Hresolve : ∀ hard (v : world),
    PathUtils.make_file_path
      (APath (PathUtils.shapes_folder K (Some n) (Some a) s (HYPERPARAMETERS_FOLDER K)))
      (APath (PathLib.of_str ("hyperparameters_sub" +:+ PyStr.fmt (Some sub)
                                +:+ PathUtils.hard_suffix hard +:+ ".yaml"))) false v
    = (Ok (PathUtils.hp_file K (Some n) (Some a) s (Some sub) hard), v)).
  { intros hard v. apply resolve_in_folder, hp_name_bare. }
  split.
  - intros soft Hsoft. eexists. split; [|split].
    + unfold PathUtils.load_hyperparameters_shapes. cbn [negb andb orb bool_decide].
      rewrite !bool_decide_eq_false_2 by done. cbn [negb andb orb].
      rewrite get_full_shapes_folder_path_eq.
      rewrite bind_lift_ok.
      rewrite (bind_ok _ _ w _ w (Hresolve true w)).
      rewrite (bind_ok _ _ w _ w (exists_eq _ w)).
      rewrite Hexact. cbn [negb andb].
      rewrite (bind_ok _ _ w _ w (Hresolve false w)).
      rewrite (bind_ok _ _ w _ w (exists_eq _ w)).
      rewrite (path_exists_true _ _ _ Hsoft).
      rewrite bind_warn.
      erewrite bind_ok; cycle 1.
      { apply yaml_load_ok; [apply hp_file_names | exact Hsoft]. }
      reflexivity.
    + apply set_hard_is_hard.
    + apply set_hard_lookup.
  - intros doc Hsoft Hbare Hdefault. eexists.
    unfold PathUtils.load_hyperparameters_shapes. cbn [negb andb orb bool_decide].
    rewrite !bool_decide_eq_false_2 by done. cbn [negb andb orb].
    rewrite get_full_shapes_folder_path_eq.
    rewrite bind_lift_ok.
    rewrite (bind_ok _ _ w _ w (Hresolve true w)).
    rewrite (bind_ok _ _ w _ w (exists_eq _ w)).
    rewrite Hexact. cbn [negb andb].
    rewrite (bind_ok _ _ w _ w (Hresolve false w)).
    rewrite (bind_ok _ _ w _ w (exists_eq _ w)).
    rewrite Hsoft.
    rewrite bind_warn.
    pose proof (bare_inv _ Hbare) as (Hs & Hb & He & Hd).
    erewrite bind_ok; cycle 1.
    { apply make_file_path_join; [|done|done].
      unfold PathUtils._check_just_file, pathlike_str. by rewrite Hs, Hb. }
    apply yaml_load_ok; [|exact Hdefault].
    unfold PathUtils.default_hp_file. rewrite (of_str_bare _ Hbare). simpl.
    by destruct (names _).
Qed.

(** *** Saving hyperparameters model by model *)

Lemma check_model_type_ok model_type :
  model_type ∈ MODEL_STRINGS_ALL_SHAPES K → PathUtils.check_model_type K model_type = Ok tt.
Proof.
  intros H. unfold PathUtils.check_model_type, PyStr.mem.
  by rewrite bool_decide_eq_true_2.
Qed.

Lemma hp_file_not_on_the_way n a s sub hard k :
  PathUtils.hp_file K n a s sub hard
  ≠ MkPath (root (PathUtils.shapes_folder K n a s (HYPERPARAMETERS_FOLDER K)))
           (take k (names (PathUtils.shapes_folder K n a s (HYPERPARAMETERS_FOLDER K)))).
Proof.
  unfold PathUtils.hp_file. rewrite div_name. intros [= E].
  apply (f_equal length) in E. rewrite length_app, length_take in E. simpl in E. lia.
Qed.

(** One save: the entry of [model_type] is set in the stored document, the
    other entries stay. *)
Lemma save_hyperparameters_shapes_run n a s sub hard model_type values (w : world) :
  model_type ∈ MODEL_STRINGS_ALL_SHAPES K →
  PathUtils.hp_store_ready K (fs w) n a s sub hard →
  ∃ f1,
    PathUtils.save_hyperparameters_shapes K n a s sub values model_type hard w
    = (Ok tt, MkWorld f1 (warned w))
    ∧ f1 !! PathUtils.hp_file K n a s sub hard
      = Some (File (CYaml (Some (<[model_type := values]>
                                   (PathUtils.stored_set (fs w)
                                      (PathUtils.hp_file K n a s sub hard))))))
    ∧ isdir f1 (PathUtils.shapes_folder K n a s (HYPERPARAMETERS_FOLDER K)) = true.
Proof.
  intros Hin Hready.
  unfold PathUtils.save_hyperparameters_shapes.
  rewrite (check_model_type_ok _ Hin), bind_lift_ok.
  rewrite get_full_shapes_folder_path_eq, bind_lift_ok.
  rewrite (bind_ok _ _ w _ w (resolve_in_folder _ _ w (hp_name_bare sub hard))).
  fold (PathUtils.hp_file K n a s sub hard).
  rewrite (bind_ok _ _ w _ w (exists_eq _ w)).
  pose proof (hp_file_names n a s sub hard) as Hnames.
  unfold PathUtils.hp_store_ready in Hready. cbv zeta in Hready.
  set (file := PathUtils.hp_file K n a s sub hard) in *.
  set (folder := PathUtils.shapes_folder K n a s (HYPERPARAMETERS_FOLDER K)) in *.
  assert (Hparent : PathLib.parent file = folder).
  { unfold file, PathUtils.hp_file. rewrite parent_div_name. apply path_eta. }
  destruct Hready as [[Habsent Hfree] | (doc & Hdoc & Hdir)].
  - (* no file yet *)
    assert (path_exists (fs w) file = false) as ->.
    { unfold path_exists. destruct (names file); [done|].
      apply bool_decide_eq_false. rewrite Habsent. by intros [? ?]. }
    cbn [negb].
    destruct (makedirs_ok folder w Hfree) as (f' & Hrun & Hdir & Hsame & Hkeep).
    rewrite (bind_ok _ _ _ _ _ Hrun).
    assert (Hfile : f' !! file = None).
    { rewrite Hsame; [done|]. intros k. apply hp_file_not_on_the_way. }
    unfold yaml_dump. rewrite write_file_ok; simpl; [| done | by rewrite Hparent | by rewrite Hfile].
    eexists. split; [reflexivity|]. split.
    + rewrite lookup_insert_eq. unfold PathUtils.stored_set. by rewrite Habsent.
    + unfold isdir in *. destruct (names folder); [done|].
      rewrite lookup_insert_ne; [done|].
      intros E. rewrite <- E, Hfile in Hdir. done.
  - (* the file is read, updated and written again *)
    rewrite (path_exists_true _ _ _ Hdoc). cbn [negb].
    rewrite (bind_ok _ _ _ _ _ (yaml_load_ok file doc w Hnames Hdoc)).
    unfold yaml_dump. rewrite write_file_ok; [| done | by rewrite Hparent | by rewrite Hdoc].
    eexists. split; [reflexivity|]. split.
    + rewrite lookup_insert_eq. unfold PathUtils.stored_set. rewrite Hdoc.
      by destruct doc.
    + unfold isdir in *. destruct (names folder); [done|].
      rewrite lookup_insert_ne; [done|].
      intros E. rewrite <- E, Hdoc in Hdir. done.
Qed.

(** With the exact file on disk, loading returns its document. *)
Lemma load_hyperparameters_shapes_exact (n a sub : Z) s hard oracle doc (w : world) :
  fs w !! PathUtils.hp_file K (Some n) (Some a) s (Some sub) hard = Some (File (CYaml doc)) →
  PathUtils.load_hyperparameters_shapes K (Some n) (Some a) s (Some sub) hard false false oracle w
  = (Ok doc, w).
Proof.
  intros Hdoc. unfold PathUtils.load_hyperparameters_shapes. cbn [negb andb orb].
  rewrite !bool_decide_eq_false_2 by done. cbn [negb andb orb].
  rewrite get_full_shapes_folder_path_eq, bind_lift_ok.
  rewrite (bind_ok _ _ w _ w (resolve_in_folder _ _ w (hp_name_bare (Some sub) hard))).
  fold (PathUtils.hp_file K (Some n) (Some a) s (Some sub) hard).
  rewrite (bind_ok _ _ w _ w (exists_eq _ w)).
  rewrite (path_exists_true _ _ _ Hdoc). cbn [negb andb].
  apply yaml_load_ok; [apply hp_file_names | exact Hdoc].
Qed.

(** C5. Two saves on the same (classes, attributes, signal strength, subset,
    hardness), for two different registered models, followed by a load:
    nothing raises, the loaded set maps the first model to its values and
    the second to its values, and every other model's entry is the one the
    file held before the saves. *)
Theorem save_twice_then_load (n a sub : Z) s hard oracle
    (model_a model_b : string) (x y : gmap string hpval) (w : world) :
  model_a ∈ MODEL_STRINGS_ALL_SHAPES K →
  model_b ∈ MODEL_STRINGS_ALL_SHAPES K →
  model_a ≠ model_b →
  PathUtils.hp_store_ready K (fs w) (Some n) (Some a) s (Some sub) hard →
  ∃ w1 w2 (loaded : hpset),
    PathUtils.save_hyperparameters_shapes K (Some n) (Some a) s (Some sub) x model_a hard w
      = (Ok tt, w1)
    ∧ PathUtils.save_hyperparameters_shapes K (Some n) (Some a) s (Some sub) y model_b hard w1
      = (Ok tt, w2)
    ∧ PathUtils.load_hyperparameters_shapes K (Some n) (Some a) s (Some sub)
        hard false false oracle w2
      = (Ok (Some loaded), w2)
    ∧ loaded !! model_a = Some x
    ∧ loaded !! model_b = Some y
    ∧ (∀ other, other ≠ model_a → other ≠ model_b →
         loaded !! other
         = PathUtils.stored_set (fs w)
             (PathUtils.hp_file K (Some n) (Some a) s (Some sub) hard) !! other)
    ∧ warned w2 = warned w.
Proof.
  intros Ha Hb Hab Hready.
  destruct (save_hyperparameters_shapes_run _ _ _ _ _ model_a x w Ha Hready)
    as (f1 & Hsave1 & Hfile1 & Hdir1).
  assert (Hready1 : PathUtils.hp_store_ready K (fs (MkWorld f1 (warned w)))
                      (Some n) (Some a) s (Some sub) hard).
  { right. eexists. split; [exact Hfile1 | exact Hdir1]. }
  destruct (save_hyperparameters_shapes_run _ _ _ _ _ model_b y _ Hb Hready1)
    as (f2 & Hsave2 & Hfile2 & Hdir2).
  simpl in Hsave2, Hfile2.
  unfold PathUtils.stored_set in Hfile2 at 1. rewrite Hfile1 in Hfile2.
  eexists _, _, _. split; [exact Hsave1|]. split; [exact Hsave2|].
  split; [by apply load_hyperparameters_shapes_exact|].
  split; [|split; [|split]].
  - rewrite lookup_insert_ne by done. by rewrite lookup_insert_eq.
  - by rewrite lookup_insert_eq.
  - intros other Hoa Hob. by rewrite !lookup_insert_ne.
  - done.
Qed.

(** *** Every Shapes artifact lies in the folder [c{n}_a{a}_s{s}] *)

Lemma written_in_folder F x c (w w' : world) :
  bind (PathUtils.make_file_path (APath F) (APath (PathLib.of_str x)) true)
       (λ file_path, write_file file_path c) w = (Ok tt, w') →
  holds_under (fs w') F c.
Proof.
  intros (p & w1 & Hpath & Hwrite)%bind_ok_inv.
  apply make_file_path_under in Hpath as [_ Hunder].
  exists p. split; [done | by apply write_file_inv in Hwrite].
Qed.

Lemma read_in_folder F x (w w' : world) (c : content state_dict history) :
  bind (PathUtils.make_file_path (APath F) (APath (PathLib.of_str x)) false) read_file w
    = (Ok c, w') →
  holds_under (fs w) F c.
Proof.
  intros (p & w1 & Hpath & Hread)%bind_ok_inv.
  pose proof Hpath as [_ Hunder]%make_file_path_under.
  assert (w1 = w) as ->.
  { unfold PathUtils.make_file_path in Hpath.
    apply bind_ok_inv in Hpath as ([] & v1 & [= _ <-] & Hpath).
    apply bind_ok_inv in Hpath as (? & v2 & [= _ <-] & Hpath).
    apply bind_ok_inv in Hpath as ([] & v3 & [= <-] & Hpath).
    apply bind_ok_inv in Hpath as (? & v4 & [= _ <-] & Hpath).
    by injection Hpath as _ <-. }
  exists p. split; [done | by apply read_file_inv in Hread as [? _]].
Qed.

Lemma oracle_folder_under F (oracle_only : bool) :
  (oracle_only = true → root (PathLib.of_str (ORACLE_FOLDER K)) = "") →
  PathLib.under F (if oracle_only then F </> PathLib.of_str (ORACLE_FOLDER K) else F).
Proof.
  destruct oracle_only; [|intros _; apply under_refl].
  intros H. apply under_div. by apply H.
Qed.

Lemma holds_under_mono f F F' (c : content state_dict history) :
  PathLib.under F F' → holds_under f F' c → holds_under f F c.
Proof. intros HF (p & Hp & Hc). exists p. split; [by eapply under_trans | done]. Qed.

Lemma save_history_shapes_under n a s b sub h oracle_only hard (w w' : world) :
  (oracle_only = true → root (PathLib.of_str (ORACLE_FOLDER K)) = "") →
  PathUtils.save_history_shapes K n a s b sub h oracle_only hard w = (Ok tt, w') →
  holds_under (fs w') (PathUtils.shapes_folder K n a s (HISTORY_FOLDER K)) (CPickle h).
Proof.
  intros Horacle. unfold PathUtils.save_history_shapes.
  rewrite get_full_shapes_folder_path_eq, bind_lift_ok. intros H.
  apply written_in_folder in H.
  eapply holds_under_mono; [by apply oracle_folder_under | exact H].
Qed.

Lemma load_history_shapes_under n a s b sub oracle_only hard (w w' : world) h :
  (oracle_only = true → root (PathLib.of_str (ORACLE_FOLDER K)) = "") →
  PathUtils.load_history_shapes K n a s b sub hard oracle_only w = (Ok h, w') →
  holds_under (fs w) (PathUtils.shapes_folder K n a s (HISTORY_FOLDER K)) (CPickle h).
Proof.
  intros Horacle. unfold PathUtils.load_history_shapes.
  rewrite get_full_shapes_folder_path_eq, bind_lift_ok. intros H.
  apply bind_ok_inv in H as (p & w1 & Hpath & Hload).
  unfold pickle_load in Hload. apply bind_ok_inv in Hload as (c & w2 & Hread & Hc).
  destruct c; try discriminate. injection Hc as -> _.
  eapply holds_under_mono; [by apply oracle_folder_under|].
  eapply read_in_folder. erewrite bind_ok; [exact Hread | exact Hpath].
Qed.

Lemma save_model_shapes_under n a s sub sd model_type metric hard adversarial (w w' : world) :
  PathUtils.save_model_shapes K n a s sub sd model_type metric hard adversarial w = (Ok tt, w') →
  holds_under (fs w') (PathUtils.shapes_folder K n a s (SAVED_MODELS_FOLDER K)) (CTorch sd).
Proof.
  unfold PathUtils.save_model_shapes. intros H.
  apply bind_ok_inv in H as ([] & w1 & [= _ <-] & H). revert H.
  rewrite get_full_shapes_folder_path_eq, bind_lift_ok. apply written_in_folder.
Qed.

Lemma load_model_shapes_under n a s sub model_type metric hard adversarial (w w' : world) sd :
  PathUtils.load_model_shapes K n a s sub model_type metric hard adversarial w = (Ok sd, w') →
  holds_under (fs w) (PathUtils.shapes_folder K n a s (SAVED_MODELS_FOLDER K)) (CTorch sd).
Proof.
  unfold PathUtils.load_model_shapes. intros H.
  apply bind_ok_inv in H as ([] & w1 & [= _ <-] & H). revert H.
  rewrite get_full_shapes_folder_path_eq, bind_lift_ok. intros H.
  apply bind_ok_inv in H as (p & w1 & Hpath & Hload).
  unfold torch_load in Hload. apply bind_ok_inv in Hload as (c & w2 & Hread & Hc).
  destruct c; try discriminate. injection Hc as -> _.
  eapply read_in_folder. erewrite bind_ok; [exact Hread | exact Hpath].
Qed.

Lemma save_mpo_plot_shapes_under n a s b sub hard (w w' : world) :
  PathUtils.save_mpo_plot_shapes K n a s b sub hard w = (Ok tt, w') →
  holds_under (fs w') (PathUtils.shapes_folder K n a s (PLOTS_FOLDER K)) CFigure.
Proof.
  unfold PathUtils.save_mpo_plot_shapes.
  rewrite get_full_shapes_folder_path_eq, bind_lift_ok. apply written_in_folder.
Qed.

Lemma save_training_plot_shapes_under n a s b sub hard attr (w w' : world) :
  PathUtils.save_training_plot_shapes K n a s b sub hard attr w = (Ok tt, w') →
  holds_under (fs w') (PathUtils.shapes_folder K n a s (PLOTS_FOLDER K)) CFigure.
Proof.
  unfold PathUtils.save_training_plot_shapes.
  rewrite get_full_shapes_folder_path_eq, bind_lift_ok. apply written_in_folder.
Qed.

Lemma save_test_plot_shapes_under n a s b hard (w w' : world) :
  PathUtils.save_test_plot_shapes K n a s b hard w = (Ok tt, w') →
  holds_under (fs w') (PathUtils.shapes_folder K n a s (PLOTS_FOLDER K)) CFigure.
Proof.
  unfold PathUtils.save_test_plot_shapes.
  rewrite get_full_shapes_folder_path_eq, bind_lift_ok. apply written_in_folder.
Qed.

Lemma save_hyperparameters_shapes_under n a s sub values model_type hard (w w' : world) :
  PathUtils.save_hyperparameters_shapes K n a s sub values model_type hard w = (Ok tt, w') →
  ∃ doc : hpset,
    doc !! model_type = Some values
    ∧ holds_under (fs w') (PathUtils.shapes_folder K n a s (HYPERPARAMETERS_FOLDER K))
        (CYaml (Some doc)).
Proof.
  unfold PathUtils.save_hyperparameters_shapes. intros H.
  apply bind_ok_inv in H as ([] & w1 & [= _ <-] & H). revert H.
  rewrite get_full_shapes_folder_path_eq, bind_lift_ok. intros H.
  apply bind_ok_inv in H as (p & w1 & Hpath & H).
  apply make_file_path_under in Hpath as [_ Hunder].
  apply bind_ok_inv in H as (present & w2 & _ & H).
  destruct present; cbn [negb] in H.
  - apply bind_ok_inv in H as (full & w3 & _ & H).
    eexists. split; [|exists p; split; [done | by apply write_file_inv in H]].
    by rewrite lookup_insert_eq.
  - apply bind_ok_inv in H as ([] & w3 & _ & H).
    eexists. split; [|exists p; split; [done | by apply write_file_inv in H]].
    by rewrite lookup_singleton_eq.
Qed.

End Shapes.
End PathUtilsFacts.

(** ** Test accuracy *)

Module EvaluationFacts.
Import Evaluation.
Section Eval.

Context {input attr_labels state_dict env : Type}.
Variable cuda_is_available : bool.
Local Abbreviation model := (@model input state_dict).
Local Abbreviation dataloader := (@dataloader input attr_labels).
Local Abbreviation batch := (@batch input attr_labels).

(** [argmax_from] returns a position that holds a maximum. *)
Lemma argmax_from_spec row : ∀ best best_i i,
  let r := argmax_from best best_i i row in
  (r = best_i ∧ Forall (λ x, Qle x best) row)
  ∨ (∃ j x, r = (i + j)%nat ∧ row !! j = Some x ∧ Qle best x ∧ Forall (λ y, Qle y x) row).
Proof.
  induction row as [|x row IH]; intros best best_i i; simpl.
  { left. by split. }
  destruct (Qle_bool x best) eqn:Hx.
  - apply Qle_bool_iff in Hx.
    destruct (IH best best_i (S i)) as [[-> Hall] | (j & y & -> & Hj & Hy & Hall)].
    + left. split; [done | by constructor].
    + right. exists (S j), y.
      split; [lia|]. split; [done|]. split; [done|].
      constructor; [by apply (Qle_trans _ best) | done].
  - assert (Hlt : Qle best x).
    { apply Qlt_le_weak, Qnot_le_lt. intros H. apply Qle_bool_iff in H. congruence. }
    right.
    destruct (IH x i (S i)) as [[-> Hall] | (j & y & -> & Hj & Hy & Hall)].
    + exists 0%nat, x.
      split; [lia|]. split; [done|]. split; [done|].
      constructor; [apply Qle_refl | done].
    + exists (S j), y.
      split; [lia|]. split; [done|]. split; [by apply (Qle_trans _ x)|].
      constructor; [done | done].
Qed.

(** The top-1 prediction is the position of a largest logit. *)
Lemma top1_maximal row :
  row ≠ [] →
  ∃ j x, top1 row = Z.of_nat j ∧ row !! j = Some x ∧ Forall (λ y, Qle y x) row.
Proof.
  destruct row as [|x row]; [done|]. intros _. simpl.
  destruct (argmax_from_spec row x 0%nat 1%nat) as [[-> Hall] | (j & y & -> & Hj & Hy & Hall)].
  - exists 0%nat, x. split; [done|]. split; [done|]. constructor; [apply Qle_refl | done].
  - exists (S j), y. split; [done|]. split; [done|]. by constructor.
Qed.

Lemma torch_max_1_rows rows :
  forallb (λ row : list Q, negb (length row =? 0)%nat) rows = true →
  torch_max_1 rows = Ok (List.map top1 rows).
Proof.
  induction rows as [|r rows IH]; simpl; [done|].
  intros [Hr Hrows]%andb_true_iff. rewrite (IH Hrows).
  destruct r; [done|]. done.
Qed.

Lemma count_eq_bounds l : (0 ≤ count_eq l ≤ Z.of_nat (length l))%Z.
Proof.
  unfold count_eq. split; [lia|].
  apply inj_le. induction l as [|x l IH]; simpl; [lia|].
  destruct (Z.eqb _ _); simpl; lia.
Qed.

Lemma batch_correct_bounds (m : model) (b : batch) :
  (0 ≤ batch_correct m b ≤ Z.of_nat (length (b_labels b)))%Z.
Proof.
  unfold batch_correct.
  pose proof (count_eq_bounds
    (combine (List.map top1 (rows_of (call_model (eval_mode m) (b_input b)))) (b_labels b)))
    as [H1 H2].
  split; [done|]. etrans; [exact H2|]. apply inj_le.
  rewrite length_combine. lia.
Qed.

Lemma total_correct_bounds (m : model) (loader : dataloader) :
  (0 ≤ total_correct m loader
   ≤ Z.of_nat (fold_right (λ b acc, (length (b_labels b) + acc)%nat) 0%nat (batches loader)))%Z.
Proof.
  unfold total_correct. induction (batches loader) as [|b bs IH]; simpl; [lia|].
  pose proof (batch_correct_bounds m b). lia.
Qed.

Lemma percentage_bounds (k n : Z) :
  (0 ≤ k ≤ n)%Z → (0 < n)%Z →
  (0 <= inject_Z (100 * k) / inject_Z n)%Q ∧ (inject_Z (100 * k) / inject_Z n <= 100)%Q.
Proof.
  intros Hk Hn. destruct n as [|p|p]; try lia.
  unfold Qle, Qdiv, Qmult, Qinv, inject_Z. simpl. split; nia.
Qed.

(** C10. When the model gives one non-empty row of logits per label, the
    batches hold as many items as the dataset, and the dataset is not empty,
    [evaluate_on_test_set] returns 100 times the number of correct top-1
    predictions divided by the size of the dataset, and that value lies
    between 0 and 100. *)
Theorem evaluate_on_test_set_percentage (m : model) (test_loader : dataloader)
    (device : option string) (non_blocking : bool) :
  well_shaped m test_loader = true →
  covers test_loader = true →
  dataset test_loader ≠ [] →
  ∃ accuracy,
    evaluate_on_test_set cuda_is_available m test_loader device non_blocking = Ok accuracy
    ∧ accuracy = (inject_Z (100 * total_correct m test_loader)
                  / inject_Z (Z.of_nat (length (dataset test_loader))))%Q
    ∧ (0 <= accuracy)%Q ∧ (accuracy <= 100)%Q.
Proof.
  intros Hshape Hcover Hne.
  unfold evaluate_on_test_set.
  match goal with
  | |- context [fold_left ?f (batches test_loader) (Ok 0%Z)] => set (step := f)
  end.
  assert (Hfold : ∀ bs acc,
    forallb (λ b : batch,
      let rows := rows_of (call_model (eval_mode m) (b_input b)) in
      (length rows =? length (b_labels b))%nat
      && forallb (λ row, negb (length row =? 0)%nat) rows) bs = true →
    fold_left step bs (Ok acc)
    = Ok (acc + fold_right (λ b a, (batch_correct m b + a)%Z) 0%Z bs)%Z).
  { induction bs as [|b bs IH]; intros acc Hbs; cbn [fold_left fold_right].
    { f_equal. lia. }
    cbn [forallb] in Hbs. cbv zeta in Hbs. apply andb_true_iff in Hbs as [[Hlen Hrows]%andb_true_iff Hbs].
    assert (Hstep : step (Ok acc) b = Ok (acc + batch_correct m b)%Z).
    { unfold step, batch_correct.
      assert (Hout : match call_model (eval_mode m) (b_input b) with
                     | Tensor rows => rows
                     | Tuple rows _ => rows
                     end = rows_of (call_model (eval_mode m) (b_input b))) by done.
      rewrite Hout, (torch_max_1_rows _ Hrows).
      unfold correct_in_batch. by rewrite length_map, Hlen. }
    rewrite Hstep, (IH _ Hbs). f_equal. lia. }
  rewrite (Hfold _ 0%Z Hshape). fold (total_correct m test_loader).
  assert (Hlen : (0 < Z.of_nat (length (dataset test_loader)))%Z).
  { destruct (dataset test_loader); [done | simpl; lia]. }
  destruct (Z.eqb_spec (Z.of_nat (length (dataset test_loader))) 0) as [E|_]; [lia|].
  eexists. split; [reflexivity|]. split; [done|].
  rewrite Z.add_0_l. apply percentage_bounds; [|done].
  pose proof (total_correct_bounds m test_loader) as [H1 H2].
  unfold covers in Hcover. apply Nat.eqb_eq in Hcover. rewrite Hcover in H2. done.
Qed.

(** On an empty dataset the division fails. *)
Lemma evaluate_on_test_set_empty (m : model) (test_loader : dataloader) device non_blocking :
  batches test_loader = [] → dataset test_loader = [] →
  evaluate_on_test_set cuda_is_available m test_loader device non_blocking
  = Raise ZeroDivisionError.
Proof. intros Hb Hd. unfold evaluate_on_test_set. by rewrite Hb, Hd. Qed.

(** ** The calls of the orchestrator and of the driver *)

Variable C : @collaborators input attr_labels state_dict env.
Local Abbreviation state := (@state env).

Lemma call_inv {A} ev (f : env → result A * env) (st st' : state) a :
  call ev f st = (Ok a, st') →
  ∃ e', f (ext st) = (Ok a, e') ∧ st' = MkState (trace st ++ [ev]) e'.
Proof.
  unfold call. destruct (f (ext st)) as [r e'] eqn:Hf. intros [= -> <-]. eauto.
Qed.

Lemma lift_inv {A} (r : result A) (st st' : state) a :
  lift r st = (Ok a, st') → r = Ok a ∧ st' = st.
Proof. by intros [= -> ->]. Qed.

Lemma ret_inv {A} (x a : A) (st st' : state) :
  ret x st = (Ok a, st') → a = x ∧ st' = st.
Proof. by intros [= -> ->]. Qed.

Lemma item_inv {A} (l : list A) i x : item l i = Ok x → l !! i = Some x.
Proof. unfold item. by destruct (l !! i); intros [= ->]. Qed.

(** Inversion of the monadic steps of a successful run. *)
Ltac step_lift H x Hx :=
  apply bind_ok_inv in H as (x & ? & [Hx ->]%lift_inv & H).
Ltac step_call H x e Hx :=
  apply bind_ok_inv in H as (x & ? & (e & Hx & ->)%call_inv & H).

(** One turn of the loop over the models. *)
Lemma train_and_evaluate_model_inv n_classes n_attr train_loader val_loader test_loader
    sub_dir hp fast device non_blocking n_bootstrap seed verbose models histories i
    (st st' : state) hs' :
  train_and_evaluate_model cuda_is_available C n_classes n_attr train_loader val_loader
    test_loader sub_dir hp fast device non_blocking n_bootstrap seed verbose models
    histories i st = (Ok hs', st') →
  ∃ t h', trace st' = trace st ++ t ∧ hs' = histories ++ [h']
    ∧ model_outcome cuda_is_available C n_classes n_attr test_loader sub_dir fast device
        non_blocking n_bootstrap seed models i t h'.
Proof.
  unfold train_and_evaluate_model. intros H.
  step_lift H model_ Hmodel. apply item_inv in Hmodel.
  step_lift H model_string Hstring. apply item_inv in Hstring.
  step_call H u1 e1 Hprint.
  step_lift H lr Hlr. step_lift H gamma Hgamma.
  step_lift H save_name_i Hsave. apply item_inv in Hsave.
  assert (save_name_i = model_string) as -> by congruence.
  step_call H u2 e2 Hmk.
  apply bind_ok_inv in H as (u3 & st3 & Hseed & H).
  apply bind_ok_inv in H as (history & st4 & Htrain & H).
  step_call H sd e5 Hload.
  step_lift H acc Hacc.
  apply ret_inv in H as [-> ->].
  set (path := "saved_models/" +:+ class_dir_of n_classes n_attr fast +:+ sub_dir) in *.
  set (save := model_string +:+ "_b" +:+ PyStr.str n_bootstrap) in *.
  set (epochs := if fast then 2%Z else MAX_EPOCHS C) in *.
  assert (Hst3 : trace st3
    = (trace st ++ [EvPrint ("Running model " +:+ name model_ +:+ ":")])
        ++ [EvMakedirs path]
        ++ match seed with Some seed => [EvSeedEverything seed] | None => [] end).
  { destruct seed as [sd0|].
    - apply call_inv in Hseed as (e3 & _ & ->). simpl. by rewrite <- app_assoc.
    - apply ret_inv in Hseed as [_ ->]. simpl. by rewrite <- app_assoc. }
  assert (Hst4 : trace st4 = trace st3
    ++ [if String.eqb (name model_) "ShapesCNN"
        then EvTrainSimple (name model_) path save epochs
        else EvTrainCbm (name model_) path save epochs]).
  { destruct (String.eqb (name model_) "ShapesCNN").
    - by apply call_inv in Htrain as (e4 & _ & ->).
    - step_lift Htrain w Hw. by apply call_inv in Htrain as (e4 & _ & ->). }
  eexists _, _. split; [|split; [reflexivity|]].
  2: { exists model_, model_string, sd, (ext st4), e5, acc, history.
       split; [done|]. split; [done|]. split; [reflexivity|]. split; [exact Hload|].
       split; [exact Hacc | reflexivity]. }
  simpl. rewrite Hst4, Hst3. unfold model_events. simpl.
  rewrite <- !app_assoc. simpl. by destruct seed.
Qed.

(** The loop over the models. *)
Lemma models_loop_inv n_classes n_attr train_loader val_loader test_loader
    sub_dir hp fast device non_blocking n_bootstrap seed verbose models len :
  ∀ k hs0 (st st' : state) hs,
  for_each (seq k len)
    (train_and_evaluate_model cuda_is_available C n_classes n_attr train_loader val_loader
       test_loader sub_dir hp fast device non_blocking n_bootstrap seed verbose models)
    hs0 st = (Ok hs, st') →
  ∃ ts outs, hs = hs0 ++ outs ∧ trace st' = trace st ++ concat ts
    ∧ Forall3 (model_outcome cuda_is_available C n_classes n_attr test_loader sub_dir fast
                 device non_blocking n_bootstrap seed models)
        (seq k len) ts outs.
Proof.
  induction len as [|len IH]; intros k hs0 st st' hs H; simpl in H.
  { apply ret_inv in H as [-> ->]. exists [], []. simpl.
    rewrite !app_nil_r. repeat split; constructor. }
  apply bind_ok_inv in H as (hs1 & st1 & Hbody & Hrest).
  apply train_and_evaluate_model_inv in Hbody as (t & h' & Ht & -> & Hout).
  apply IH in Hrest as (ts & outs & -> & Hts & Hall).
  exists (t :: ts), (h' :: outs). split; [by rewrite <- app_assoc|]. split.
  - rewrite Hts, Ht. simpl. by rewrite <- app_assoc.
  - simpl. by constructor.
Qed.

Lemma model_outcome_facts n_classes n_attr test_loader sub_dir fast device non_blocking
    n_bootstrap seed models i t h' :
  model_outcome cuda_is_available C n_classes n_attr test_loader sub_dir fast device
    non_blocking n_bootstrap seed models i t h' →
  Forall loads_loss_checkpoint t ∧ has_test_accuracy h'.
Proof.
  intros (m & ms & sd & e1 & e2 & acc & h & _ & _ & -> & _ & _ & ->). split.
  - unfold model_events. repeat apply Forall_app_2; repeat constructor.
    + by destruct seed; repeat constructor.
    + by destruct (String.eqb _ _).
    + simpl. eexists. by rewrite <- PyStrFacts.append_assoc.
  - exists acc. by rewrite lookup_insert_eq.
Qed.

(** A successful [train_and_evaluate_shapes], call by call. *)
Lemma train_and_evaluate_shapes_inv n_classes n_attr
    train_loader val_loader test_loader sub_dir hyperparameters fast device non_blocking
    n_bootstrap seed verbose (st st' : state) histories :
  train_and_evaluate_shapes cuda_is_available C n_classes n_attr train_loader
    val_loader test_loader sub_dir hyperparameters fast device non_blocking
    n_bootstrap seed verbose st = (Ok histories, st') →
  ∃ models pre ts,
    trace st' = trace st ++ pre ++ concat ts
    ∧ forallb is_setup pre = true
    ∧ Forall3 (model_outcome cuda_is_available C n_classes n_attr test_loader sub_dir fast
                 (resolve_device cuda_is_available device) non_blocking n_bootstrap seed models)
        (seq 0 (length models)) ts histories.
Proof.
  intros Hrun. unfold train_and_evaluate_shapes in Hrun.
  apply bind_ok_inv in Hrun as (hp & st1 & Hhp & Hrun).
  step_call Hrun models e2 Hmodels.
  apply models_loop_inv in Hrun as (ts & outs & -> & Hts & Hall).
  assert (Hpre : ∃ pre, trace st1 ++ [EvLoadModels n_classes n_attr] = trace st ++ pre
                        ∧ forallb is_setup pre = true).
  { destruct hyperparameters as [hp0|].
    - apply ret_inv in Hhp as [_ ->]. by exists [EvLoadModels n_classes n_attr].
    - step_lift Hhp n_subset Hsub. apply call_inv in Hhp as (e1 & _ & ->). simpl.
      exists [EvGetHyperparameters n_classes n_attr n_subset fast; EvLoadModels n_classes n_attr].
      by rewrite <- app_assoc. }
  destruct Hpre as (pre & Hpre & Hsetup). simpl in Hts. rewrite Hpre in Hts.
  exists models, pre, ts. split; [by rewrite Hts, <- app_assoc|]. by split.
Qed.


(** *** What the driver regenerates and what it reseeds *)






(** Collecting the test accuracies makes no call. *)
Lemma collect_accuracies_pure histories_total l : ∀ lists (st st' : state) lists',
  for_each l
    (λ (lists : list (list Q)) (i : nat),
       bind (lift (test_accuracy_of histories_total i)) (λ a,
       bind (lift (item lists i)) (λ l, ret (<[i := l ++ [a]]> lists))))
    lists st = (Ok lists', st') →
  st' = st.
Proof.
  induction l as [|i l IH]; intros lists st st' lists' H; simpl in H.
  { by apply ret_inv in H as [_ ->]. }
  apply bind_ok_inv in H as (lists1 & st1 & Hbody & Hrest).
  step_lift Hbody a Ha. step_lift Hbody row Hrow. apply ret_inv in Hbody as [_ ->].
  by apply IH in Hrest.
Qed.




(** *** Where the driver puts its artifacts *)

Lemma extends_refl P (st : state) : extends_with P st st.
Proof. exists []. by rewrite app_nil_r. Qed.

Lemma extends_trans P (st1 st2 st3 : state) :
  extends_with P st1 st2 → extends_with P st2 st3 → extends_with P st1 st3.
Proof.
  intros (t1 & H1 & F1) (t2 & H2 & F2). exists (t1 ++ t2).
  split; [by rewrite H2, H1, <- app_assoc | by apply Forall_app_2].
Qed.

Lemma extends_call (P : event → Prop) (st : state) ev e :
  P ev → extends_with P st (MkState (trace st ++ [ev]) e).
Proof. intros H. exists [ev]. split; [done | by constructor]. Qed.

Lemma extends_call_r (P : event → Prop) (st st1 : state) ev e :
  extends_with P st st1 → P ev → extends_with P st (MkState (trace st1 ++ [ev]) e).
Proof. intros H Hev. eapply extends_trans; [exact H | by apply extends_call]. Qed.

Lemma for_each_extends {A B} (P : event → Prop) (body : B → A → Py state B) l :
  (∀ b x st b' st', body b x st = (Ok b', st') → extends_with P st st') →
  ∀ b st b' st', for_each l body b st = (Ok b', st') → extends_with P st st'.
Proof.
  intros Hbody. induction l as [|x l IH]; intros b st b' st' H; cbn [for_each] in H.
  { apply ret_inv in H as [_ ->]. apply extends_refl. }
  apply bind_ok_inv in H as (b1 & st1 & H1 & H2).
  eapply extends_trans; [by eapply Hbody | by eapply IH].
Qed.

Lemma model_outcome_artifacts n_classes n_attr test_loader sub_dir fast device
    non_blocking n_bootstrap seed models i t h' :
  model_outcome cuda_is_available C n_classes n_attr test_loader sub_dir fast device
    non_blocking n_bootstrap seed models i t h' →
  Forall (artifact_in (class_dir_of n_classes n_attr fast)) t.
Proof.
  intros (m & ms & sd & e1 & e2 & acc & h & _ & _ & -> & _ & _ & _).
  unfold model_events. apply Forall_app_2; [|apply Forall_app_2].
  - constructor; [done|]. constructor; [|constructor]. left. by eexists.
  - destruct seed; [constructor; [done | constructor] | constructor].
  - constructor; [destruct (String.eqb _ _); by eexists|].
    constructor; [|constructor]. simpl. eexists. by rewrite !PyStrFacts.append_assoc.
Qed.

Lemma train_and_evaluate_shapes_artifacts n_classes n_attr
    train_loader val_loader test_loader sub_dir hyperparameters fast device non_blocking
    n_bootstrap seed verbose (st st' : state) histories :
  train_and_evaluate_shapes cuda_is_available C n_classes n_attr train_loader
    val_loader test_loader sub_dir hyperparameters fast device non_blocking
    n_bootstrap seed verbose st = (Ok histories, st') →
  extends_with (artifact_in (class_dir_of n_classes n_attr fast)) st st'.
Proof.
  intros Hrun.
  destruct (train_and_evaluate_shapes_inv _ _ _ _ _ _ _ _ _ _ _ _ _ _ _ _ Hrun)
    as (models & pre & ts & Hts & Hsetup & Hall).
  exists (pre ++ concat ts). split; [done|]. apply Forall_app_2.
  - clear -Hsetup. induction pre as [|e pre IH]; [constructor|].
    simpl in Hsetup. apply andb_true_iff in Hsetup as [He Hpre].
    constructor; [by destruct e | by apply IH].
  - clear Hrun Hts. induction Hall as [|i t h' is_ ts outs Hout _ IH]; [constructor|].
    simpl. apply Forall_app_2; [by eapply model_outcome_artifacts | done].
Qed.

Lemma bootstrap_iteration_artifacts dataset_dir n_classes n_attr subset subset_dir
    test_loader n_bootstrap fast batch_size device non_blocking base_seed verbose
    vars i (st st' : state) vars' :
  bootstrap_iteration cuda_is_available C dataset_dir n_classes n_attr subset subset_dir
    test_loader n_bootstrap fast batch_size device non_blocking base_seed verbose
    vars i st = (Ok vars', st') →
  extends_with (artifact_in (class_dir_of n_classes n_attr fast)) st st'.
Proof.
  unfold bootstrap_iteration. destruct vars as [seed ht]. intros H.
  step_call H u1 e1 Hsubset. step_call H loaders e2 Hloaders.
  destruct loaders as [train_loader val_loader].
  apply bind_ok_inv in H as (histories & st3 & Htrain & H).
  step_lift H summed Hadd. apply ret_inv in H as [-> ->].
  apply train_and_evaluate_shapes_artifacts in Htrain.
  eapply extends_trans; [|exact Htrain].
  apply extends_call_r; [|done]. apply extends_call_r; [apply extends_refl | done].
Qed.

Lemma run_subset_artifacts dataset_dir n_classes n_attr n_bootstrap fast batch_size device
    non_blocking base_seed verbose lists subset (st st' : state) lists' :
  run_subset cuda_is_available C dataset_dir n_classes n_attr n_bootstrap fast batch_size
    device non_blocking base_seed verbose (class_dir_of n_classes n_attr fast)
    lists subset st = (Ok lists', st') →
  extends_with (artifact_in (class_dir_of n_classes n_attr fast)) st st'.
Proof.
  unfold run_subset. intros H.
  apply bind_ok_inv in H as (u0 & st0 & Hprint & H).
  assert (Hst0 : extends_with (artifact_in (class_dir_of n_classes n_attr fast)) st st0).
  { destruct (negb _).
    - apply call_inv in Hprint as (e & _ & ->). by apply extends_call.
    - apply ret_inv in Hprint as [_ ->]. apply extends_refl. }
  step_call H test_loader e1 Htest.
  apply bind_ok_inv in H as (vars & st2 & Hloop & H). destruct vars as [seed ht].
  apply (for_each_extends (artifact_in (class_dir_of n_classes n_attr fast))) in Hloop;
    [|intros; by eapply bootstrap_iteration_artifacts].
  apply bind_ok_inv in H as (lists1 & st3 & Hacc & H).
  apply collect_accuracies_pure in Hacc as ->.
  step_call H u4 e4 Hmk1. step_call H u5 e5 Hplot. step_call H u6 e6 Hmk2.
  step_call H u7 e7 Hdump. step_call H u8 e8 Hreset. apply ret_inv in H as [_ ->].
  apply extends_call_r; [|done].
  apply extends_call_r; [|by eexists].
  apply extends_call_r; [|right; by right].
  apply extends_call_r; [|split; [done | eexists; by rewrite PyStrFacts.append_assoc]].
  apply extends_call_r; [|right; by left].
  eapply extends_trans; [|exact Hloop].
  by apply extends_call_r.
Qed.

Lemma run_models_on_subsets_and_plot_artifacts dataset_dir n_classes n_attr subsets
    n_bootstrap fast batch_size device non_blocking base_seed verbose (st st' : state) u :
  run_models_on_subsets_and_plot cuda_is_available C dataset_dir n_classes n_attr subsets
    n_bootstrap fast batch_size device non_blocking base_seed verbose st = (Ok u, st') →
  extends_with (artifact_in (class_dir_of n_classes n_attr fast)) st st'.
Proof.
  unfold run_models_on_subsets_and_plot. intros H.
  apply bind_ok_inv in H as (lists & st1 & Hloop & H).
  apply (for_each_extends (artifact_in (class_dir_of n_classes n_attr fast))) in Hloop;
    [|intros; by eapply run_subset_artifacts].
  step_call H u1 e1 Hplot. apply call_inv in H as (e2 & _ & ->).
  apply extends_call_r; [|by eexists].
  apply extends_call_r; [exact Hloop | by eexists].
Qed.



End Eval.
End EvaluationFacts.

(** ** Accumulating histories *)

Module UtilsFacts.
Import Utils.
Section AddHistories.

Context {V : Type}.
Variable add : V → V → V.

Lemma add_sequences_ok xs : ∀ ys,
  length xs = length ys → add_sequences add xs ys = Ok (zip_with add xs ys).
Proof.
  induction xs as [|x xs IH]; intros [|y ys] Hlen; simpl in *; try done.
  rewrite IH; [done | lia].
Qed.

Lemma add_sequences_mismatch xs : ∀ ys,
  length xs ≠ length ys → ∃ e, add_sequences add xs ys = Raise e.
Proof.
  induction xs as [|x xs IH]; intros [|y ys] Hlen; simpl in *; try done; eauto.
  destruct (IH ys) as [e ->]; [lia | eauto].
Qed.

Lemma add_history_ok (ha hb : gmap string (list V)) :
  (∀ key xs ys, ha !! key = Some xs → hb !! key = Some ys → length xs = length ys) →
  ∃ hr, add_history add ha hb = Ok hr
    ∧ ∀ key xs ys, ha !! key = Some xs → hb !! key = Some ys →
        hr !! key = Some (zip_with add xs ys).
Proof.
  intros Hfit. unfold add_history.
  match goal with |- context [decide ?P] => destruct (decide P) as [Hall | Hbad] end.
  - eexists. split; [reflexivity|]. intros key xs ys Ha Hb.
    rewrite lookup_omap, lookup_merge, Ha, Hb. simpl.
    by rewrite (add_sequences_ok xs ys (Hfit key xs ys Ha Hb)).
  - exfalso. apply Hbad. intros key r. rewrite lookup_merge.
    destruct (ha !! key) as [xs|] eqn:Ha, (hb !! key) as [ys|] eqn:Hb; simpl;
      intros [= <-]; [|done].
    by rewrite (add_sequences_ok xs ys (Hfit key xs ys Ha Hb)).
Qed.

Lemma add_history_mismatch (ha hb : gmap string (list V)) key xs ys :
  ha !! key = Some xs → hb !! key = Some ys → length xs ≠ length ys →
  ∃ e, add_history add ha hb = Raise e.
Proof.
  intros Ha Hb Hlen. unfold add_history.
  match goal with |- context [decide ?P] => destruct (decide P) as [Hall | Hbad] end;
    [|eauto].
  exfalso. destruct (add_sequences_mismatch xs ys Hlen) as [e He].
  specialize (Hall key (Raise e)). rewrite lookup_merge, Ha, Hb in Hall. simpl in Hall.
  rewrite He in Hall. by specialize (Hall eq_refl).
Qed.

Lemma add_all_ok a : ∀ b,
  same_shape a b →
  ∃ r, add_all add a b = Ok r ∧ length r = length a
    ∧ ∀ i ha hb key xs ys,
        a !! i = Some ha → b !! i = Some hb → ha !! key = Some xs → hb !! key = Some ys →
        ∃ hr, r !! i = Some hr ∧ hr !! key = Some (zip_with add xs ys).
Proof.
  induction a as [|ha a IH]; intros b Hshape; inversion Hshape as [|? hb ? b' Hfit Hrest];
    subst; simpl.
  { exists []. by repeat split. }
  destruct (add_history_ok ha hb Hfit) as (hr & -> & Hsum).
  destruct (IH b' Hrest) as (r & -> & Hlen & Hall).
  exists (hr :: r). split; [done|]. split; [simpl; lia|].
  intros [|i] ha' hb' key xs ys Ha Hb Hx Hy; simpl in *.
  - injection Ha as <-. injection Hb as <-. exists hr. split; [done | by eapply Hsum].
  - by eapply Hall.
Qed.

Lemma add_all_mismatch a : ∀ b i ha hb key xs ys,
  a !! i = Some ha → b !! i = Some hb → ha !! key = Some xs → hb !! key = Some ys →
  length xs ≠ length ys →
  ∃ e, add_all add a b = Raise e.
Proof.
  induction a as [|ha0 a IH]; intros [|hb0 b] i ha hb key xs ys Ha Hb Hx Hy Hlen;
    try done; simpl.
  destruct i as [|i]; simpl in *.
  - injection Ha as <-. injection Hb as <-.
    destruct (add_history_mismatch ha0 hb0 key xs ys Hx Hy Hlen) as [e ->]. eauto.
  - destruct (IH b i ha hb key xs ys Ha Hb Hx Hy Hlen) as [e ->].
    destruct (add_history add ha0 hb0); eauto.
Qed.

(** C8. [add_histories] with no running total returns the new histories
    unchanged. Accumulating [a] and then [b], two lists of histories of the
    same shape, succeeds with as many histories, and under every metric key
    that a model has in both, the result holds the elementwise sum of the
    two sequences. If under some common key of some model the two sequences
    differ in length, the call raises. The result never depends on
    [n_bootstrap]: there is no division by it. *)
Theorem add_histories_sum_law (a b : list (gmap string (list V))) (n_bootstrap : Z) :
  add_histories add None b n_bootstrap = Ok b
  ∧ (same_shape a b →
     ∃ r, accumulate_twice add a b n_bootstrap = Ok r ∧ length r = length a
       ∧ ∀ i ha hb key xs ys,
           a !! i = Some ha → b !! i = Some hb →
           ha !! key = Some xs → hb !! key = Some ys →
           ∃ hr, r !! i = Some hr ∧ hr !! key = Some (zip_with add xs ys))
  ∧ (∀ i ha hb key xs ys,
       a !! i = Some ha → b !! i = Some hb →
       ha !! key = Some xs → hb !! key = Some ys → length xs ≠ length ys →
       ∃ e, accumulate_twice add a b n_bootstrap = Raise e)
  ∧ (∀ running_total n', add_histories add running_total b n'
                         = add_histories add running_total b n_bootstrap).
Proof.
  split; [done|]. split; [|split; [|done]].
  - intros Hshape. by apply add_all_ok.
  - intros i ha hb key xs ys. apply add_all_mismatch.
Qed.

End AddHistories.
End UtilsFacts.

(** ** The namespace of the Shapes artifacts *)

Section Namespace.

Context {state_dict history input attr_labels weights env : Type}.
Variable K : constants.
Variable cuda_is_available : bool.
Variable C : @Evaluation.collaborators input attr_labels weights env.
Local Abbreviation world := (world state_dict history).

(** The folder of [evaluation.py] has the components [c{n}_a{a}] and, under
    [fast], [testing]: none of them names a signal strength. *)
Lemma class_dir_components n_classes n_attr fast :
  PyStr.split "/" (Evaluation.class_dir_of n_classes n_attr fast)
  = ("c" +:+ PyStr.str n_classes +:+ "_a" +:+ PyStr.str n_attr)
      :: (if fast then ["testing"; ""] else [""]).
Proof.
  assert (Hbare : PyStr.contains "/" ("c" +:+ PyStr.str n_classes +:+ "_a"
                                        +:+ PyStr.str n_attr) = false).
  { rewrite !PyStrFacts.contains_app.
    rewrite !(PyStrFacts.contains_str "/"%char) by done. reflexivity. }
  unfold Evaluation.class_dir_of. destruct fast.
  - replace (("c" +:+ PyStr.str n_classes +:+ "_a" +:+ PyStr.str n_attr +:+ "/")
               +:+ "testing/")
      with (("c" +:+ PyStr.str n_classes +:+ "_a" +:+ PyStr.str n_attr)
              +:+ String "/" "testing/")
      by (by rewrite !PyStrFacts.append_assoc).
    by rewrite (PyStrFacts.split_before _ _ _ Hbare).
  - replace ("c" +:+ PyStr.str n_classes +:+ "_a" +:+ PyStr.str n_attr +:+ "/")
      with (("c" +:+ PyStr.str n_classes +:+ "_a" +:+ PyStr.str n_attr) +:+ String "/" "")
      by (by rewrite !PyStrFacts.append_assoc).
    by rewrite (PyStrFacts.split_before _ _ _ Hbare).
Qed.

Lemma class_dir_without_signal_strength n_classes n_attr fast s :
  PathUtils.shapes_name (Some n_classes) (Some n_attr) s
  ∉ PyStr.split "/" (Evaluation.class_dir_of n_classes n_attr fast).
Proof.
  rewrite class_dir_components.
  assert (Hname : PathUtils.shapes_name (Some n_classes) (Some n_attr) s
                  = ("c" +:+ PyStr.str n_classes +:+ "_a" +:+ PyStr.str n_attr)
                      +:+ ("_s" +:+ PyStr.fmt s)).
  { unfold PathUtils.shapes_name. simpl PyStr.fmt. by rewrite !PyStrFacts.append_assoc. }
  intros Hin. apply list_elem_of_In in Hin. simpl in Hin.
  destruct Hin as [E | Hin].
  - rewrite Hname in E.
    rewrite <- (PyStrFacts.append_nil_r ("c" +:+ PyStr.str n_classes +:+ "_a"
                                           +:+ PyStr.str n_attr)) in E at 1.
    apply PyStrFacts.append_inj_l in E. discriminate E.
  - unfold PathUtils.shapes_name in Hin.
    destruct fast; simpl in Hin; destruct Hin as [E | Hin];
      try (cbv [String.append] in E; discriminate E); try done.
    destruct Hin as [E | []]. cbv [String.append] in E. discriminate E.
Qed.

Local Ltac from_run lemma :=
  match goal with
  | |- is_ok (fst ?run) = true → _ =>
      let H := fresh "Hrun" in
      destruct run as [[[]|?] ?] eqn:H; [intros _ | discriminate];
      eapply lemma; eauto
  end.

(** C2, as the code has it. In [path_utils], the folder of every kind of
    Shapes result is [results / kind / shapes / c{n}_a{a}_s{s}], and what
    the save functions write (model weights, histories, hyperparameters of
    one configuration, plots) lies inside that folder. In [evaluation.py],
    which takes no signal strength, every folder and file that the driver
    and the training loop address lies in [saved_models/], [plots/] or
    [history/] followed by [c{n}_a{a}/] (and [testing/] under [fast]), and
    no component of that folder names a signal strength. *)
Theorem shapes_artifacts_namespace (n a s : option Z) :
  (∀ kind,
     PathUtils.get_full_shapes_folder_path K n a s kind
     = Ok (PathUtils.shapes_folder K n a s kind)
     ∧ ∃ above, names (PathUtils.shapes_folder K n a s kind)
                = above ++ ["c" +:+ PyStr.fmt n +:+ "_a" +:+ PyStr.fmt a
                              +:+ "_s" +:+ PyStr.fmt s])
  ∧ (∀ sub sd model_type metric hard adversarial (w : world),
       is_ok (fst (PathUtils.save_model_shapes K n a s sub sd model_type metric hard
                     adversarial w)) = true →
       holds_under
         (fs (snd (PathUtils.save_model_shapes K n a s sub sd model_type metric hard
                     adversarial w)))
         (PathUtils.shapes_folder K n a s (SAVED_MODELS_FOLDER K)) (CTorch sd))
  ∧ (∀ b sub h oracle_only hard (w : world),
       (oracle_only = true → root (PathLib.of_str (ORACLE_FOLDER K)) = "") →
       is_ok (fst (PathUtils.save_history_shapes K n a s b sub h oracle_only hard w)) = true →
       holds_under
         (fs (snd (PathUtils.save_history_shapes K n a s b sub h oracle_only hard w)))
         (PathUtils.shapes_folder K n a s (HISTORY_FOLDER K)) (CPickle h))
  ∧ (∀ sub values model_type hard (w : world),
       is_ok (fst (PathUtils.save_hyperparameters_shapes K n a s sub values model_type
                     hard w)) = true →
       ∃ doc : hpset, doc !! model_type = Some values
         ∧ holds_under
             (fs (snd (PathUtils.save_hyperparameters_shapes K n a s sub values model_type
                         hard w)))
             (PathUtils.shapes_folder K n a s (HYPERPARAMETERS_FOLDER K)) (CYaml (Some doc)))
  ∧ (∀ b sub hard attr (w : world),
       (is_ok (fst (PathUtils.save_mpo_plot_shapes K n a s b sub hard w)) = true →
        holds_under (fs (snd (PathUtils.save_mpo_plot_shapes K n a s b sub hard w)))
          (PathUtils.shapes_folder K n a s (PLOTS_FOLDER K)) CFigure)
       ∧ (is_ok (fst (PathUtils.save_training_plot_shapes K n a s b sub hard attr w)) = true →
          holds_under (fs (snd (PathUtils.save_training_plot_shapes K n a s b sub hard attr w)))
            (PathUtils.shapes_folder K n a s (PLOTS_FOLDER K)) CFigure)
       ∧ (is_ok (fst (PathUtils.save_test_plot_shapes K n a s b hard w)) = true →
          holds_under (fs (snd (PathUtils.save_test_plot_shapes K n a s b hard w)))
            (PathUtils.shapes_folder K n a s (PLOTS_FOLDER K)) CFigure))
  ∧ (∀ dataset_dir n_classes n_attr subsets n_bootstrap fast batch_size device non_blocking
       base_seed verbose st,
       is_ok (fst (Evaluation.run_models_on_subsets_and_plot cuda_is_available C dataset_dir
                     n_classes n_attr subsets n_bootstrap fast batch_size device
                     non_blocking base_seed verbose st)) = true →
       Evaluation.extends_with
         (Evaluation.artifact_in (Evaluation.class_dir_of n_classes n_attr fast)) st
         (snd (Evaluation.run_models_on_subsets_and_plot cuda_is_available C dataset_dir
                 n_classes n_attr subsets n_bootstrap fast batch_size device
                 non_blocking base_seed verbose st)))
  ∧ (∀ n_classes n_attr fast signal_strength,
       Evaluation.class_dir_of n_classes n_attr fast
       = "c" +:+ PyStr.str n_classes +:+ "_a" +:+ PyStr.str n_attr +:+ "/"
           +:+ (if fast then "testing/" else "")
       ∧ PathUtils.shapes_name (Some n_classes) (Some n_attr) signal_strength
         ∉ PyStr.split "/" (Evaluation.class_dir_of n_classes n_attr fast)).
Proof.
  split; [|split; [|split; [|split; [|split; [|split]]]]].
  - intros kind. split; [apply PathUtilsFacts.get_full_shapes_folder_path_eq|].
    eexists. apply PathUtilsFacts.shapes_folder_names.
  - intros. revert H. from_run @PathUtilsFacts.save_model_shapes_under.
  - intros b sub h oracle_only hard w Horacle.
    from_run @PathUtilsFacts.save_history_shapes_under.
  - intros. revert H. from_run @PathUtilsFacts.save_hyperparameters_shapes_under.
  - intros b sub hard attr w. split; [|split].
    + from_run @PathUtilsFacts.save_mpo_plot_shapes_under.
    + from_run @PathUtilsFacts.save_training_plot_shapes_under.
    + from_run @PathUtilsFacts.save_test_plot_shapes_under.
  - intros dataset_dir n_classes n_attr subsets n_bootstrap fast batch_size device
      non_blocking base_seed verbose st.
    destruct (Evaluation.run_models_on_subsets_and_plot _ _ _ _ _ _ _ _ _ _ _ _ _ st)
      as [[u|e] st'] eqn:Hrun; [intros _ | discriminate].
    by eapply EvaluationFacts.run_models_on_subsets_and_plot_artifacts.
  - intros n_classes n_attr fast signal_strength. split.
    + unfold Evaluation.class_dir_of. destruct fast; cbv zeta iota beta; [|done].
      by rewrite !PyStrFacts.append_assoc.
    + apply class_dir_without_signal_strength.
Qed.

End Namespace.

(** ** The statements on the concrete configuration *)

(** C1. Model weights of ["cnn"] saved with [hard_bottleneck=True] go to the
    file without the ["_hard"] suffix, the same as with
    [hard_bottleneck=False]; [load_model_shapes] with [hard_bottleneck=True]
    keeps the suffix, looks for [cnn_sub3_loss_hard.pth] and does not find
    what was saved, while with [hard_bottleneck=False] it does. *)
Theorem load_model_shapes_keeps_hard_suffix_for_cnn :
  Example.saved_cnn
  = PathUtils.save_model_shapes Example.K (Some 10%Z) (Some 5%Z) (Some 98%Z) (Some 3%Z)
      7%nat "cnn" "loss" false false Example.empty_world
  ∧ fst Example.saved_cnn = Ok tt
  ∧ fst (PathUtils.load_model_shapes Example.K (Some 10%Z) (Some 5%Z) (Some 98%Z) (Some 3%Z)
           "cnn" "loss" false false (snd Example.saved_cnn)) = Ok 7%nat
  ∧ fst (PathUtils.load_model_shapes Example.K (Some 10%Z) (Some 5%Z) (Some 98%Z) (Some 3%Z)
           "cnn" "loss" true false (snd Example.saved_cnn))
    = Raise (FileNotFoundError
               "results/saved_models/shapes/c10_a5_s98/cnn_sub3_loss_hard.pth").
Proof. repeat split; vm_compute; reflexivity. Qed.

(** C2 as stated fails: in the run of the driver for 10 classes and 5
    attributes, the folder made for the checkpoints of subset 3 is
    [saved_models/c10_a5/sub3/], and none of its components is
    [c10_a5_s{s}], whatever the signal strength [s]. *)
Lemma driver_folder_lacks_signal_strength :
  ¬ (∀ path, EvMakedirs path ∈ Evaluation.trace (snd Example.run) →
       ∃ s, PathUtils.shapes_name (Some 10%Z) (Some 5%Z) s ∈ PyStr.split "/" path).
Proof.
  intros Hall. destruct (Hall "saved_models/c10_a5/sub3/") as [s Hs].
  { apply list_elem_of_In. vm_compute. tauto. }
  assert (Hsplit : PyStr.split "/" "saved_models/c10_a5/sub3/"
                   = ["saved_models"; "c10_a5"; "sub3"; ""]) by reflexivity.
  assert (Hname : PathUtils.shapes_name (Some 10%Z) (Some 5%Z) s
                  = "c10_a5_s" +:+ PyStr.fmt s) by reflexivity.
  rewrite Hsplit, Hname in Hs. apply list_elem_of_In in Hs.
  cbv [In String.append] in Hs.
  repeat destruct Hs as [Hs | Hs]; try discriminate Hs. exact Hs.
Qed.

(** Nothing is a regular file in the empty world. *)
Lemma creatable_empty (p : Path) : creatable (fs Example.empty_world) p.
Proof. intros k c. simpl. rewrite lookup_empty. discriminate. Qed.

(** C7 on [sub/evil.pkl] and on [evil.pkl], in the folder [results/plots]
    of the empty world. *)
Lemma make_file_path_validates_witness :
  (∃ message,
     PathUtils.make_file_path (AStr "results/plots") (AStr "sub/evil.pkl") true
       Example.empty_world
     = (Raise (ValueError message), Example.empty_world))
  ∧ (∃ w',
       PathUtils.make_file_path (AStr "results/plots") (AStr "evil.pkl") true
         Example.empty_world
       = (Ok (MkPath "" ["results"; "plots"; "evil.pkl"]), w')
       ∧ isdir (fs w') (MkPath "" ["results"; "plots"]) = true).
Proof.
  split.
  - destruct (PathUtilsFacts.make_file_path_validates
                (AStr "results/plots") (AStr "sub/evil.pkl") true Example.empty_world)
      as [Hraise _].
    exact (Hraise eq_refl).
  - destruct (PathUtilsFacts.make_file_path_validates
                (AStr "results/plots") (AStr "evil.pkl") true Example.empty_world)
      as [_ Hjoin].
    destruct (Hjoin (MkPath "" ["results"; "plots"]) (MkPath "" ["evil.pkl"])
                eq_refl eq_refl eq_refl (λ _, creatable_empty _))
      as (w' & Hrun & Hdir & _ & _ & Hname).
    exists w'. split; [|exact (Hdir eq_refl)].
    rewrite Hrun. by rewrite (Hname "evil.pkl" eq_refl eq_refl).
Defined.

(** C4 in a world with the soft file only, and in a world with the default
    file only. *)
Lemma load_hyperparameters_shapes_fallback_witness :
  (∃ message,
     PathUtils.load_hyperparameters_shapes Example.K (Some 10%Z) (Some 5%Z) (Some 98%Z)
       (Some 3%Z) true false false false Example.soft_only_world
     = (Ok (Some (PathUtils.set_hard Example.soft_set)),
        MkWorld (fs Example.soft_only_world) [message]))
  ∧ (∃ message,
       PathUtils.load_hyperparameters_shapes Example.K (Some 10%Z) (Some 5%Z) (Some 98%Z)
         (Some 3%Z) true false false false Example.default_only_world
       = (Ok (Some Example.default_hard_set),
          MkWorld (fs Example.default_only_world) [message])).
Proof.
  split.
  - destruct (PathUtilsFacts.load_hyperparameters_shapes_fallback Example.K 10 5 3
                (Some 98%Z) false Example.soft_only_world) as [Hsoft _];
      [vm_compute; reflexivity|].
    destruct (Hsoft Example.soft_set) as (message & Hrun & _); [vm_compute; reflexivity|].
    exists message. exact Hrun.
  - destruct (PathUtilsFacts.load_hyperparameters_shapes_fallback Example.K 10 5 3
                (Some 98%Z) false Example.default_only_world) as [_ Hdefault];
      [vm_compute; reflexivity|].
    destruct (Hdefault (Some Example.default_hard_set)) as (message & Hrun);
      [vm_compute; reflexivity | vm_compute; reflexivity | vm_compute; reflexivity|].
    exists message. exact Hrun.
Defined.

(** C5 for the models ["cnn"] and ["cbm"], starting from the empty world. *)
Lemma save_twice_then_load_witness :
  ∃ w1 w2 (loaded : hpset),
    PathUtils.save_hyperparameters_shapes Example.K (Some 10%Z) (Some 5%Z) (Some 98%Z)
      (Some 3%Z) Example.cnn_values "cnn" false Example.empty_world = (Ok tt, w1)
    ∧ PathUtils.save_hyperparameters_shapes Example.K (Some 10%Z) (Some 5%Z) (Some 98%Z)
        (Some 3%Z) Example.cbm_values "cbm" false w1 = (Ok tt, w2)
    ∧ PathUtils.load_hyperparameters_shapes Example.K (Some 10%Z) (Some 5%Z) (Some 98%Z)
        (Some 3%Z) false false false false w2 = (Ok (Some loaded), w2)
    ∧ loaded !! "cnn" = Some Example.cnn_values
    ∧ loaded !! "cbm" = Some Example.cbm_values.
Proof.
  destruct (PathUtilsFacts.save_twice_then_load Example.K 10 5 3 (Some 98%Z) false false
              "cnn" "cbm" Example.cnn_values Example.cbm_values Example.empty_world)
    as (w1 & w2 & loaded & H1 & H2 & H3 & Ha & Hb & _).
  - vm_compute. apply list_elem_of_In. simpl. tauto.
  - vm_compute. apply list_elem_of_In. simpl. tauto.
  - discriminate.
  - left. split; [reflexivity | apply creatable_empty].
  - exists w1, w2, loaded. repeat split; assumption.
Defined.

(** C2, as the code has it, for 10 classes, 5 attributes and signal strength
    98, on the empty world and on the run of the driver. *)
Lemma shapes_artifacts_namespace_witness :
  holds_under (fs (snd Example.saved_cnn))
    (MkPath "" ["results"; "saved_models"; "shapes"; "c10_a5_s98"]) (CTorch 7%nat)
  ∧ holds_under
      (fs (snd (PathUtils.save_history_shapes Example.K (Some 10%Z) (Some 5%Z) (Some 98%Z)
                  (Some 2%Z) (Some 3%Z) 4%nat true false Example.empty_world)))
      (MkPath "" ["results"; "history"; "shapes"; "c10_a5_s98"]) (CPickle 4%nat)
  ∧ (∃ doc : hpset, doc !! "cnn" = Some Example.cnn_values
       ∧ holds_under
           (fs (snd (PathUtils.save_hyperparameters_shapes Example.K (Some 10%Z) (Some 5%Z)
                       (Some 98%Z) (Some 3%Z) Example.cnn_values "cnn" false
                       Example.empty_world)))
           (MkPath "" ["results"; "hyperparameters"; "shapes"; "c10_a5_s98"])
           (CYaml (Some doc)))
  ∧ holds_under
      (fs (snd (PathUtils.save_mpo_plot_shapes Example.K (Some 10%Z) (Some 5%Z) (Some 98%Z)
                  (Some 2%Z) (Some 3%Z) false Example.empty_world)))
      (MkPath "" ["results"; "plots"; "shapes"; "c10_a5_s98"]) CFigure
  ∧ holds_under
      (fs (snd (PathUtils.save_training_plot_shapes Example.K (Some 10%Z) (Some 5%Z)
                  (Some 98%Z) (Some 2%Z) (Some 3%Z) false true Example.empty_world)))
      (MkPath "" ["results"; "plots"; "shapes"; "c10_a5_s98"]) CFigure
  ∧ holds_under
      (fs (snd (PathUtils.save_test_plot_shapes Example.K (Some 10%Z) (Some 5%Z) (Some 98%Z)
                  (Some 2%Z) true Example.empty_world)))
      (MkPath "" ["results"; "plots"; "shapes"; "c10_a5_s98"]) CFigure
  ∧ Evaluation.extends_with (Evaluation.artifact_in "c10_a5/") Example.start
      (snd Example.run).
Proof.
  destruct (shapes_artifacts_namespace (state_dict := nat) (history := nat)
              Example.K false Example.collaborators (Some 10%Z) (Some 5%Z) (Some 98%Z))
    as (_ & Hmodel & Hhistory & Hhp & Hplots & Hdriver & _).
  destruct (Hplots (Some 2%Z) (Some 3%Z) false true Example.empty_world)
    as (Hmpo & Htraining & _).
  destruct (Hplots (Some 2%Z) (Some 3%Z) true true Example.empty_world)
    as (_ & _ & Htest).
  split; [|split; [|split; [|split; [|split; [|split]]]]].
  - apply (Hmodel (Some 3%Z) 7%nat "cnn" "loss" true false Example.empty_world).
    vm_compute; reflexivity.
  - apply (Hhistory (Some 2%Z) (Some 3%Z) 4%nat true false Example.empty_world);
      [intros _ | ]; vm_compute; reflexivity.
  - apply (Hhp (Some 3%Z) Example.cnn_values "cnn" false Example.empty_world).
    vm_compute; reflexivity.
  - apply Hmpo. vm_compute; reflexivity.
  - apply Htraining. vm_compute; reflexivity.
  - apply Htest. vm_compute; reflexivity.
  - apply (Hdriver "data/shapes/" 10%Z 5%Z [3%Z; 7%Z] 2%Z false 16%Z None false 57%Z 1%Z
             Example.start).
    vm_compute; reflexivity.
Defined.




(** C10 on a model with three correct predictions out of four. *)
Lemma evaluate_on_test_set_percentage_witness :
  ∃ accuracy,
    Evaluation.evaluate_on_test_set false Example.cnn Example.test_loader None false
    = Ok accuracy
    ∧ accuracy = (inject_Z (100 * 3) / inject_Z 4)%Q
    ∧ (0 <= accuracy)%Q ∧ (accuracy <= 100)%Q.
Proof.
  destruct (EvaluationFacts.evaluate_on_test_set_percentage false Example.cnn
              Example.test_loader None false)
    as (accuracy & Hrun & Hvalue & Hlow & Hhigh).
  - vm_compute; reflexivity.
  - vm_compute; reflexivity.
  - discriminate.
  - exists accuracy. split; [exact Hrun|]. split; [exact Hvalue|]. split; assumption.
Defined.

(** C8 on the integers, for two runs that fit and for two that do not. *)
Lemma add_histories_sum_law_witness :
  (∃ r, Utils.accumulate_twice Z.add Example.first_run Example.second_run 2 = Ok r
     ∧ ∃ hr, r !! 0%nat = Some hr ∧ hr !! "test_accuracy" = Some [125%Z])
  ∧ (∃ e, Utils.accumulate_twice Z.add Example.first_run Example.short_run 2 = Raise e).
Proof.
  split.
  - destruct (UtilsFacts.add_histories_sum_law Z.add Example.first_run Example.second_run 2)
      as (_ & Hsum & _).
    destruct Hsum as (r & Hrun & _ & Hkeys).
    { repeat constructor. intros key xs ys Ha Hb.
      apply lookup_singleton_Some in Ha as [_ <-].
      apply lookup_singleton_Some in Hb as [_ <-]. reflexivity. }
    exists r. split; [exact Hrun|].
    apply (Hkeys 0%nat {[ "test_accuracy" := [75%Z] ]} {[ "test_accuracy" := [50%Z] ]}
             "test_accuracy" [75%Z] [50%Z]); reflexivity.
  - destruct (UtilsFacts.add_histories_sum_law Z.add Example.first_run Example.short_run 2)
      as (_ & _ & Hraise & _).
    apply (Hraise 0%nat {[ "test_accuracy" := [75%Z] ]} {[ "test_accuracy" := [] ]}
             "test_accuracy" [75%Z] []); try reflexivity.
    discriminate.
Defined.

(** * Further properties of [path_utils] *)

Module PathUtilsMore.
Import PyStrFacts PathUtilsFacts.
Section Shapes.

Context {state_dict history : Type}.
Variable K : constants.
Local Abbreviation world := (world state_dict history).
Local Abbreviation node := (node state_dict history).
Local Abbreviation content := (content state_dict history).

(** A file of a folder is not one of the directories on the way to it. *)
Lemma file_not_on_the_way F name k :
  F </> MkPath "" [name] ≠ MkPath (root F) (take k (names F)).
Proof.
  rewrite div_name. intros [= E].
  apply (f_equal length) in E. rewrite length_app, length_take in E. simpl in E. lia.
Qed.

Lemma file_names F name : names (F </> MkPath "" [name]) ≠ [].
Proof. simpl. by destruct (names F). Qed.

Lemma path_exists_false_iff (f : gmap Path node) p :
  names p ≠ [] → f !! p = None → path_exists f p = false.
Proof.
  intros Hn Hp. unfold path_exists. destruct (names p); [done|].
  apply bool_decide_eq_false. rewrite Hp. by intros [? ?].
Qed.

(** Writing [c] under a bare name in a folder that can be made. *)
Lemma write_in_folder_run F name (c : content) (w : world) :
  PathLib.bare name = true →
  creatable (fs w) F →
  fs w !! (F </> MkPath "" [name]) ≠ Some Dir →
  ∃ f',
    bind (PathUtils.make_file_path (APath F) (APath (PathLib.of_str name)) true)
         (λ file_path, write_file file_path c) w
    = (Ok tt, MkWorld (<[F </> MkPath "" [name] := File c]> f') (warned w))
    ∧ isdir f' F = true
    ∧ (∀ q, (∀ k, q ≠ MkPath (root F) (take k (names F))) → f' !! q = fs w !! q)
    ∧ (∀ q x, fs w !! q = Some x → f' !! q = Some x).
Proof.
  intros Hb Hfree Hnodir.
  destruct (make_file_path_create (APath F) (APath (PathLib.of_str name)) F
              (PathLib.of_str name) w (check_bare_path name Hb) eq_refl eq_refl Hfree)
    as (f' & Hrun & Hdir & Hsame & Hkeep).
  exists f'. split; [|done].
  rewrite (bind_ok _ _ _ _ _ Hrun), (of_str_bare name Hb).
  rewrite write_file_ok; [done | apply file_names | |].
  - rewrite parent_div_name, path_eta. exact Hdir.
  - simpl. rewrite Hsame; [done|]. intros k. apply file_not_on_the_way.
Qed.

(** Reading what a bare name of a folder holds. *)
Lemma read_in_folder_run F name (c : content) (w : world) :
  PathLib.bare name = true →
  fs w !! (F </> MkPath "" [name]) = Some (File c) →
  bind (PathUtils.make_file_path (APath F) (APath (PathLib.of_str name)) false) read_file w
  = (Ok c, w).
Proof.
  intros Hb Hc. rewrite (bind_ok _ _ _ _ _ (resolve_in_folder F name w Hb)).
  apply read_file_ok; [apply file_names | exact Hc].
Qed.

Lemma read_in_folder_missing F name (w : world) :
  PathLib.bare name = true →
  fs w !! (F </> MkPath "" [name]) = None →
  bind (PathUtils.make_file_path (APath F) (APath (PathLib.of_str name)) false)
       (read_file (state_dict := state_dict) (history := history)) w
  = (Raise (FileNotFoundError (PathLib.as_posix (F </> MkPath "" [name]))), w).
Proof.
  intros Hb Hc. rewrite (bind_ok _ _ _ _ _ (resolve_in_folder F name w Hb)).
  apply read_file_missing; [apply file_names | exact Hc].
Qed.

Lemma history_name_bare sub b hard :
  PathLib.bare ("histories_sub" +:+ PyStr.fmt sub +:+ "_b" +:+ PyStr.fmt b
                  +:+ PathUtils.hard_suffix hard +:+ ".pkl") = true.
Proof.
  unfold PathLib.bare, PathUtils.hard_suffix.
  rewrite ?contains_app, ?slash_fmt, ?backslash_fmt. by destruct hard.
Qed.

(** X1. A history saved by [save_history_shapes] is what
    [load_history_shapes] returns for the same arguments, unless both
    [oracle_only] and [hard_bottleneck] are set: under [oracle_only] the
    load drops the hardness while the save keeps it. *)
Theorem save_then_load_history_shapes n a s b sub h oracle_only hard (w : world) :
  oracle_only && hard = false →
  creatable (fs w)
    (if oracle_only
     then PathUtils.shapes_folder K n a s (HISTORY_FOLDER K)
            </> PathLib.of_str (ORACLE_FOLDER K)
     else PathUtils.shapes_folder K n a s (HISTORY_FOLDER K)) →
  fs w !! ((if oracle_only
            then PathUtils.shapes_folder K n a s (HISTORY_FOLDER K)
                   </> PathLib.of_str (ORACLE_FOLDER K)
            else PathUtils.shapes_folder K n a s (HISTORY_FOLDER K))
           </> MkPath "" ["histories_sub" +:+ PyStr.fmt sub +:+ "_b" +:+ PyStr.fmt b
                            +:+ PathUtils.hard_suffix hard +:+ ".pkl"]) ≠ Some Dir →
  ∃ w1,
    PathUtils.save_history_shapes K n a s b sub h oracle_only hard w = (Ok tt, w1)
    ∧ PathUtils.load_history_shapes K n a s b sub hard oracle_only w1 = (Ok h, w1)
    ∧ warned w1 = warned w.
Proof.
  intros Hflags Hfree Hnodir.
  unfold PathUtils.save_history_shapes, PathUtils.load_history_shapes.
  rewrite get_full_shapes_folder_path_eq, bind_lift_ok.
  destruct (write_in_folder_run _ _ (CPickle h) w (history_name_bare sub b hard) Hfree Hnodir)
    as (f' & Hrun & _).
  eexists. split; [exact Hrun|]. split; [|done].
  rewrite bind_lift_ok.
  assert ((if oracle_only then false else hard) = hard) as ->.
  { destruct oracle_only, hard; done. }
  rewrite (bind_ok _ _ _ _ _ (resolve_in_folder _ _ _ (history_name_bare sub b hard))).
  unfold pickle_load. erewrite bind_ok; cycle 1.
  { apply read_file_ok; [apply file_names|]. simpl fs. apply lookup_insert_eq. }
  reflexivity.
Qed.

Lemma bare_of_underscore name :
  PathUtils.has_separator (AStr name) = false →
  PyStr.contains "_" name = true →
  PathLib.bare name = true.
Proof.
  unfold PathUtils.has_separator, pathlike_str, PathLib.bare.
  intros [Hs Hb]%orb_false_iff Hu. rewrite Hs, Hb. simpl.
  destruct name as [|c [|c' name]]; [discriminate Hu | |].
  - simpl in Hu. destruct (Ascii.eqb_spec c "_"); [subst c; reflexivity | discriminate Hu].
  - cbn [String.eqb]. by destruct (Ascii.eqb c ".").
Qed.

Lemma model_name_bare model_type sub metric hard adversarial :
  PathUtils.has_separator (AStr (model_type +:+ metric)) = false →
  PathLib.bare (model_type +:+ "_sub" +:+ PyStr.fmt sub +:+ "_" +:+ metric
                  +:+ PathUtils.hard_suffix hard
                  +:+ PathUtils.adversarial_suffix adversarial +:+ ".pth") = true.
Proof.
  unfold PathUtils.has_separator, pathlike_str. rewrite !contains_app.
  intros [[H1 H2]%orb_false_iff [H3 H4]%orb_false_iff]%orb_false_iff.
  apply bare_of_underscore.
  - unfold PathUtils.has_separator, pathlike_str.
    rewrite !contains_app, H1, H2, H3, H4, slash_fmt, backslash_fmt.
    by destruct hard, adversarial.
  - rewrite !contains_app.
    replace (PyStr.contains "_" "_sub") with true by reflexivity.
    apply orb_true_r.
Qed.

(** X2. Model weights saved by [save_model_shapes] are what
    [load_model_shapes] returns for the same arguments, for a registered
    model type that is not ["cnn"] or without [hard_bottleneck]; model type
    and metric must be free of separators. *)
Theorem save_then_load_model_shapes n a s sub sd model_type metric hard adversarial
    (w : world) :
  PyStr.lower (PyStr.strip_ws model_type) ∈ MODEL_STRINGS_ALL_SHAPES K →
  PathUtils.has_separator (AStr (PyStr.lower (PyStr.strip_ws model_type) +:+ metric)) = false →
  PyStr.lower (PyStr.strip_ws model_type) ≠ "cnn" ∨ hard = false →
  creatable (fs w) (PathUtils.shapes_folder K n a s (SAVED_MODELS_FOLDER K)) →
  fs w !! (PathUtils.shapes_folder K n a s (SAVED_MODELS_FOLDER K)
           </> MkPath "" [PyStr.lower (PyStr.strip_ws model_type) +:+ "_sub"
                            +:+ PyStr.fmt sub +:+ "_" +:+ metric
                            +:+ PathUtils.hard_suffix hard
                            +:+ PathUtils.adversarial_suffix adversarial +:+ ".pth"])
    ≠ Some Dir →
  ∃ w1,
    PathUtils.save_model_shapes K n a s sub sd model_type metric hard adversarial w
      = (Ok tt, w1)
    ∧ PathUtils.load_model_shapes K n a s sub model_type metric hard adversarial w1
      = (Ok sd, w1)
    ∧ warned w1 = warned w.
Proof.
  intros Hin Hsep Hflags Hfree Hnodir.
  pose proof (model_name_bare _ sub metric hard adversarial Hsep) as Hbare.
  unfold PathUtils.save_model_shapes, PathUtils.load_model_shapes.
  rewrite (check_model_type_ok K _ Hin), bind_lift_ok.
  rewrite get_full_shapes_folder_path_eq, bind_lift_ok.
  assert ((if String.eqb (PyStr.lower (PyStr.strip_ws model_type)) "cnn" || negb hard
           then "" else "_hard") = PathUtils.hard_suffix hard) as ->.
  { unfold PathUtils.hard_suffix. destruct Hflags as [Hne | ->]; [|by rewrite orb_true_r].
    destruct (String.eqb_spec (PyStr.lower (PyStr.strip_ws model_type)) "cnn"); done. }
  destruct (write_in_folder_run _ _ (CTorch sd) w Hbare Hfree Hnodir) as (f' & Hrun & _).
  eexists. split; [exact Hrun|]. split; [|done].
  rewrite bind_lift_ok, bind_lift_ok.
  rewrite (bind_ok _ _ _ _ _ (resolve_in_folder _ _ _ Hbare)).
  unfold torch_load. erewrite bind_ok; cycle 1.
  { apply read_file_ok; [apply file_names|]. simpl fs. apply lookup_insert_eq. }
  reflexivity.
Qed.

Lemma check_model_type_unknown model_type :
  model_type ∉ MODEL_STRINGS_ALL_SHAPES K →
  ∃ message, PathUtils.check_model_type K model_type = Raise (ValueError message).
Proof.
  intros H. unfold PathUtils.check_model_type, PyStr.mem.
  rewrite bool_decide_eq_false_2 by done. simpl. eauto.
Qed.

(** X3. A model type that is not registered makes [save_model_shapes],
    [load_model_shapes] and [save_hyperparameters_shapes] raise [ValueError]
    before anything is read, written or created. The first two compare the
    model type stripped of whitespace and in lower case (stated for a model
    type of ASCII characters, on which [strip()] and [lower()] are
    [strip_ws] and [lower]), the third compares it as given. *)
Theorem unregistered_model_type_is_rejected n a s sub sd values model_type metric hard
    adversarial (w : world) :
  (PyStr.is_ascii model_type = true →
   PyStr.lower (PyStr.strip_ws model_type) ∉ MODEL_STRINGS_ALL_SHAPES K →
     (∃ message,
        PathUtils.save_model_shapes K n a s sub sd model_type metric hard adversarial w
        = (Raise (ValueError message), w))
     ∧ (∃ message,
          PathUtils.load_model_shapes K n a s sub model_type metric hard adversarial w
          = (Raise (ValueError message), w)))
  ∧ (model_type ∉ MODEL_STRINGS_ALL_SHAPES K →
       ∃ message,
         PathUtils.save_hyperparameters_shapes K n a s sub values model_type hard w
         = (Raise (ValueError message), w)).
Proof.
  split.
  - intros _ [message Hm]%check_model_type_unknown. split; exists message.
    + unfold PathUtils.save_model_shapes. by rewrite Hm.
    + unfold PathUtils.load_model_shapes. by rewrite Hm.
  - intros [message Hm]%check_model_type_unknown. exists message.
    unfold PathUtils.save_hyperparameters_shapes. by rewrite Hm.
Qed.

(** X4. Without [fast] and [default], [load_hyperparameters_shapes] raises
    [ValueError] as soon as one of [n_classes], [n_attr], [n_subset] is
    [None]: nothing is read and no warning is given. *)
Theorem load_hyperparameters_shapes_needs_configuration n a s sub hard oracle (w : world) :
  n = None ∨ a = None ∨ sub = None →
  ∃ message,
    PathUtils.load_hyperparameters_shapes K n a s sub hard false false oracle w
    = (Raise (ValueError message), w).
Proof.
  intros Hnone. unfold PathUtils.load_hyperparameters_shapes. cbn [negb andb].
  assert (bool_decide (n = None) || bool_decide (a = None) || bool_decide (sub = None)
          = true) as ->.
  { destruct Hnone as [-> | [-> | ->]]; rewrite ?bool_decide_eq_true_2 by done;
      by rewrite ?orb_true_r. }
  eauto.
Qed.

(** Resolving a file given by a bare string. *)
Lemma resolve_str_in_folder F name (w : world) :
  PathLib.bare name = true →
  PathUtils.make_file_path (APath F) (AStr name) false w = (Ok (F </> MkPath "" [name]), w).
Proof.
  intros Hb. pose proof (bare_inv _ Hb) as (Hs & Hbs & _ & _).
  rewrite (make_file_path_join (APath F) (AStr name) F (PathLib.of_str name));
    [by rewrite (of_str_bare name Hb) | | done | done].
  unfold PathUtils._check_just_file, pathlike_str. by rewrite Hs, Hbs.
Qed.

Lemma yaml_load_missing p (w : world) :
  names p ≠ [] → fs w !! p = None →
  yaml_load (state_dict := state_dict) (history := history) p w
  = (Raise (FileNotFoundError (PathLib.as_posix p)), w).
Proof.
  intros Hn Hc. unfold yaml_load.
  by rewrite (bind_raise _ _ _ _ _ (read_file_missing p w Hn Hc)).
Qed.

(** The steps of [load_hyperparameters_shapes] up to the test of the exact
    file, for a given configuration. *)
Local Ltac load_steps w :=
  unfold PathUtils.load_hyperparameters_shapes; cbn [negb andb orb];
  rewrite ?bool_decide_eq_false_2 by done; cbn [negb andb orb];
  rewrite get_full_shapes_folder_path_eq, bind_lift_ok;
  rewrite (bind_ok _ _ w _ w (resolve_in_folder _ _ w (hp_name_bare _ _)));
  rewrite (bind_ok _ _ w _ w (exists_eq _ w)).

(** X5. With [fast] set, [load_hyperparameters_shapes] reads the fast file
    of the given hardness and nothing else: the classes, attributes, signal
    strength and subset (which may all be [None]) and [default] play no
    part, no warning is given, and a missing fast file is a
    [FileNotFoundError]. *)
Theorem load_hyperparameters_shapes_fast n a s sub (hard default oracle : bool)
    (w : world) :
  PathLib.bare (if hard then FAST_HYPERPARAMETERS_FILENAME_SHAPES_HARD K
                else FAST_HYPERPARAMETERS_FILENAME_SHAPES K) = true →
  (∀ doc,
     fs w !! (PathLib.of_str (RESULTS_FOLDER K) </> PathLib.of_str (HYPERPARAMETERS_FOLDER K)
              </> PathLib.of_str (SHAPES_FOLDER K)
              </> MkPath "" [if hard then FAST_HYPERPARAMETERS_FILENAME_SHAPES_HARD K
                             else FAST_HYPERPARAMETERS_FILENAME_SHAPES K])
       = Some (File (CYaml doc)) →
     PathUtils.load_hyperparameters_shapes K n a s sub hard true default oracle w
     = (Ok doc, w))
  ∧ (fs w !! (PathLib.of_str (RESULTS_FOLDER K) </> PathLib.of_str (HYPERPARAMETERS_FOLDER K)
              </> PathLib.of_str (SHAPES_FOLDER K)
              </> MkPath "" [if hard then FAST_HYPERPARAMETERS_FILENAME_SHAPES_HARD K
                             else FAST_HYPERPARAMETERS_FILENAME_SHAPES K])
       = None →
     ∃ place,
       PathUtils.load_hyperparameters_shapes K n a s sub hard true default oracle w
       = (Raise (FileNotFoundError place), w)).
Proof.
  intros Hbare.
  assert (Hhead : PathUtils.load_hyperparameters_shapes K n a s sub hard true default oracle w
    = yaml_load
        (PathLib.of_str (RESULTS_FOLDER K) </> PathLib.of_str (HYPERPARAMETERS_FOLDER K)
           </> PathLib.of_str (SHAPES_FOLDER K)
           </> MkPath "" [if hard then FAST_HYPERPARAMETERS_FILENAME_SHAPES_HARD K
                          else FAST_HYPERPARAMETERS_FILENAME_SHAPES K]) w).
  { unfold PathUtils.load_hyperparameters_shapes.
    rewrite andb_false_r. cbn [andb].
    by rewrite (bind_ok _ _ w _ w (resolve_str_in_folder _ _ w Hbare)). }
  rewrite Hhead. split.
  - intros doc Hdoc. apply yaml_load_ok; [apply file_names | exact Hdoc].
  - intros Hnone. eexists. apply yaml_load_missing; [apply file_names | exact Hnone].
Qed.

(** X6. With [default] set (and [fast] unset), [load_hyperparameters_shapes]
    returns the set of the global default file of the given hardness, even
    when the file of the configuration exists and even when classes,
    attributes or subset are [None]; no warning is given. *)
Theorem load_hyperparameters_shapes_default n a s sub (hard oracle : bool) doc
    (w : world) :
  PathLib.bare (if hard then DEFAULT_HYPERPARAMETERS_FILENAME_SHAPES_HARD K
                else DEFAULT_HYPERPARAMETERS_FILENAME_SHAPES K) = true →
  fs w !! PathUtils.default_hp_file K hard = Some (File (CYaml doc)) →
  PathUtils.load_hyperparameters_shapes K n a s sub hard false true oracle w = (Ok doc, w).
Proof.
  intros Hbare Hdoc. unfold PathUtils.load_hyperparameters_shapes. cbn [negb andb orb].
  rewrite get_full_shapes_folder_path_eq, bind_lift_ok.
  rewrite (bind_ok _ _ w _ w (resolve_in_folder _ _ w (hp_name_bare _ _))).
  rewrite (bind_ok _ _ w _ w (exists_eq _ w)). cbn [negb andb].
  rewrite (bind_ok _ _ w _ w (resolve_str_in_folder _ _ w Hbare)).
  unfold PathUtils.default_hp_file in Hdoc. rewrite (of_str_bare _ Hbare) in Hdoc.
  apply yaml_load_ok; [apply file_names | exact Hdoc].
Qed.

(** X7. When the file of the configuration is missing, the soft file is
    missing too or is not tried (soft bottleneck), and the global default
    file is missing as well, [load_hyperparameters_shapes] warns once and
    then raises [FileNotFoundError] for the default file. *)
Theorem load_hyperparameters_shapes_all_missing (n a sub : Z) s (hard oracle : bool)
    (w : world) :
  PathLib.bare (if hard then DEFAULT_HYPERPARAMETERS_FILENAME_SHAPES_HARD K
                else DEFAULT_HYPERPARAMETERS_FILENAME_SHAPES K) = true →
  path_exists (fs w) (PathUtils.hp_file K (Some n) (Some a) s (Some sub) hard) = false →
  (hard = true →
   path_exists (fs w) (PathUtils.hp_file K (Some n) (Some a) s (Some sub) false) = false) →
  fs w !! PathUtils.default_hp_file K hard = None →
  ∃ message,
    PathUtils.load_hyperparameters_shapes K (Some n) (Some a) s (Some sub) hard false false
      oracle w
    = (Raise (FileNotFoundError (PathLib.as_posix (PathUtils.default_hp_file K hard))),
       MkWorld (fs w) (warned w ++ [message])).
Proof.
  intros Hbare Hexact Hsoft Hdefault.
  assert (Hend : ∀ v : world, fs v = fs w →
    bind (PathUtils.make_file_path
            (APath (PathLib.of_str (RESULTS_FOLDER K)
                    </> PathLib.of_str (HYPERPARAMETERS_FOLDER K)
                    </> PathLib.of_str (SHAPES_FOLDER K)))
            (AStr (if hard then DEFAULT_HYPERPARAMETERS_FILENAME_SHAPES_HARD K
                   else DEFAULT_HYPERPARAMETERS_FILENAME_SHAPES K)) false)
         yaml_load v
    = (Raise (FileNotFoundError (PathLib.as_posix (PathUtils.default_hp_file K hard))), v)).
  { intros v Hv. rewrite (bind_ok _ _ v _ v (resolve_str_in_folder _ _ v Hbare)).
    unfold PathUtils.default_hp_file in *. rewrite (of_str_bare _ Hbare) in *.
    apply yaml_load_missing; [apply file_names | by rewrite Hv]. }
  unfold PathUtils.hp_file in Hexact, Hsoft.
  destruct hard; eexists; load_steps w; rewrite Hexact; cbn [negb andb].
  - rewrite (bind_ok _ _ w _ w (resolve_in_folder _ _ w (hp_name_bare (Some sub) false))).
    rewrite (bind_ok _ _ w _ w (exists_eq _ w)).
    rewrite (Hsoft eq_refl). rewrite bind_warn. by apply Hend.
  - rewrite bind_warn. by apply Hend.
Qed.

(** X8. Saving the values of a model a second time replaces them: after
    saving [x] and then [y] for the same model and configuration, the file
    holds what it held before with the model mapped to [y], which is what a
    load returns. *)
Theorem save_again_overwrites (n a sub : Z) s (hard oracle : bool) model_type
    (x y : gmap string hpval) (w : world) :
  model_type ∈ MODEL_STRINGS_ALL_SHAPES K →
  PathUtils.hp_store_ready K (fs w) (Some n) (Some a) s (Some sub) hard →
  ∃ w1 w2,
    PathUtils.save_hyperparameters_shapes K (Some n) (Some a) s (Some sub) x model_type hard w
      = (Ok tt, w1)
    ∧ PathUtils.save_hyperparameters_shapes K (Some n) (Some a) s (Some sub) y model_type
        hard w1 = (Ok tt, w2)
    ∧ PathUtils.load_hyperparameters_shapes K (Some n) (Some a) s (Some sub)
        hard false false oracle w2
      = (Ok (Some (<[model_type := y]>
                     (PathUtils.stored_set (fs w)
                        (PathUtils.hp_file K (Some n) (Some a) s (Some sub) hard)))), w2).
Proof.
  intros Hin Hready.
  destruct (save_hyperparameters_shapes_run K _ _ _ _ _ model_type x w Hin Hready)
    as (f1 & Hsave1 & Hfile1 & Hdir1).
  assert (Hready1 : PathUtils.hp_store_ready K (fs (MkWorld f1 (warned w)))
                      (Some n) (Some a) s (Some sub) hard).
  { right. eexists. split; [exact Hfile1 | exact Hdir1]. }
  destruct (save_hyperparameters_shapes_run K _ _ _ _ _ model_type y _ Hin Hready1)
    as (f2 & Hsave2 & Hfile2 & Hdir2).
  simpl in Hsave2, Hfile2.
  unfold PathUtils.stored_set in Hfile2 at 1. rewrite Hfile1 in Hfile2.
  rewrite insert_insert_eq in Hfile2.
  eexists _, _. split; [exact Hsave1|]. split; [exact Hsave2|].
  by apply load_hyperparameters_shapes_exact.
Qed.

(** A save changes the file of its configuration and the directories on
    the way to it, nothing else. *)
Lemma save_hyperparameters_shapes_frame n a s sub hard model_type values (w : world) :
  model_type ∈ MODEL_STRINGS_ALL_SHAPES K →
  PathUtils.hp_store_ready K (fs w) n a s sub hard →
  ∃ f1,
    PathUtils.save_hyperparameters_shapes K n a s sub values model_type hard w
    = (Ok tt, MkWorld f1 (warned w))
    ∧ f1 !! PathUtils.hp_file K n a s sub hard
      = Some (File (CYaml (Some (<[model_type := values]>
                                   (PathUtils.stored_set (fs w)
                                      (PathUtils.hp_file K n a s sub hard))))))
    ∧ (∀ q, q ≠ PathUtils.hp_file K n a s sub hard →
            (∀ k, q ≠ MkPath (root (PathUtils.shapes_folder K n a s (HYPERPARAMETERS_FOLDER K)))
                         (take k (names (PathUtils.shapes_folder K n a s
                                           (HYPERPARAMETERS_FOLDER K))))) →
            f1 !! q = fs w !! q).
Proof.
  intros Hin Hready.
  unfold PathUtils.save_hyperparameters_shapes.
  rewrite (check_model_type_ok K _ Hin), bind_lift_ok.
  rewrite get_full_shapes_folder_path_eq, bind_lift_ok.
  rewrite (bind_ok _ _ w _ w (resolve_in_folder _ _ w (hp_name_bare sub hard))).
  fold (PathUtils.hp_file K n a s sub hard).
  rewrite (bind_ok _ _ w _ w (exists_eq _ w)).
  pose proof (hp_file_names K n a s sub hard) as Hnames.
  unfold PathUtils.hp_store_ready in Hready. cbv zeta in Hready.
  set (file := PathUtils.hp_file K n a s sub hard) in *.
  set (folder := PathUtils.shapes_folder K n a s (HYPERPARAMETERS_FOLDER K)) in *.
  assert (Hparent : PathLib.parent file = folder).
  { unfold file, PathUtils.hp_file. rewrite parent_div_name. apply path_eta. }
  destruct Hready as [[Habsent Hfree] | (doc & Hdoc & Hdir)].
  - assert (path_exists (fs w) file = false) as ->.
    { unfold path_exists. destruct (names file); [done|].
      apply bool_decide_eq_false. rewrite Habsent. by intros [? ?]. }
    cbn [negb].
    destruct (makedirs_ok folder w Hfree) as (f' & Hrun & Hdir & Hsame & Hkeep).
    rewrite (bind_ok _ _ _ _ _ Hrun).
    assert (Hfile : f' !! file = None).
    { rewrite Hsame; [done|]. intros k. apply hp_file_not_on_the_way. }
    unfold yaml_dump.
    rewrite write_file_ok; simpl; [| done | by rewrite Hparent | by rewrite Hfile].
    eexists. split; [reflexivity|]. split.
    + rewrite lookup_insert_eq. unfold PathUtils.stored_set. by rewrite Habsent.
    + intros q Hq Hway. rewrite lookup_insert_ne by done. by apply Hsame.
  - rewrite (path_exists_true _ _ _ Hdoc). cbn [negb].
    rewrite (bind_ok _ _ _ _ _ (yaml_load_ok file doc w Hnames Hdoc)).
    unfold yaml_dump. rewrite write_file_ok; [| done | by rewrite Hparent | by rewrite Hdoc].
    eexists. split; [reflexivity|]. split.
    + rewrite lookup_insert_eq. unfold PathUtils.stored_set. rewrite Hdoc. by destruct doc.
    + intros q Hq Hway. simpl. by rewrite lookup_insert_ne.
Qed.

(** The soft set stands in for a missing hard one. *)
Lemma load_soft_fallback (n a sub : Z) s oracle (soft : hpset) (w : world) :
  path_exists (fs w) (PathUtils.hp_file K (Some n) (Some a) s (Some sub) true) = false →
  fs w !! PathUtils.hp_file K (Some n) (Some a) s (Some sub) false
    = Some (File (CYaml (Some soft))) →
  ∃ message,
    PathUtils.load_hyperparameters_shapes K (Some n) (Some a) s (Some sub)
      true false false oracle w
    = (Ok (Some (PathUtils.set_hard soft)), MkWorld (fs w) (warned w ++ [message])).
Proof.
  intros Hexact Hsoft. unfold PathUtils.hp_file in Hexact.
  eexists. load_steps w. rewrite Hexact. cbn [negb andb].
  rewrite (bind_ok _ _ w _ w (resolve_in_folder _ _ w (hp_name_bare (Some sub) false))).
  rewrite (bind_ok _ _ w _ w (exists_eq _ w)).
  fold (PathUtils.hp_file K (Some n) (Some a) s (Some sub) false).
  rewrite (path_exists_true _ _ _ Hsoft). rewrite bind_warn.
  erewrite bind_ok; cycle 1.
  { apply yaml_load_ok; [apply hp_file_names | exact Hsoft]. }
  reflexivity.
Qed.

Lemma hard_file_is_not_soft_file n a s sub :
  PathUtils.hp_file K n a s sub true ≠ PathUtils.hp_file K n a s sub false.
Proof.
  unfold PathUtils.hp_file. rewrite !div_name. intros [= E].
  apply app_inj_tail in E as [_ E].
  do 2 apply append_inj_l in E. discriminate E.
Qed.

(** X9. Hyperparameters saved for the soft bottleneck serve the hard one as
    long as no hard file exists: after saving the values of a model without
    [hard_bottleneck], loading with [hard_bottleneck] warns once and returns
    the set of the soft file with ["hard"] set to [True] in every entry, so
    the model is mapped to its saved values with ["hard" = True]. *)
Theorem save_soft_then_load_hard (n a sub : Z) s (oracle : bool) model_type
    (values : gmap string hpval) (w : world) :
  model_type ∈ MODEL_STRINGS_ALL_SHAPES K →
  PathUtils.hp_store_ready K (fs w) (Some n) (Some a) s (Some sub) false →
  fs w !! PathUtils.hp_file K (Some n) (Some a) s (Some sub) true = None →
  ∃ w1 message (loaded : hpset),
    PathUtils.save_hyperparameters_shapes K (Some n) (Some a) s (Some sub) values model_type
      false w = (Ok tt, w1)
    ∧ PathUtils.load_hyperparameters_shapes K (Some n) (Some a) s (Some sub)
        true false false oracle w1
      = (Ok (Some loaded), MkWorld (fs w1) (warned w ++ [message]))
    ∧ loaded !! model_type = Some (<["hard" := HBool true]> values)
    ∧ (∀ other entry, loaded !! other = Some entry → entry !! "hard" = Some (HBool true)).
Proof.
  intros Hin Hready Hhard.
  destruct (save_hyperparameters_shapes_frame _ _ _ _ _ model_type values w Hin Hready)
    as (f1 & Hsave & Hfile & Hframe).
  destruct (load_soft_fallback n a sub s oracle
              (<[model_type := values]>
                 (PathUtils.stored_set (fs w)
                    (PathUtils.hp_file K (Some n) (Some a) s (Some sub) false)))
              (MkWorld f1 (warned w))) as [message Hload].
  - apply path_exists_false_iff; [apply hp_file_names|]. simpl. rewrite Hframe; [done | | ].
    + apply hard_file_is_not_soft_file.
    + intros k. apply hp_file_not_on_the_way.
  - exact Hfile.
  - eexists _, message, _. split; [exact Hsave|]. split; [exact Hload|]. split.
    + rewrite set_hard_lookup, lookup_insert_eq. done.
    + apply set_hard_is_hard.
Qed.

End Shapes.
End PathUtilsMore.

(** ** The further properties on the concrete configuration *)

(** X1 in the oracle folder of the empty world. *)
Lemma save_then_load_history_shapes_witness :
  ∃ w1,
    PathUtils.save_history_shapes Example.K (Some 10%Z) (Some 5%Z) (Some 98%Z) (Some 2%Z)
      (Some 3%Z) 4%nat true false Example.empty_world = (Ok tt, w1)
    ∧ PathUtils.load_history_shapes Example.K (Some 10%Z) (Some 5%Z) (Some 98%Z) (Some 2%Z)
        (Some 3%Z) false true w1 = (Ok 4%nat, w1)
    ∧ warned w1 = [].
Proof.
  apply (PathUtilsMore.save_then_load_history_shapes Example.K (Some 10%Z) (Some 5%Z)
           (Some 98%Z) (Some 2%Z) (Some 3%Z) 4%nat true false Example.empty_world).
  - reflexivity.
  - apply creatable_empty.
  - simpl. rewrite lookup_empty. discriminate.
Defined.

(** X2 for the model type [" CBM "], with a hard bottleneck. *)
Lemma save_then_load_model_shapes_witness :
  ∃ w1,
    PathUtils.save_model_shapes Example.K (Some 10%Z) (Some 5%Z) (Some 98%Z) (Some 3%Z)
      7%nat " CBM " "loss" true false Example.empty_world = (Ok tt, w1)
    ∧ PathUtils.load_model_shapes Example.K (Some 10%Z) (Some 5%Z) (Some 98%Z) (Some 3%Z)
        " CBM " "loss" true false w1 = (Ok 7%nat, w1)
    ∧ warned w1 = [].
Proof.
  apply (PathUtilsMore.save_then_load_model_shapes Example.K (Some 10%Z) (Some 5%Z)
           (Some 98%Z) (Some 3%Z) 7%nat " CBM " "loss" true false Example.empty_world).
  - vm_compute. apply list_elem_of_In. simpl. tauto.
  - vm_compute. reflexivity.
  - left. vm_compute. discriminate.
  - apply creatable_empty.
  - simpl. rewrite lookup_empty. discriminate.
Defined.

(** X3 for the model type ["resnet"], and for [" CNN"] followed by the
    separator US (code 31), which is stripped like a blank and leaves the
    registered ["cnn"]: that model type is saved. *)
Lemma unregistered_model_type_is_rejected_witness :
  ((∃ message,
      PathUtils.save_model_shapes Example.K (Some 10%Z) (Some 5%Z) (Some 98%Z) (Some 3%Z)
        7%nat "resnet" "loss" false false Example.empty_world
      = (Raise (ValueError message), Example.empty_world))
   ∧ (∃ message,
        PathUtils.load_model_shapes Example.K (Some 10%Z) (Some 5%Z) (Some 98%Z) (Some 3%Z)
          "resnet" "loss" false false Example.empty_world
        = (Raise (ValueError message), Example.empty_world))
   ∧ (∃ message,
        PathUtils.save_hyperparameters_shapes Example.K (Some 10%Z) (Some 5%Z) (Some 98%Z)
          (Some 3%Z) Example.cnn_values "resnet" false Example.empty_world
        = (Raise (ValueError message), Example.empty_world)))
  ∧ PyStr.lower (PyStr.strip_ws (" CNN" +:+ String "031" "")) = "cnn"
  ∧ fst (PathUtils.save_model_shapes Example.K (Some 10%Z) (Some 5%Z) (Some 98%Z)
           (Some 3%Z) 7%nat (" CNN" +:+ String "031" "") "loss" false false
           Example.empty_world) = Ok tt.
Proof.
  destruct (PathUtilsMore.unregistered_model_type_is_rejected Example.K (Some 10%Z)
              (Some 5%Z) (Some 98%Z) (Some 3%Z) 7%nat Example.cnn_values "resnet" "loss"
              false false Example.empty_world) as [Hmodel Hhp].
  split; [|split; vm_compute; reflexivity].
  split; [|split].
  - apply Hmodel; [reflexivity|].
    intros Hin%list_elem_of_In. vm_compute in Hin. intuition discriminate.
  - apply Hmodel; [reflexivity|].
    intros Hin%list_elem_of_In. vm_compute in Hin. intuition discriminate.
  - apply Hhp. intros Hin%list_elem_of_In. vm_compute in Hin. intuition discriminate.
Defined.

(** X4 without a subset. *)
Lemma load_hyperparameters_shapes_needs_configuration_witness :
  ∃ message,
    PathUtils.load_hyperparameters_shapes Example.K (Some 10%Z) (Some 5%Z) (Some 98%Z) None
      false false false false Example.soft_only_world
    = (Raise (ValueError message), Example.soft_only_world).
Proof.
  apply (PathUtilsMore.load_hyperparameters_shapes_needs_configuration Example.K
           (Some 10%Z) (Some 5%Z) (Some 98%Z) None false false Example.soft_only_world).
  right. right. reflexivity.
Defined.

(** X5 in a world that holds the fast file only, and in the empty world. *)
Lemma load_hyperparameters_shapes_fast_witness :
  PathUtils.load_hyperparameters_shapes Example.K None None None None false true false false
    (MkWorld {[ MkPath "" ["results"; "hyperparameters"; "shapes"; "fast.yaml"]
                  := File (CYaml (Some Example.soft_set)) ]} [] : world nat nat)
  = (Ok (Some Example.soft_set),
     MkWorld {[ MkPath "" ["results"; "hyperparameters"; "shapes"; "fast.yaml"]
                  := File (CYaml (Some Example.soft_set)) ]} [])
  ∧ ∃ place,
      PathUtils.load_hyperparameters_shapes Example.K None None None None false true false
        false Example.empty_world
      = (Raise (FileNotFoundError place), Example.empty_world).
Proof.
  split.
  - destruct (PathUtilsMore.load_hyperparameters_shapes_fast Example.K None None None None
                false false false
                (MkWorld {[ MkPath "" ["results"; "hyperparameters"; "shapes"; "fast.yaml"]
                              := File (CYaml (Some Example.soft_set)) ]} [] : world nat nat))
      as [Hfound _]; [reflexivity|].
    apply Hfound. vm_compute. reflexivity.
  - destruct (PathUtilsMore.load_hyperparameters_shapes_fast Example.K None None None None
                false false false Example.empty_world) as [_ Hmissing]; [reflexivity|].
    apply Hmissing. vm_compute. reflexivity.
Defined.

(** X6 in the world with the default file for hard bottlenecks. *)
Lemma load_hyperparameters_shapes_default_witness :
  PathUtils.load_hyperparameters_shapes Example.K None None None None true false true false
    Example.default_only_world
  = (Ok (Some Example.default_hard_set), Example.default_only_world).
Proof.
  apply (PathUtilsMore.load_hyperparameters_shapes_default Example.K None None None None
           true false (Some Example.default_hard_set) Example.default_only_world).
  - reflexivity.
  - vm_compute. reflexivity.
Defined.

(** X7 in the empty world. *)
Lemma load_hyperparameters_shapes_all_missing_witness :
  ∃ message,
    PathUtils.load_hyperparameters_shapes Example.K (Some 10%Z) (Some 5%Z) (Some 98%Z)
      (Some 3%Z) true false false false Example.empty_world
    = (Raise (FileNotFoundError "results/hyperparameters/shapes/default_hard.yaml"),
       MkWorld ∅ [message]).
Proof.
  apply (PathUtilsMore.load_hyperparameters_shapes_all_missing Example.K 10 5 3 (Some 98%Z)
           true false Example.empty_world).
  - reflexivity.
  - vm_compute. reflexivity.
  - intros _. vm_compute. reflexivity.
  - vm_compute. reflexivity.
Defined.

(** X8 for the model ["cnn"], saved twice from the empty world. *)
Lemma save_again_overwrites_witness :
  ∃ w1 w2,
    PathUtils.save_hyperparameters_shapes Example.K (Some 10%Z) (Some 5%Z) (Some 98%Z)
      (Some 3%Z) Example.cnn_values "cnn" false Example.empty_world = (Ok tt, w1)
    ∧ PathUtils.save_hyperparameters_shapes Example.K (Some 10%Z) (Some 5%Z) (Some 98%Z)
        (Some 3%Z) Example.cbm_values "cnn" false w1 = (Ok tt, w2)
    ∧ PathUtils.load_hyperparameters_shapes Example.K (Some 10%Z) (Some 5%Z) (Some 98%Z)
        (Some 3%Z) false false false false w2
      = (Ok (Some (<["cnn" := Example.cbm_values]>
                     (PathUtils.stored_set (fs Example.empty_world)
                        (PathUtils.hp_file Example.K (Some 10%Z) (Some 5%Z) (Some 98%Z)
                           (Some 3%Z) false)))), w2).
Proof.
  apply (PathUtilsMore.save_again_overwrites Example.K 10 5 3 (Some 98%Z) false false "cnn"
           Example.cnn_values Example.cbm_values Example.empty_world).
  - vm_compute. apply list_elem_of_In. simpl. tauto.
  - left. split; [reflexivity | apply creatable_empty].
Defined.

(** X9 for the model ["cbm"], saved soft in the empty world. *)
Lemma save_soft_then_load_hard_witness :
  ∃ w1 message (loaded : hpset),
    PathUtils.save_hyperparameters_shapes Example.K (Some 10%Z) (Some 5%Z) (Some 98%Z)
      (Some 3%Z) Example.cbm_values "cbm" false Example.empty_world = (Ok tt, w1)
    ∧ PathUtils.load_hyperparameters_shapes Example.K (Some 10%Z) (Some 5%Z) (Some 98%Z)
        (Some 3%Z) true false false false w1
      = (Ok (Some loaded), MkWorld (fs w1) [message])
    ∧ loaded !! "cbm" = Some (<["hard" := HBool true]> Example.cbm_values).
Proof.
  destruct (PathUtilsMore.save_soft_then_load_hard Example.K 10 5 3 (Some 98%Z) false "cbm"
              Example.cbm_values Example.empty_world)
    as (w1 & message & loaded & Hsave & Hload & Hcbm & _).
  - vm_compute. apply list_elem_of_In. simpl. tauto.
  - left. split; [reflexivity | apply creatable_empty].
  - reflexivity.
  - exists w1, message, loaded. split; [exact Hsave|]. split; [exact Hload | exact Hcbm].
Defined.

(** * Properties of the rest of [path_utils] *)

(** ** More about strings *)

Module PyStrMore.

Lemma length_append a b : String.length (a +:+ b) = (String.length a + String.length b)%nat.
Proof.
  induction a as [|x a IH]; [done|].
  change (S (String.length (a +:+ b)) = S (String.length a + String.length b)).
  by rewrite IH.
Qed.

Lemma append_inj_r a b c : a +:+ c = b +:+ c → a = b.
Proof.
  revert b. induction a as [|x a IH]; intros [|y b] E.
  - done.
  - apply (f_equal String.length) in E. rewrite !length_append in E. cbn in E. lia.
  - apply (f_equal String.length) in E. rewrite !length_append in E. cbn in E. lia.
  - change (String x (a +:+ c) = String y (b +:+ c)) in E.
    injection E as -> E. f_equal. by apply IH.
Qed.

End PyStrMore.

(** ** Reading back what was stored *)

Section LoadFacts.

Context {state_dict history : Type}.
Local Abbreviation world := (world state_dict history).

Lemma pickle_load_ok p h (w : world) :
  names p ≠ [] → fs w !! p = Some (File (CPickle h)) → pickle_load p w = (Ok h, w).
Proof.
  intros Hn Hc. unfold pickle_load.
  by rewrite (bind_ok _ _ _ _ _ (read_file_ok p _ w Hn Hc)).
Qed.

Lemma pickle_load_missing p (w : world) :
  names p ≠ [] → fs w !! p = None →
  pickle_load p w = (Raise (FileNotFoundError (PathLib.as_posix p)), w).
Proof.
  intros Hn Hc. unfold pickle_load.
  by rewrite (bind_raise _ _ _ _ _ (read_file_missing p w Hn Hc)).
Qed.

Lemma torch_load_ok p sd (w : world) :
  names p ≠ [] → fs w !! p = Some (File (CTorch sd)) → torch_load p w = (Ok sd, w).
Proof.
  intros Hn Hc. unfold torch_load.
  by rewrite (bind_ok _ _ _ _ _ (read_file_ok p _ w Hn Hc)).
Qed.

Lemma torch_load_missing p (w : world) :
  names p ≠ [] → fs w !! p = None →
  torch_load p w = (Raise (FileNotFoundError (PathLib.as_posix p)), w).
Proof.
  intros Hn Hc. unfold torch_load.
  by rewrite (bind_raise _ _ _ _ _ (read_file_missing p w Hn Hc)).
Qed.

(** Reading never changes the world. *)
Lemma read_file_pure p (w : world) : snd (read_file p w) = w.
Proof.
  unfold read_file, bind, get_fs, raise, ret. destruct (names p); [done|].
  simpl. by destruct (fs w !! p) as [[|?]|].
Qed.

Lemma pickle_load_pure p (w : world) : snd (pickle_load p w) = w.
Proof.
  unfold pickle_load, bind. pose proof (read_file_pure p w) as H.
  destruct (read_file p w) as [[c|e] w']; simpl in H; subst w'; [|done].
  by destruct c.
Qed.

End LoadFacts.

(** ** The CUB results *)

Module PathUtilsCubFacts.
Import PyStrFacts PathUtilsFacts PathUtilsMore.
Section Cub.

Context {state_dict history : Type}.
Variable K : constants.
Variable D : data_constants.
Local Abbreviation world := (world state_dict history).
Local Abbreviation node := (node state_dict history).
Local Abbreviation content := (content state_dict history).

Lemma get_cub_folder_path_eq rel :
  PathUtilsCub.get_cub_folder_path K rel = Ok (PathUtilsCub.cub_folder K rel).
Proof. reflexivity. Qed.

Lemma slash_sub_string sub :
  PyStr.contains PathLib.slash (PathUtilsCub.sub_string sub) = false.
Proof.
  destruct sub; [|reflexivity]. unfold PathUtilsCub.sub_string.
  by rewrite contains_app, slash_fmt.
Qed.

Lemma backslash_sub_string sub :
  PyStr.contains PathLib.backslash (PathUtilsCub.sub_string sub) = false.
Proof.
  destruct sub; [|reflexivity]. unfold PathUtilsCub.sub_string.
  by rewrite contains_app, backslash_fmt.
Qed.

Lemma underscore_sub_string sub : PyStr.contains "_" (PathUtilsCub.sub_string sub) = true.
Proof. by destruct sub. Qed.

Lemma cub_history_name_bare sub b hard :
  PathLib.bare ("histories" +:+ PathUtilsCub.sub_string sub +:+ "_b" +:+ PyStr.fmt b
                  +:+ PathUtils.hard_suffix hard +:+ ".pkl") = true.
Proof.
  unfold PathLib.bare, PathUtils.hard_suffix.
  rewrite ?contains_app, ?slash_fmt, ?backslash_fmt, slash_sub_string, backslash_sub_string.
  by destruct hard.
Qed.

(** X10. A history saved by [save_history_cub] is what [load_history_cub]
    returns for the same arguments, whatever the flags and also for the
    full dataset ([n_subset = None]); no warning is given. *)
Theorem save_then_load_history_cub b sub h (oracle_only hard : bool) (w : world) :
  creatable (fs w) (PathUtilsCub.history_folder K oracle_only) →
  fs w !! (PathUtilsCub.history_folder K oracle_only
           </> MkPath "" ["histories" +:+ PathUtilsCub.sub_string sub +:+ "_b"
                            +:+ PyStr.fmt b +:+ PathUtils.hard_suffix hard +:+ ".pkl"])
    ≠ Some Dir →
  ∃ w1,
    PathUtilsCub.save_history_cub K b sub h oracle_only hard w = (Ok tt, w1)
    ∧ PathUtilsCub.load_history_cub K b sub hard oracle_only w1 = (Ok h, w1)
    ∧ warned w1 = warned w.
Proof.
  intros Hfree Hnodir.
  unfold PathUtilsCub.save_history_cub, PathUtilsCub.load_history_cub.
  rewrite get_cub_folder_path_eq, bind_lift_ok.
  fold (PathUtilsCub.history_folder K oracle_only).
  destruct (write_in_folder_run _ _ (CPickle h) w (cub_history_name_bare sub b hard)
              Hfree Hnodir) as (f' & Hrun & _).
  eexists. split; [exact Hrun|]. split; [|done].
  rewrite bind_lift_ok.
  rewrite (bind_ok _ _ _ _ _ (resolve_in_folder _ _ _ (cub_history_name_bare sub b hard))).
  apply pickle_load_ok; [apply file_names|]. simpl fs. apply lookup_insert_eq.
Qed.

Lemma cub_check_model_type_ok model_type :
  model_type ∈ MODEL_STRINGS_ALL_CUB D →
  PathUtilsCub.check_model_type_cub D model_type = Ok tt.
Proof.
  intros H. unfold PathUtilsCub.check_model_type_cub, PyStr.mem.
  by rewrite bool_decide_eq_true_2.
Qed.

Lemma cub_check_model_type_unknown model_type :
  model_type ∉ MODEL_STRINGS_ALL_CUB D →
  ∃ message, PathUtilsCub.check_model_type_cub D model_type = Raise (ValueError message).
Proof.
  intros H. unfold PathUtilsCub.check_model_type_cub, PyStr.mem.
  rewrite bool_decide_eq_false_2 by done. simpl. eauto.
Qed.

Lemma cub_model_name_bare model_type sub metric suffix (adversarial : bool) :
  PathUtils.has_separator (AStr (model_type +:+ metric)) = false →
  suffix = "" ∨ suffix = "_hard" →
  PathLib.bare (model_type +:+ PathUtilsCub.sub_string sub +:+ "_" +:+ metric
                  +:+ suffix +:+ PathUtils.adversarial_suffix adversarial +:+ ".pth") = true.
Proof.
  unfold PathUtils.has_separator, pathlike_str. rewrite !contains_app.
  intros [[H1 H2]%orb_false_iff [H3 H4]%orb_false_iff]%orb_false_iff Hsuffix.
  apply bare_of_underscore.
  - unfold PathUtils.has_separator, pathlike_str.
    rewrite !contains_app, H1, H2, H3, H4, slash_sub_string, backslash_sub_string.
    by destruct Hsuffix as [-> | ->], adversarial.
  - rewrite !contains_app, underscore_sub_string. apply orb_true_r.
Qed.

Lemma hard_suffix_cases hard :
  PathUtils.hard_suffix hard = "" ∨ PathUtils.hard_suffix hard = "_hard".
Proof. destruct hard; [by right | by left]. Qed.

(** X11. A state-dict saved by [save_model_cub] is what [load_model_cub]
    returns for the same arguments, for a registered model type that is not
    ["cnn"] or without [hard_bottleneck], also for the full dataset
    ([n_subset = None]); model type and metric must be free of separators. *)
Theorem save_then_load_model_cub sub sd model_type metric (hard adversarial : bool)
    (w : world) :
  PyStr.lower (PyStr.strip_ws model_type) ∈ MODEL_STRINGS_ALL_CUB D →
  PathUtils.has_separator (AStr (PyStr.lower (PyStr.strip_ws model_type) +:+ metric)) = false →
  PyStr.lower (PyStr.strip_ws model_type) ≠ "cnn" ∨ hard = false →
  creatable (fs w) (PathUtilsCub.cub_folder K (SAVED_MODELS_FOLDER K)) →
  fs w !! (PathUtilsCub.cub_folder K (SAVED_MODELS_FOLDER K)
           </> MkPath "" [PyStr.lower (PyStr.strip_ws model_type)
                            +:+ PathUtilsCub.sub_string sub +:+ "_" +:+ metric
                            +:+ PathUtils.hard_suffix hard
                            +:+ PathUtils.adversarial_suffix adversarial +:+ ".pth"])
    ≠ Some Dir →
  ∃ w1,
    PathUtilsCub.save_model_cub K D sub sd model_type metric hard adversarial w = (Ok tt, w1)
    ∧ PathUtilsCub.load_model_cub K D sub model_type metric hard adversarial w1 = (Ok sd, w1)
    ∧ warned w1 = warned w.
Proof.
  intros Hin Hsep Hflags Hfree Hnodir.
  pose proof (cub_model_name_bare _ sub metric _ adversarial Hsep (hard_suffix_cases hard))
    as Hbare.
  unfold PathUtilsCub.save_model_cub, PathUtilsCub.load_model_cub.
  rewrite (cub_check_model_type_ok _ Hin), bind_lift_ok.
  rewrite get_cub_folder_path_eq, bind_lift_ok.
  assert ((if String.eqb (PyStr.lower (PyStr.strip_ws model_type)) "cnn" || negb hard
           then "" else "_hard") = PathUtils.hard_suffix hard) as ->.
  { unfold PathUtils.hard_suffix. destruct Hflags as [Hne | ->]; [|by rewrite orb_true_r].
    destruct (String.eqb_spec (PyStr.lower (PyStr.strip_ws model_type)) "cnn"); done. }
  destruct (write_in_folder_run _ _ (CTorch sd) w Hbare Hfree Hnodir) as (f' & Hrun & _).
  eexists. split; [exact Hrun|]. split; [|done].
  rewrite bind_lift_ok, bind_lift_ok.
  rewrite (bind_ok _ _ _ _ _ (resolve_in_folder _ _ _ Hbare)).
  apply torch_load_ok; [apply file_names|]. simpl fs. apply lookup_insert_eq.
Qed.

(** X12. For the model type ["cnn"] with [hard_bottleneck] set,
    [save_model_cub] drops the ["_hard"] suffix while [load_model_cub] keeps
    it: the state-dict is written to the file without the suffix, and the
    load with the same arguments looks for the file with the suffix; when
    that file is not on disk it raises [FileNotFoundError]. *)
Theorem load_model_cub_misses_hard_cnn sub sd model_type metric (adversarial : bool)
    (w : world) :
  PyStr.lower (PyStr.strip_ws model_type) = "cnn" →
  "cnn" ∈ MODEL_STRINGS_ALL_CUB D →
  PathUtils.has_separator (AStr metric) = false →
  creatable (fs w) (PathUtilsCub.cub_folder K (SAVED_MODELS_FOLDER K)) →
  fs w !! (PathUtilsCub.cub_folder K (SAVED_MODELS_FOLDER K)
           </> MkPath "" ["cnn" +:+ PathUtilsCub.sub_string sub +:+ "_" +:+ metric
                            +:+ PathUtils.adversarial_suffix adversarial +:+ ".pth"])
    ≠ Some Dir →
  fs w !! (PathUtilsCub.cub_folder K (SAVED_MODELS_FOLDER K)
           </> MkPath "" ["cnn" +:+ PathUtilsCub.sub_string sub +:+ "_" +:+ metric
                            +:+ "_hard" +:+ PathUtils.adversarial_suffix adversarial
                            +:+ ".pth"]) = None →
  ∃ w1,
    PathUtilsCub.save_model_cub K D sub sd model_type metric true adversarial w = (Ok tt, w1)
    ∧ fs w1 !! (PathUtilsCub.cub_folder K (SAVED_MODELS_FOLDER K)
                </> MkPath "" ["cnn" +:+ PathUtilsCub.sub_string sub +:+ "_" +:+ metric
                                 +:+ PathUtils.adversarial_suffix adversarial +:+ ".pth"])
      = Some (File (CTorch sd))
    ∧ PathUtilsCub.load_model_cub K D sub model_type metric true adversarial w1
      = (Raise (FileNotFoundError
                  (PathLib.as_posix
                     (PathUtilsCub.cub_folder K (SAVED_MODELS_FOLDER K)
                      </> MkPath "" ["cnn" +:+ PathUtilsCub.sub_string sub +:+ "_" +:+ metric
                                       +:+ "_hard"
                                       +:+ PathUtils.adversarial_suffix adversarial
                                       +:+ ".pth"]))), w1).
Proof.
  intros Hcnn Hin Hsep Hfree Hnodir Hmissing.
  assert (Hsep' : PathUtils.has_separator (AStr ("cnn" +:+ metric)) = false) by exact Hsep.
  pose proof (cub_model_name_bare "cnn" sub metric "" adversarial Hsep' (or_introl eq_refl))
    as Hsoft.
  pose proof (cub_model_name_bare "cnn" sub metric "_hard" adversarial Hsep'
                (or_intror eq_refl)) as Hhard.
  unfold PathUtilsCub.save_model_cub, PathUtilsCub.load_model_cub.
  rewrite Hcnn, (cub_check_model_type_ok _ Hin), bind_lift_ok.
  rewrite get_cub_folder_path_eq, bind_lift_ok.
  change (if String.eqb "cnn" "cnn" || negb true then "" else "_hard") with "".
  change (PathUtils.hard_suffix true) with "_hard".
  destruct (write_in_folder_run _ _ (CTorch sd) w Hsoft Hfree Hnodir)
    as (f' & Hrun & _ & Hsame & _).
  change ("cnn" +:+ PathUtilsCub.sub_string sub +:+ "_" +:+ metric +:+ ""
            +:+ PathUtils.adversarial_suffix adversarial +:+ ".pth")
    with ("cnn" +:+ PathUtilsCub.sub_string sub +:+ "_" +:+ metric
            +:+ PathUtils.adversarial_suffix adversarial +:+ ".pth") in Hrun.
  eexists. split; [exact Hrun|]. split; [simpl fs; apply lookup_insert_eq|].
  rewrite bind_lift_ok, bind_lift_ok.
  rewrite (bind_ok _ _ _ _ _ (resolve_in_folder _ _ _ Hhard)).
  apply torch_load_missing; [apply file_names|]. simpl fs.
  rewrite lookup_insert_ne.
  - rewrite Hsame; [exact Hmissing|]. intros k. apply file_not_on_the_way.
  - rewrite !div_name. intros [= E]. apply app_inj_tail in E as [_ E].
    do 4 apply append_inj_l in E. destruct adversarial; discriminate E.
Qed.

Lemma cub_hp_name_bare sub hard :
  PathLib.bare ("hyperparameters" +:+ PathUtilsCub.sub_string sub
                  +:+ PathUtils.hard_suffix hard +:+ ".yaml") = true.
Proof.
  unfold PathLib.bare, PathUtils.hard_suffix.
  rewrite ?contains_app, slash_sub_string, backslash_sub_string.
  by destruct hard.
Qed.

(** One save: the entry of [model_type] is set in the stored document, the
    other entries stay. *)
Lemma save_hyperparameters_cub_run sub hard model_type values (w : world) :
  model_type ∈ MODEL_STRINGS_ALL_CUB D →
  (fs w !! PathUtilsCub.cub_hp_file K sub hard = None
     ∧ creatable (fs w) (PathUtilsCub.cub_folder K (HYPERPARAMETERS_FOLDER K)))
  ∨ (∃ doc, fs w !! PathUtilsCub.cub_hp_file K sub hard = Some (File (CYaml doc))
       ∧ isdir (fs w) (PathUtilsCub.cub_folder K (HYPERPARAMETERS_FOLDER K)) = true) →
  ∃ f1,
    PathUtilsCub.save_hyperparameters_cub K D sub values model_type hard w
    = (Ok tt, MkWorld f1 (warned w))
    ∧ f1 !! PathUtilsCub.cub_hp_file K sub hard
      = Some (File (CYaml (Some (<[model_type := values]>
                                   (PathUtils.stored_set (fs w)
                                      (PathUtilsCub.cub_hp_file K sub hard))))))
    ∧ (∀ q, q ≠ PathUtilsCub.cub_hp_file K sub hard →
            (∀ k, q ≠ MkPath (root (PathUtilsCub.cub_folder K (HYPERPARAMETERS_FOLDER K)))
                         (take k (names (PathUtilsCub.cub_folder K
                                           (HYPERPARAMETERS_FOLDER K))))) →
            f1 !! q = fs w !! q).
Proof.
  intros Hin Hready.
  unfold PathUtilsCub.save_hyperparameters_cub.
  rewrite (cub_check_model_type_ok _ Hin), bind_lift_ok.
  rewrite get_cub_folder_path_eq, bind_lift_ok.
  rewrite (bind_ok _ _ w _ w (resolve_in_folder _ _ w (cub_hp_name_bare sub hard))).
  fold (PathUtilsCub.cub_hp_file K sub hard).
  rewrite (bind_ok _ _ w _ w (exists_eq _ w)).
  assert (Hnames : names (PathUtilsCub.cub_hp_file K sub hard) ≠ []) by apply file_names.
  assert (Hway : ∀ k, PathUtilsCub.cub_hp_file K sub hard
                      ≠ MkPath (root (PathUtilsCub.cub_folder K (HYPERPARAMETERS_FOLDER K)))
                          (take k (names (PathUtilsCub.cub_folder K
                                            (HYPERPARAMETERS_FOLDER K)))))
    by (intros k; apply file_not_on_the_way).
  assert (Hparent : PathLib.parent (PathUtilsCub.cub_hp_file K sub hard)
                    = PathUtilsCub.cub_folder K (HYPERPARAMETERS_FOLDER K)).
  { unfold PathUtilsCub.cub_hp_file. rewrite parent_div_name. apply path_eta. }
  set (file := PathUtilsCub.cub_hp_file K sub hard) in *.
  set (folder := PathUtilsCub.cub_folder K (HYPERPARAMETERS_FOLDER K)) in *.
  destruct Hready as [[Habsent Hfree] | (doc & Hdoc & Hdir)].
  - rewrite (path_exists_false_iff _ _ Hnames Habsent). cbn [negb].
    destruct (makedirs_ok folder w Hfree) as (f' & Hrun & Hdir & Hsame & Hkeep).
    rewrite (bind_ok _ _ _ _ _ Hrun).
    assert (Hfile : f' !! file = None) by (rewrite Hsame; done).
    unfold yaml_dump.
    rewrite write_file_ok; simpl; [| done | by rewrite Hparent | by rewrite Hfile].
    eexists. split; [reflexivity|]. split.
    + rewrite lookup_insert_eq. unfold PathUtils.stored_set. by rewrite Habsent.
    + intros q Hq Hq'. rewrite lookup_insert_ne by done. by apply Hsame.
  - rewrite (path_exists_true _ _ _ Hdoc). cbn [negb].
    rewrite (bind_ok _ _ _ _ _ (yaml_load_ok file doc w Hnames Hdoc)).
    unfold yaml_dump. rewrite write_file_ok; [| done | by rewrite Hparent | by rewrite Hdoc].
    eexists. split; [reflexivity|]. split.
    + rewrite lookup_insert_eq. unfold PathUtils.stored_set. rewrite Hdoc. by destruct doc.
    + intros q Hq Hq'. simpl. by rewrite lookup_insert_ne.
Qed.

(** With the exact file on disk, loading returns its document. *)
Lemma load_hyperparameters_cub_exact sub hard doc (w : world) :
  fs w !! PathUtilsCub.cub_hp_file K sub hard = Some (File (CYaml doc)) →
  PathUtilsCub.load_hyperparameters_cub K sub hard false false w = (Ok doc, w).
Proof.
  intros Hdoc. unfold PathUtilsCub.load_hyperparameters_cub.
  rewrite get_cub_folder_path_eq, bind_lift_ok.
  rewrite (bind_ok _ _ w _ w (resolve_in_folder _ _ w (cub_hp_name_bare sub hard))).
  fold (PathUtilsCub.cub_hp_file K sub hard).
  rewrite (bind_ok _ _ w _ w (exists_eq _ w)).
  rewrite (path_exists_true _ _ _ Hdoc). cbn [negb andb].
  apply yaml_load_ok; [apply file_names | exact Hdoc].
Qed.

(** X13. Hyperparameters saved by [save_hyperparameters_cub] are what
    [load_hyperparameters_cub] returns for the same subset and hardness,
    also for the full dataset ([n_subset = None], for which the Shapes
    function raises [ValueError]): the loaded set is what the file held
    before with the model mapped to the saved values, and no warning is
    given. *)
Theorem save_then_load_hyperparameters_cub sub (hard : bool) model_type
    (values : gmap string hpval) (w : world) :
  model_type ∈ MODEL_STRINGS_ALL_CUB D →
  (fs w !! PathUtilsCub.cub_hp_file K sub hard = None
     ∧ creatable (fs w) (PathUtilsCub.cub_folder K (HYPERPARAMETERS_FOLDER K)))
  ∨ (∃ doc, fs w !! PathUtilsCub.cub_hp_file K sub hard = Some (File (CYaml doc))
       ∧ isdir (fs w) (PathUtilsCub.cub_folder K (HYPERPARAMETERS_FOLDER K)) = true) →
  ∃ w1,
    PathUtilsCub.save_hyperparameters_cub K D sub values model_type hard w = (Ok tt, w1)
    ∧ PathUtilsCub.load_hyperparameters_cub K sub hard false false w1
      = (Ok (Some (<[model_type := values]>
                     (PathUtils.stored_set (fs w)
                        (PathUtilsCub.cub_hp_file K sub hard)))), w1)
    ∧ warned w1 = warned w.
Proof.
  intros Hin Hready.
  destruct (save_hyperparameters_cub_run sub hard model_type values w Hin Hready)
    as (f1 & Hsave & Hfile & _).
  eexists. split; [exact Hsave|]. split; [|done].
  by apply load_hyperparameters_cub_exact.
Qed.

(** X14. The fast and the default hyperparameters of CUB are read from the
    CUB folder [results/hyperparameters/cub], under the file names of the
    Shapes constants: with [fast] set the fast file of the given hardness is
    returned whatever the subset and [default]; with [default] set (and
    [fast] unset) the default file is returned even when the file of the
    subset exists. No warning is given. *)
Theorem load_hyperparameters_cub_fast_default sub (hard default : bool) doc (w : world) :
  (PathLib.bare (if hard then FAST_HYPERPARAMETERS_FILENAME_SHAPES_HARD K
                 else FAST_HYPERPARAMETERS_FILENAME_SHAPES K) = true →
   fs w !! (PathUtilsCub.cub_folder K (HYPERPARAMETERS_FOLDER K)
            </> MkPath "" [if hard then FAST_HYPERPARAMETERS_FILENAME_SHAPES_HARD K
                           else FAST_HYPERPARAMETERS_FILENAME_SHAPES K])
     = Some (File (CYaml doc)) →
   PathUtilsCub.load_hyperparameters_cub K sub hard true default w = (Ok doc, w))
  ∧ (PathLib.bare (if hard then DEFAULT_HYPERPARAMETERS_FILENAME_SHAPES_HARD K
                   else DEFAULT_HYPERPARAMETERS_FILENAME_SHAPES K) = true →
     fs w !! (PathUtilsCub.cub_folder K (HYPERPARAMETERS_FOLDER K)
              </> MkPath "" [if hard then DEFAULT_HYPERPARAMETERS_FILENAME_SHAPES_HARD K
                             else DEFAULT_HYPERPARAMETERS_FILENAME_SHAPES K])
       = Some (File (CYaml doc)) →
     PathUtilsCub.load_hyperparameters_cub K sub hard false true w = (Ok doc, w)).
Proof.
  split; intros Hbare Hdoc; unfold PathUtilsCub.load_hyperparameters_cub;
    rewrite get_cub_folder_path_eq, bind_lift_ok.
  - rewrite (bind_ok _ _ w _ w (resolve_str_in_folder _ _ w Hbare)).
    apply yaml_load_ok; [apply file_names | exact Hdoc].
  - rewrite (bind_ok _ _ w _ w (resolve_in_folder _ _ w (cub_hp_name_bare sub hard))).
    rewrite (bind_ok _ _ w _ w (exists_eq _ w)). cbn [negb andb].
    rewrite (bind_ok _ _ w _ w (resolve_str_in_folder _ _ w Hbare)).
    apply yaml_load_ok; [apply file_names | exact Hdoc].
Qed.

End Cub.
End PathUtilsCubFacts.

(** ** Removing and re-creating a folder *)

Section ShutilFacts.

Context {state_dict history : Type}.
Local Abbreviation node := (node state_dict history).
Local Abbreviation world := (world state_dict history).

Lemma rmtree_ok p (w : world) :
  names p ≠ [] → fs w !! p = Some Dir →
  rmtree p w
  = (Ok tt, MkWorld (filter (λ entry, ¬ PathLib.under p entry.1) (fs w)) (warned w)).
Proof.
  intros Hn Hp. unfold rmtree, bind, get_fs. cbn [fst snd].
  destruct (names p); [done|]. by rewrite Hp.
Qed.

Lemma lookup_rmtree_under (f : gmap Path node) p q :
  PathLib.under p q → filter (λ entry, ¬ PathLib.under p entry.1) f !! q = None.
Proof.
  intros Hu. apply map_lookup_filter_None. right. intros x _ Hnot. by apply Hnot.
Qed.

Lemma lookup_rmtree_other (f : gmap Path node) p q :
  ¬ PathLib.under p q → filter (λ entry, ¬ PathLib.under p entry.1) f !! q = f !! q.
Proof.
  intros Hu. destruct (f !! q) as [x|] eqn:Hq.
  - by apply map_lookup_filter_Some.
  - apply map_lookup_filter_None. by left.
Qed.

(** A path that is not there yet: [exist_ok] plays no part. *)
Lemma mkdir_chain_fresh r todo : ∀ done_ (f : gmap Path node),
  todo ≠ [] → f !! MkPath r (done_ ++ todo) = None →
  mkdir_chain r done_ todo false f = mkdir_chain r done_ todo true f.
Proof.
  induction todo as [|n rest IH]; intros done_ f Hne Hnone; [done|].
  cbn [mkdir_chain]. destruct rest as [|m rest].
  { by rewrite Hnone. }
  assert (Hlonger : MkPath r (done_ ++ [n]) ≠ MkPath r ((done_ ++ [n]) ++ m :: rest)).
  { intros [= E]. apply (f_equal length) in E. rewrite !length_app in E. simpl in E. lia. }
  destruct (f !! MkPath r (done_ ++ [n])) as [[|c]|] eqn:Hq; [| done |].
  - apply IH; [done|]. by rewrite <- app_assoc.
  - apply IH; [done|]. rewrite lookup_insert_ne by done. by rewrite <- app_assoc.
Qed.

(** Where all the directories are there, nothing is made. *)
Lemma mkdir_chain_present r todo : ∀ done_ (f : gmap Path node),
  (∀ k, (0 < k ≤ length todo)%nat → f !! MkPath r (done_ ++ take k todo) = Some Dir) →
  mkdir_chain r done_ todo true f = Ok f.
Proof.
  induction todo as [|n rest IH]; intros done_ f Hdirs; [done|].
  cbn [mkdir_chain].
  assert (f !! MkPath r (done_ ++ [n]) = Some Dir) as ->.
  { specialize (Hdirs 1%nat). simpl in Hdirs. rewrite take_0 in Hdirs.
    apply Hdirs. lia. }
  destruct rest as [|m rest]; [done|]. apply IH.
  intros k Hk. specialize (Hdirs (S k)). simpl in Hdirs. rewrite <- app_assoc.
  apply Hdirs. simpl in Hk. lia.
Qed.

(** [os.makedirs(p)] of a path that is not there. *)
Lemma makedirs_fresh p (w : world) :
  names p ≠ [] → fs w !! p = None → creatable (fs w) p →
  ∃ f', makedirs p false w = (Ok tt, MkWorld f' (warned w))
    ∧ (∀ k, (0 < k ≤ length (names p))%nat →
            f' !! MkPath (root p) (take k (names p)) = Some Dir)
    ∧ (∀ q, (∀ k, q ≠ MkPath (root p) (take k (names p))) → f' !! q = fs w !! q).
Proof.
  intros Hn Hnone Hfree. unfold makedirs.
  destruct (mkdir_chain_ok (root p) (names p) [] (fs w)) as (f' & Hrun & Hdirs & Hsame & _).
  { intros k c. apply Hfree. }
  assert (Hchain : mkdir_chain (root p) [] (names p) false (fs w) = Ok f').
  { rewrite mkdir_chain_fresh; [exact Hrun | exact Hn |].
    simpl app. by rewrite PyStrFacts.path_eta. }
  exists f'. split; [|split].
  - unfold bind, lift, put_fs, get_fs. cbn [fst snd fs].
    revert Hchain. destruct (names p); [done|]. by intros ->.
  - intros k Hk. by apply Hdirs.
  - intros q Hq. apply Hsame. intros k _. apply Hq.
Qed.

End ShutilFacts.

(** ** The data lists *)

Module PathUtilsDataFacts.
Import PyStrFacts PyStrMore PathUtilsFacts PathUtilsMore.
Section DataLists.

Context {state_dict pickled : Type}.
Variable K : constants.
Variable D : data_constants.
Local Abbreviation world := (world state_dict pickled).
Local Abbreviation node := (node state_dict pickled).
Local Abbreviation content := (content state_dict pickled).

Lemma check_bare_str name :
  PathLib.bare name = true → PathUtils._check_just_file (AStr name) = Ok tt.
Proof.
  intros (Hs & Hb & _ & _)%bare_inv.
  unfold PathUtils._check_just_file, pathlike_str. by rewrite Hs, Hb.
Qed.

(** Resolving a bare name in a folder that is there. *)
Lemma make_file_path_present F name (w : world) :
  PathLib.bare name = true →
  (∀ k, (0 < k ≤ length (names F))%nat →
        fs w !! MkPath (root F) (take k (names F)) = Some Dir) →
  PathUtils.make_file_path (APath F) (AStr name) true w = (Ok (F </> MkPath "" [name]), w).
Proof.
  intros Hb Hdirs.
  unfold PathUtils.make_file_path, PathUtils.create_folder, makedirs, bind, lift, ret,
    get_fs, put_fs.
  rewrite (check_bare_str name Hb). cbn [to_Path fst snd].
  rewrite (of_str_bare name Hb).
  destruct (names F) as [|n rest] eqn:Hn; [done|].
  rewrite mkdir_chain_present; [by destruct w|]. intros k Hk. apply Hdirs. exact Hk.
Qed.

(** A path of the tree of [d] that lies on the way to [d] is [d]. *)
Lemma under_on_the_way d k :
  PathLib.under d (MkPath (root d) (take k (names d))) →
  MkPath (root d) (take k (names d)) = d.
Proof.
  intros [_ Hpre]. simpl in Hpre. rewrite <- (path_eta d) at 3. f_equal.
  apply prefix_length in Hpre. rewrite length_take in Hpre.
  apply take_ge. lia.
Qed.

(** The folder [tables] is removed if it is there, made again, and the two
    lists are written into it. *)
Lemma replace_folder_run tables train val (train_data val_data : pickled) (w : world) :
  names tables ≠ [] →
  PathLib.bare train = true → PathLib.bare val = true → train ≠ val →
  PathUtilsData.replaceable (fs w) tables →
  ∃ f1,
    (present <- exists_ tables ;;
     (if present then rmtree tables else ret tt) ;;;
     makedirs tables false ;;;
     train_filename <- PathUtils.make_file_path (APath tables) (AStr train) true ;;
     val_filename <- PathUtils.make_file_path (APath tables) (AStr val) true ;;
     pickle_dump train_data train_filename ;;;
     pickle_dump val_data val_filename)%py w
    = (Ok tt, MkWorld f1 (warned w))
    ∧ f1 !! (tables </> MkPath "" [train]) = Some (File (CPickle train_data))
    ∧ f1 !! (tables </> MkPath "" [val]) = Some (File (CPickle val_data))
    ∧ (∀ k, (0 < k ≤ length (names tables))%nat →
            f1 !! MkPath (root tables) (take k (names tables)) = Some Dir)
    ∧ (∀ q, PathLib.under tables q → q ≠ tables →
            q ≠ tables </> MkPath "" [train] → q ≠ tables </> MkPath "" [val] →
            f1 !! q = None)
    ∧ (∀ q, ¬ PathLib.under tables q →
            (∀ k, q ≠ MkPath (root tables) (take k (names tables))) →
            f1 !! q = fs w !! q).
Proof.
  intros Hn Htrain Hval Hne [Hfree Hstate].
  (* the world after the removal *)
  assert (Hgone : ∃ fa,
    (∀ B (k : unit → Py world B),
       bind (if path_exists (fs w) tables then rmtree tables else ret tt) k w
       = k tt (MkWorld fa (warned w)))
    ∧ (∀ q, PathLib.under tables q → fa !! q = None)
    ∧ (∀ q, ¬ PathLib.under tables q → fa !! q = fs w !! q)).
  { destruct Hstate as [Hdir | Hnone].
    - eexists. split; [|split].
      + intros B k. rewrite (path_exists_true _ _ _ Hdir).
        by rewrite (bind_ok _ _ _ _ _ (rmtree_ok tables w Hn Hdir)).
      + intros q Hq. by apply lookup_rmtree_under.
      + intros q Hq. by apply lookup_rmtree_other.
    - exists (fs w). split; [|split].
      + intros B k. rewrite path_exists_false_iff; [by destruct w | done |].
        apply Hnone, under_refl.
      + exact Hnone.
      + done. }
  destruct Hgone as (fa & Hrm & Hunder & Hother).
  assert (Hfree_a : creatable fa tables).
  { intros k c Hc.
    destruct (decide (PathLib.under tables (MkPath (root tables) (take k (names tables)))))
      as [Hu | Hu].
    - by rewrite (Hunder _ Hu) in Hc.
    - rewrite (Hother _ Hu) in Hc. by apply (Hfree k c). }
  (* the folder is made again *)
  destruct (makedirs_fresh tables (MkWorld fa (warned w)) Hn
              (Hunder _ (under_refl tables)) Hfree_a) as (fb & Hmk & Hdirs & Hsame).
  cbn [fs warned] in Hmk, Hsame.
  assert (Htables : fb !! tables = Some Dir).
  { rewrite <- (path_eta tables), <- (firstn_all (names tables)).
    apply Hdirs. destruct (names tables); [done | simpl; lia]. }
  assert (Hfile : ∀ name, fb !! (tables </> MkPath "" [name]) = None).
  { intros name. rewrite Hsame; [apply Hunder, under_div_name|].
    intros k. apply file_not_on_the_way. }
  assert (Hfiles : tables </> MkPath "" [train] ≠ tables </> MkPath "" [val]).
  { rewrite !div_name. intros [= E]. by apply app_inj_tail in E as [_ E]. }
  assert (Hself : ∀ name, tables </> MkPath "" [name] ≠ tables).
  { intros name E. apply (f_equal names), (f_equal length) in E.
    rewrite div_name in E. simpl in E. rewrite length_app in E. simpl in E. lia. }
  assert (Hparent : ∀ name, PathLib.parent (tables </> MkPath "" [name]) = tables).
  { intros name. rewrite parent_div_name. apply path_eta. }
  exists (<[tables </> MkPath "" [val] := File (CPickle val_data)]>
            (<[tables </> MkPath "" [train] := File (CPickle train_data)]> fb)).
  split; [|split; [|split; [|split; [|split]]]].
  - rewrite (bind_ok _ _ w _ w (exists_eq _ w)), Hrm.
    rewrite (bind_ok _ _ _ _ _ Hmk).
    rewrite (bind_ok _ _ _ _ _
               (make_file_path_present tables train (MkWorld fb (warned w)) Htrain Hdirs)).
    rewrite (bind_ok _ _ _ _ _
               (make_file_path_present tables val (MkWorld fb (warned w)) Hval Hdirs)).
    unfold pickle_dump.
    erewrite bind_ok; cycle 1.
    { apply write_file_ok; [apply file_names | |].
      - rewrite Hparent. unfold isdir. cbn [fs]. rewrite Htables. by destruct (names tables).
      - cbn [fs]. by rewrite Hfile. }
    cbn [fs warned]. rewrite write_file_ok; [reflexivity | apply file_names | |].
    + rewrite Hparent. unfold isdir. cbn [fs].
      rewrite lookup_insert_ne, Htables; [by destruct (names tables) | apply Hself].
    + cbn [fs]. rewrite lookup_insert_ne by done. by rewrite Hfile.
  - rewrite lookup_insert_ne by done. apply lookup_insert_eq.
  - apply lookup_insert_eq.
  - intros k Hk. rewrite !lookup_insert_ne by apply file_not_on_the_way.
    by apply Hdirs.
  - intros q Hq Hq1 Hq2 Hq3. rewrite !lookup_insert_ne by done.
    rewrite Hsame; [by apply Hunder|].
    intros k ->. apply Hq1. by apply under_on_the_way.
  - intros q Hq Hway.
    rewrite !lookup_insert_ne.
    + rewrite Hsame by done. by apply Hother.
    + intros <-. apply Hq, under_div_name.
    + intros <-. apply Hq, under_div_name.
Qed.

Lemma sub_name_bare n_subset : PathLib.bare ("sub" +:+ PyStr.fmt n_subset) = true.
Proof.
  unfold PathLib.bare. by rewrite ?contains_app, ?slash_fmt, ?backslash_fmt.
Qed.

Lemma cub_subset_tables_names n_subset :
  names (PathUtilsData.cub_subset_tables D n_subset) ≠ [].
Proof. apply file_names. Qed.

Lemma try_except_ok {A} (body : Py world A) handler (w w' : world) a :
  body w = (Ok a, w') → try_except body handler w = (Ok a, w').
Proof. intros H. unfold try_except. by rewrite H. Qed.

Lemma try_except_raise {A} (body : Py world A) handler (w w' : world) e :
  body w = (Raise e, w') → try_except body handler w = handler e w'.
Proof. intros H. unfold try_except. by rewrite H. Qed.

(** Loading the list of one mode from a subset folder of CUB. *)
Lemma load_data_list_cub_found mode (n_subset : Z) data (w : world) :
  PathLib.bare (mode +:+ ".pkl") = true →
  fs w !! (PathUtilsData.cub_subset_tables D (Some n_subset)
           </> MkPath "" [mode +:+ ".pkl"]) = Some (File (CPickle data)) →
  PathUtilsData.load_data_list_cub D mode (Some n_subset) w = (Ok data, w).
Proof.
  intros Hbare Hdata. unfold PathUtilsData.load_data_list_cub.
  rewrite (of_str_bare _ Hbare), (of_str_bare _ (sub_name_bare (Some n_subset))).
  apply try_except_ok, pickle_load_ok; [apply file_names | exact Hdata].
Qed.

Lemma load_data_list_cub_lost mode (n_subset : Z) (w : world) :
  PathLib.bare (mode +:+ ".pkl") = true →
  fs w !! (PathUtilsData.cub_subset_tables D (Some n_subset)
           </> MkPath "" [mode +:+ ".pkl"]) = None →
  ∃ message,
    PathUtilsData.load_data_list_cub D mode (Some n_subset) w
    = (Raise (FileNotFoundError message), w).
Proof.
  intros Hbare Hdata. unfold PathUtilsData.load_data_list_cub.
  rewrite (of_str_bare _ Hbare), (of_str_bare _ (sub_name_bare (Some n_subset))).
  eexists. erewrite try_except_raise; [reflexivity|].
  apply pickle_load_missing; [apply file_names | exact Hdata].
Qed.

(** The run of [write_data_list_cub]. *)
Lemma write_data_list_cub_run n_subset (train_data val_data : pickled) (w : world) :
  PathUtilsData.replaceable (fs w) (PathUtilsData.cub_subset_tables D n_subset) →
  ∃ f1,
    PathUtilsData.write_data_list_cub D n_subset train_data val_data w
    = (Ok tt, MkWorld f1 (warned w))
    ∧ f1 !! (PathUtilsData.cub_subset_tables D n_subset </> MkPath "" ["train.pkl"])
      = Some (File (CPickle train_data))
    ∧ f1 !! (PathUtilsData.cub_subset_tables D n_subset </> MkPath "" ["val.pkl"])
      = Some (File (CPickle val_data))
    ∧ (∀ q, PathLib.under (PathUtilsData.cub_subset_tables D n_subset) q →
            q ≠ PathUtilsData.cub_subset_tables D n_subset →
            q ≠ PathUtilsData.cub_subset_tables D n_subset </> MkPath "" ["train.pkl"] →
            q ≠ PathUtilsData.cub_subset_tables D n_subset </> MkPath "" ["val.pkl"] →
            f1 !! q = None).
Proof.
  intros Hready.
  destruct (replace_folder_run _ "train.pkl" "val.pkl" train_data val_data w
              (cub_subset_tables_names n_subset) eq_refl eq_refl ltac:(discriminate) Hready)
    as (f1 & Hrun & Htrain & Hval & _ & Hgone & _).
  exists f1. split; [|done].
  unfold PathUtilsData.write_data_list_cub.
  rewrite (of_str_bare _ (sub_name_bare n_subset)). exact Hrun.
Qed.

(** X15. The lists written by [write_data_list_cub] for a subset are what
    [load_data_list_cub] returns for the modes ["train"] and ["val"] of that
    subset; no warning is given. The subset folder must be a directory, or
    neither it nor anything in it may exist. *)
Theorem write_then_load_data_list_cub (n_subset : Z) (train_data val_data : pickled)
    (w : world) :
  PathUtilsData.replaceable (fs w) (PathUtilsData.cub_subset_tables D (Some n_subset)) →
  ∃ w1,
    PathUtilsData.write_data_list_cub D (Some n_subset) train_data val_data w = (Ok tt, w1)
    ∧ PathUtilsData.load_data_list_cub D "train" (Some n_subset) w1 = (Ok train_data, w1)
    ∧ PathUtilsData.load_data_list_cub D "val" (Some n_subset) w1 = (Ok val_data, w1)
    ∧ warned w1 = warned w.
Proof.
  intros Hready.
  destruct (write_data_list_cub_run (Some n_subset) train_data val_data w Hready)
    as (f1 & Hrun & Htrain & Hval & _).
  eexists. split; [exact Hrun|]. split; [|split; [|done]].
  - by apply (load_data_list_cub_found "train").
  - by apply (load_data_list_cub_found "val").
Qed.

(** X16. [write_data_list_cub] on a subset folder that exists deletes all
    that the folder held: afterwards nothing but [train.pkl] and [val.pkl]
    is in its tree, and a list of another mode that was stored there (a
    test list, say) is no longer found by [load_data_list_cub]. *)
Theorem write_data_list_cub_clears_folder (n_subset : Z) (train_data val_data : pickled)
    (w : world) :
  creatable (fs w) (PathUtilsData.cub_subset_tables D (Some n_subset)) →
  fs w !! PathUtilsData.cub_subset_tables D (Some n_subset) = Some Dir →
  ∃ w1,
    PathUtilsData.write_data_list_cub D (Some n_subset) train_data val_data w = (Ok tt, w1)
    ∧ (∀ q, PathLib.under (PathUtilsData.cub_subset_tables D (Some n_subset)) q →
            q ≠ PathUtilsData.cub_subset_tables D (Some n_subset) →
            q ≠ PathUtilsData.cub_subset_tables D (Some n_subset)
                </> MkPath "" ["train.pkl"] →
            q ≠ PathUtilsData.cub_subset_tables D (Some n_subset)
                </> MkPath "" ["val.pkl"] →
            fs w1 !! q = None)
    ∧ (∀ mode, PathLib.bare (mode +:+ ".pkl") = true → mode ≠ "train" → mode ≠ "val" →
         ∃ message,
           PathUtilsData.load_data_list_cub D mode (Some n_subset) w1
           = (Raise (FileNotFoundError message), w1)).
Proof.
  intros Hfree Hdir.
  destruct (write_data_list_cub_run (Some n_subset) train_data val_data w
              (conj Hfree (or_introl Hdir))) as (f1 & Hrun & _ & _ & Hgone).
  eexists. split; [exact Hrun|]. split; [exact Hgone|].
  intros mode Hbare Htrain Hval. apply load_data_list_cub_lost; [exact Hbare|].
  cbn [fs]. apply Hgone.
  - apply under_div_name.
  - intros E. apply (f_equal names), (f_equal length) in E.
    rewrite div_name in E. simpl in E. rewrite length_app in E. simpl in E. lia.
  - rewrite !div_name. intros [= E]. apply app_inj_tail in E as [_ E].
    apply Htrain. by apply (append_inj_r mode "train" ".pkl").
  - rewrite !div_name. intros [= E]. apply app_inj_tail in E as [_ E].
    apply Hval. by apply (append_inj_r mode "val" ".pkl").
Qed.

(** X17. [load_data_list_cub] either returns the list or raises
    [FileNotFoundError]: a directory or a file that is not a pickle in the
    place of the list is reported as a missing file too, and the world is
    left as it was. *)
Theorem load_data_list_cub_fails_as_not_found mode n_subset (w : world) :
  (∃ data, PathUtilsData.load_data_list_cub D mode n_subset w = (Ok data, w))
  ∨ (∃ message,
       PathUtilsData.load_data_list_cub D mode n_subset w
       = (Raise (FileNotFoundError message), w)).
Proof.
  unfold PathUtilsData.load_data_list_cub, try_except.
  match goal with |- context [pickle_load ?p w] =>
    pose proof (pickle_load_pure p w) as Hpure; destruct (pickle_load p w) as [[data|e] w']
  end; simpl in Hpure; subst w'; [left | right]; eauto.
Qed.

(** X18. A list stored by [write_test_data_list_cub] under the name
    [mode + ".pkl"] is what [load_data_list_cub] returns for that mode of
    the full dataset ([n_subset = None]); the default name
    ["test_small.pkl"] is read back with the mode ["test_small"]. *)
Theorem write_test_then_load_data_list_cub mode (data : pickled) (w : world) :
  PathLib.bare (mode +:+ ".pkl") = true →
  creatable (fs w) (PathUtilsData.cub_tables D) →
  fs w !! (PathUtilsData.cub_tables D </> MkPath "" [mode +:+ ".pkl"]) ≠ Some Dir →
  ∃ w1,
    PathUtilsData.write_test_data_list_cub D data (AStr (mode +:+ ".pkl")) w = (Ok tt, w1)
    ∧ PathUtilsData.load_data_list_cub D mode None w1 = (Ok data, w1)
    ∧ warned w1 = warned w.
Proof.
  intros Hbare Hfree Hnodir.
  destruct (make_file_path_create (APath (PathUtilsData.cub_tables D))
              (AStr (mode +:+ ".pkl")) (PathUtilsData.cub_tables D)
              (PathLib.of_str (mode +:+ ".pkl")) w (check_bare_str _ Hbare) eq_refl eq_refl
              Hfree) as (f' & Hpath & Hdir & Hsame & _).
  rewrite (of_str_bare _ Hbare) in Hpath.
  eexists. split; [|split].
  - unfold PathUtilsData.write_test_data_list_cub.
    fold (PathUtilsData.cub_tables D). rewrite (bind_ok _ _ _ _ _ Hpath).
    unfold pickle_dump. apply write_file_ok; [apply file_names | |].
    + rewrite parent_div_name, path_eta. exact Hdir.
    + cbn [fs]. rewrite Hsame; [done|]. intros k. apply file_not_on_the_way.
  - unfold PathUtilsData.load_data_list_cub. rewrite (of_str_bare _ Hbare).
    apply try_except_ok, pickle_load_ok; [apply file_names|].
    cbn [fs]. apply lookup_insert_eq.
  - done.
Qed.

(** *** The Shapes datasets *)

Lemma shapes_dataset_name_bare (big : bool) n a s :
  PathLib.bare ((if big then "shapes_2k_" else "shapes_1k_") +:+ "c" +:+ PyStr.fmt n
                  +:+ "_a" +:+ PyStr.fmt a +:+ "_s" +:+ PyStr.fmt s) = true.
Proof.
  unfold PathLib.bare. rewrite ?contains_app, ?slash_fmt, ?backslash_fmt.
  by destruct big.
Qed.

(** The path of a dataset, and the check that it is there. *)
Lemma get_shapes_dataset_path_run n a s (check : bool) (w : world) :
  PathUtilsData.get_shapes_dataset_path K D n a s check w
  = if check && negb (path_exists (fs w) (PathUtilsData.shapes_dataset K D n a s))
    then (Raise (ValueError
            ("Shapes dataset for n_classes=" +:+ PyStr.fmt n +:+ ", n_attr="
               +:+ PyStr.fmt a +:+ ", signal_strength=" +:+ PyStr.fmt s
               +:+ " does not exist. "
               +:+ "Check if there were a typo, or create the dataset with "
               +:+ "`src/datasets/make_shapes_datasets.py. ")), w)
    else (Ok (PathUtilsData.shapes_dataset K D n a s), w).
Proof.
  unfold PathUtilsData.get_shapes_dataset_path, PathUtilsData.shapes_dataset.
  set (big := bool_decide (n = Some 10%Z) && bool_decide (a = Some 5%Z)
              && bool_decide (s = Some 98%Z)).
  pose proof (shapes_dataset_name_bare big n a s) as (Hs & _ & He & Hd)%bare_inv.
  assert (PathLib.of_str
            (PathLib.as_posix (if big then PathLib.of_str "shapes_2k_"
                               else PathLib.of_str "shapes_1k_")
               +:+ "c" +:+ PyStr.fmt n +:+ "_a" +:+ PyStr.fmt a
               +:+ ("_s" +:+ PyStr.fmt s) +:+ "/")
          = MkPath "" [(if big then "shapes_2k_" else "shapes_1k_") +:+ "c" +:+ PyStr.fmt n
                         +:+ "_a" +:+ PyStr.fmt a +:+ "_s" +:+ PyStr.fmt s]) as ->.
  { rewrite <- (of_str_name_slash _ Hs He Hd).
    destruct big; cbn [PathLib.as_posix]; f_equal;
      change (PathLib.as_posix _) with "shapes_2k_"
      || change (PathLib.as_posix _) with "shapes_1k_";
      by rewrite !append_assoc. }
  destruct check; cbn [andb]; [|reflexivity].
  cbv [bind exists_ get_fs ret raise].
  by destruct (path_exists _ _).
Qed.

Lemma shapes_tables_names n a s sub : names (PathUtilsData.shapes_tables K D n a s sub) ≠ [].
Proof. apply file_names. Qed.

(** X19. Both Shapes data-list functions first look for the folder of the
    dataset: when it does not exist they raise [ValueError] and leave the
    world as it was (nothing is removed, nothing is made). When it exists,
    [load_data_list_shapes] either returns the list or raises
    [FileNotFoundError], whatever stands in the place of the list, and
    leaves the world as it was. *)
Theorem data_list_shapes_needs_dataset n a s sub mode (train_data val_data : pickled)
    (w : world) :
  (path_exists (fs w) (PathUtilsData.shapes_dataset K D n a s) = false →
     (∃ message,
        PathUtilsData.load_data_list_shapes K D n a s sub mode w
        = (Raise (ValueError message), w))
     ∧ (∃ message,
          PathUtilsData.write_data_list_shapes K D n a s sub train_data val_data w
          = (Raise (ValueError message), w)))
  ∧ (path_exists (fs w) (PathUtilsData.shapes_dataset K D n a s) = true →
       (∃ data, PathUtilsData.load_data_list_shapes K D n a s sub mode w = (Ok data, w))
       ∨ (∃ message,
            PathUtilsData.load_data_list_shapes K D n a s sub mode w
            = (Raise (FileNotFoundError message), w))).
Proof.
  split; intros Hex.
  - split; eexists.
    + unfold PathUtilsData.load_data_list_shapes.
      erewrite bind_raise; [reflexivity|].
      rewrite get_shapes_dataset_path_run, Hex. reflexivity.
    + unfold PathUtilsData.write_data_list_shapes.
      erewrite bind_raise; [reflexivity|].
      rewrite get_shapes_dataset_path_run, Hex. reflexivity.
  - unfold PathUtilsData.load_data_list_shapes.
    erewrite bind_ok; cycle 1.
    { rewrite get_shapes_dataset_path_run, Hex. reflexivity. }
    unfold try_except.
    match goal with |- context [pickle_load ?p w] =>
      pose proof (pickle_load_pure p w) as Hpure;
      destruct (pickle_load p w) as [[data|e] w']
    end; simpl in Hpure; subst w'; [left | right]; eauto.
Qed.

(** X20. The lists written by [write_data_list_shapes] for a subset of a
    dataset that exists are what [load_data_list_shapes] returns for the
    modes ["train"] and ["val"] of that subset; what the subset folder held
    before is gone. The subset folder must be a directory, or neither it nor
    anything in it may exist. *)
Theorem write_then_load_data_list_shapes n a s (n_subset : Z) (train_data val_data : pickled)
    (w : world) :
  path_exists (fs w) (PathUtilsData.shapes_dataset K D n a s) = true →
  PathUtilsData.replaceable (fs w) (PathUtilsData.shapes_tables K D n a s (Some n_subset)) →
  ∃ w1,
    PathUtilsData.write_data_list_shapes K D n a s (Some n_subset) train_data val_data w
    = (Ok tt, w1)
    ∧ PathUtilsData.load_data_list_shapes K D n a s (Some n_subset) "train" w1
      = (Ok train_data, w1)
    ∧ PathUtilsData.load_data_list_shapes K D n a s (Some n_subset) "val" w1
      = (Ok val_data, w1)
    ∧ (∀ q, PathLib.under (PathUtilsData.shapes_tables K D n a s (Some n_subset)) q →
            q ≠ PathUtilsData.shapes_tables K D n a s (Some n_subset) →
            q ≠ PathUtilsData.shapes_tables K D n a s (Some n_subset)
                </> MkPath "" ["train_data.pkl"] →
            q ≠ PathUtilsData.shapes_tables K D n a s (Some n_subset)
                </> MkPath "" ["val_data.pkl"] →
            fs w1 !! q = None)
    ∧ warned w1 = warned w.
Proof.
  intros Hex Hready.
  destruct (replace_folder_run _ "train_data.pkl" "val_data.pkl" train_data val_data w
              (shapes_tables_names n a s (Some n_subset)) eq_refl eq_refl
              ltac:(discriminate) Hready)
    as (f1 & Hrun & Htrain & Hval & Hdirs & Hgone & _).
  assert (Hex1 : path_exists f1 (PathUtilsData.shapes_dataset K D n a s) = true).
  { unfold path_exists.
    destruct (names (PathUtilsData.shapes_dataset K D n a s)) as [|x rest] eqn:Hn; [done|].
    apply bool_decide_eq_true. exists Dir.
    specialize (Hdirs (length (names (PathUtilsData.shapes_dataset K D n a s)))).
    unfold PathUtilsData.shapes_tables in Hdirs. rewrite !div_name in Hdirs.
    cbn [root names] in Hdirs. rewrite <- app_assoc, take_app_length, path_eta in Hdirs.
    apply Hdirs. rewrite Hn, length_app. simpl. lia. }
  assert (Hload : ∀ mode data,
    PathLib.bare (mode +:+ "_data.pkl") = true →
    f1 !! (PathUtilsData.shapes_tables K D n a s (Some n_subset)
           </> MkPath "" [mode +:+ "_data.pkl"]) = Some (File (CPickle data)) →
    PathUtilsData.load_data_list_shapes K D n a s (Some n_subset) mode
      (MkWorld f1 (warned w)) = (Ok data, MkWorld f1 (warned w))).
  { intros mode data Hbare Hdata. unfold PathUtilsData.load_data_list_shapes.
    erewrite bind_ok; cycle 1.
    { rewrite get_shapes_dataset_path_run. cbn [fs]. rewrite Hex1. reflexivity. }
    rewrite (of_str_bare _ Hbare), (of_str_bare _ (sub_name_bare (Some n_subset))).
    change (PathLib.of_str "tables/") with (MkPath "" ["tables"]).
    apply try_except_ok, pickle_load_ok; [apply file_names | exact Hdata]. }
  eexists. split.
  { unfold PathUtilsData.write_data_list_shapes.
    erewrite bind_ok; cycle 1.
    { rewrite get_shapes_dataset_path_run, Hex. reflexivity. }
    rewrite (of_str_bare _ (sub_name_bare (Some n_subset))).
    change (PathLib.of_str "tables") with (MkPath "" ["tables"]).
    exact Hrun. }
  split; [by apply (Hload "train")|]. split; [by apply (Hload "val")|].
  split; [exact Hgone | done].
Qed.

(** *** Shapes histories in the oracle folder *)

(** X21. With [oracle_only] and [hard_bottleneck] both set,
    [save_history_shapes] writes the file with the ["_hard"] suffix, while
    [load_history_shapes] drops the hardness under [oracle_only] and reads
    the file without the suffix: the history just saved is not what the
    load looks for, and when no file without the suffix is on disk the load
    raises [FileNotFoundError]. *)
Theorem oracle_history_saved_hard_is_not_loaded n a s b sub (h : pickled) (w : world) :
  creatable (fs w)
    (PathUtils.shapes_folder K n a s (HISTORY_FOLDER K) </> PathLib.of_str (ORACLE_FOLDER K)) →
  fs w !! (PathUtils.shapes_folder K n a s (HISTORY_FOLDER K)
           </> PathLib.of_str (ORACLE_FOLDER K)
           </> MkPath "" ["histories_sub" +:+ PyStr.fmt sub +:+ "_b" +:+ PyStr.fmt b
                            +:+ "_hard.pkl"]) ≠ Some Dir →
  fs w !! (PathUtils.shapes_folder K n a s (HISTORY_FOLDER K)
           </> PathLib.of_str (ORACLE_FOLDER K)
           </> MkPath "" ["histories_sub" +:+ PyStr.fmt sub +:+ "_b" +:+ PyStr.fmt b
                            +:+ ".pkl"]) = None →
  ∃ w1,
    PathUtils.save_history_shapes K n a s b sub h true true w = (Ok tt, w1)
    ∧ fs w1 !! (PathUtils.shapes_folder K n a s (HISTORY_FOLDER K)
                </> PathLib.of_str (ORACLE_FOLDER K)
                </> MkPath "" ["histories_sub" +:+ PyStr.fmt sub +:+ "_b" +:+ PyStr.fmt b
                                 +:+ "_hard.pkl"]) = Some (File (CPickle h))
    ∧ PathUtils.load_history_shapes K n a s b sub true true w1
      = (Raise (FileNotFoundError
                  (PathLib.as_posix
                     (PathUtils.shapes_folder K n a s (HISTORY_FOLDER K)
                      </> PathLib.of_str (ORACLE_FOLDER K)
                      </> MkPath "" ["histories_sub" +:+ PyStr.fmt sub +:+ "_b"
                                       +:+ PyStr.fmt b +:+ ".pkl"]))), w1).
Proof.
  intros Hfree Hnodir Hmissing.
  unfold PathUtils.save_history_shapes, PathUtils.load_history_shapes.
  rewrite get_full_shapes_folder_path_eq, bind_lift_ok.
  destruct (write_in_folder_run _ _ (CPickle h) w (history_name_bare sub b true)
              Hfree Hnodir) as (f' & Hrun & _ & Hsame & _).
  eexists. split; [exact Hrun|]. split; [cbn [fs]; apply lookup_insert_eq|].
  rewrite bind_lift_ok.
  rewrite (bind_ok _ _ _ _ _ (resolve_in_folder _ _ _ (history_name_bare sub b false))).
  apply pickle_load_missing; [apply file_names|]. cbn [fs].
  rewrite lookup_insert_ne.
  - rewrite Hsame; [exact Hmissing|]. intros k. apply file_not_on_the_way.
  - rewrite !div_name. intros [= E]. apply app_inj_tail in E as [_ E].
    do 4 apply append_inj_l in E. discriminate E.
Qed.

End DataLists.
End PathUtilsDataFacts.

(** * Further properties of [evaluation.py] *)

(** ** Reading a number back from its text *)

Module PyStrParse.
Import PyStrFacts.

Lemma int_str z : PyStr.int (PyStr.str z) = Ok z.
Proof.
  unfold PyStr.int, PyStr.str. rewrite NilZero.isi.
  - by rewrite DecimalZ.of_to.
  - destruct z; simpl; [discriminate | | discriminate].
    intros [= E]. by apply DecimalPos.Unsigned.to_uint_nonnil in E.
  - destruct z; simpl; [discriminate | discriminate |].
    intros [= E]. by apply DecimalPos.Unsigned.to_uint_nonnil in E.
Qed.

Lemma contains_self a s : PyStr.contains a (String a s) = true.
Proof. simpl. by rewrite Ascii.eqb_refl. Qed.

Lemma contains_tail c a s : PyStr.contains c (String a s) = false → PyStr.contains c s = false.
Proof. simpl. by destruct (Ascii.eqb a c). Qed.

(** Where no character of [chars] occurs in [s], nothing is stripped. *)
Lemma lstrip_none chars s :
  (∀ c, PyStr.contains c chars = true → PyStr.contains c s = false) →
  PyStr.lstrip chars s = s.
Proof.
  intros H. destruct s as [|a s]; [done|]. simpl.
  destruct (PyStr.contains a chars) eqn:Ha; [|done].
  apply H in Ha. by rewrite contains_self in Ha.
Qed.

Lemma rstrip_none chars s :
  (∀ c, PyStr.contains c chars = true → PyStr.contains c s = false) →
  PyStr.rstrip chars s = s.
Proof.
  induction s as [|a s IH]; intros H; [done|]. simpl.
  rewrite IH by (intros c Hc; eapply contains_tail, H, Hc).
  destruct s; [|done].
  destruct (PyStr.contains a chars) eqn:Ha; [|done].
  apply H in Ha. by rewrite contains_self in Ha.
Qed.

Lemma rstrip_app_char chars s c :
  PyStr.contains c chars = true →
  PyStr.rstrip chars (s +:+ String c "") = PyStr.rstrip chars s.
Proof.
  intros Hc. induction s as [|a s IH].
  - simpl. by rewrite Hc.
  - change (String a s +:+ String c "") with (String a (s +:+ String c "")).
    simpl. by rewrite IH.
Qed.

Lemma strip_none chars s :
  (∀ c, PyStr.contains c chars = true → PyStr.contains c s = false) →
  PyStr.strip chars s = s.
Proof.
  intros H. unfold PyStr.strip. rewrite (lstrip_none _ _ H). by apply rstrip_none.
Qed.

(** The subset folder ["sub{n}/"] of the driver is read back as [n] by
    [int(sub_dir.strip("/").strip("sub"))]. *)
Lemma parse_subset_dir z :
  PyStr.int (PyStr.strip "sub" (PyStr.strip "/" ("sub" +:+ PyStr.str z +:+ "/"))) = Ok z.
Proof.
  assert (Hslash : PyStr.strip "/" ("sub" +:+ PyStr.str z +:+ "/") = "sub" +:+ PyStr.str z).
  { unfold PyStr.strip.
    change (PyStr.lstrip "/" ("sub" +:+ PyStr.str z +:+ "/"))
      with ("sub" +:+ PyStr.str z +:+ "/").
    rewrite <- append_assoc, rstrip_app_char by reflexivity.
    apply rstrip_none. intros c Hc. cbn [PyStr.contains] in Hc.
    destruct (Ascii.eqb_spec "/"%char c) as [E|E]; [subst c | discriminate Hc].
    rewrite contains_app. by rewrite (contains_str "/"%char z). }
  assert (Hsub : PyStr.strip "sub" ("sub" +:+ PyStr.str z) = PyStr.str z).
  { unfold PyStr.strip.
    change (PyStr.lstrip "sub" ("sub" +:+ PyStr.str z))
      with (PyStr.lstrip "sub" (PyStr.str z)).
    apply (strip_none "sub"). intros c Hc. cbn [PyStr.contains] in Hc.
    destruct (Ascii.eqb_spec "s"%char c) as [E|E]; [subst c; by apply contains_str|].
    destruct (Ascii.eqb_spec "u"%char c) as [E'|E']; [subst c; by apply contains_str|].
    destruct (Ascii.eqb_spec "b"%char c) as [E''|E''];
      [subst c; by apply contains_str | discriminate Hc]. }
  rewrite Hslash, Hsub. apply int_str.
Qed.

End PyStrParse.

(** ** The calls of the driver, subset by subset *)

Module EvaluationMore.
Import PyStrFacts PyStrParse Evaluation EvaluationFacts EvaluationCalls.
Section Eval.

Context {input attr_labels state_dict env : Type}.
Variable cuda_is_available : bool.
Variable C : @collaborators input attr_labels state_dict env.
Local Abbreviation state := (@state env).
Local Abbreviation model := (@model input state_dict).
Local Abbreviation dataloader := (@dataloader input attr_labels).
Local Abbreviation batch := (@batch input attr_labels).

Local Ltac step_lift H x Hx :=
  apply bind_ok_inv in H as (x & ? & [Hx ->]%lift_inv & H).
Local Ltac step_call H x e Hx :=
  apply bind_ok_inv in H as (x & ? & (e & Hx & ->)%call_inv & H).

Lemma for_each_extends_in {A B} (P : event → Prop) (body : B → A → Py state B) l :
  (∀ b x st b' st', x ∈ l → body b x st = (Ok b', st') → extends_with P st st') →
  ∀ b st b' st', for_each l body b st = (Ok b', st') → extends_with P st st'.
Proof.
  induction l as [|x l IH]; intros Hbody b st b' st' H; cbn [for_each] in H.
  { apply ret_inv in H as [_ ->]. apply extends_refl. }
  apply bind_ok_inv in H as (b1 & st1 & H1 & H2).
  eapply extends_trans.
  - eapply Hbody; [constructor | exact H1].
  - eapply IH; [|exact H2]. intros ? y ? ? ? Hy. apply Hbody. by constructor.
Qed.

Lemma model_outcome_calls n_classes n_attr test_loader subset subsets fast device
    non_blocking n_bootstrap seed models i t h' :
  subset ∈ subsets →
  model_outcome cuda_is_available C n_classes n_attr test_loader
    ("sub" +:+ PyStr.str subset +:+ "/") fast device non_blocking n_bootstrap seed
    models i t h' →
  Forall (driver_call C n_classes n_attr subsets n_bootstrap fast) t.
Proof.
  intros Hin (m & ms & sd & e1 & e2 & acc & h & _ & Hms & -> & _ & _ & _).
  unfold model_events. apply Forall_app_2; [|apply Forall_app_2].
  - by repeat constructor.
  - destruct seed; by repeat constructor.
  - constructor; [by destruct (String.eqb _ _)|]. constructor; [|constructor].
    exists subset, ms. split; [exact Hin|]. split; [by eapply list_elem_of_lookup_2|].
    by rewrite !append_assoc.
Qed.

Lemma train_and_evaluate_shapes_calls n_classes n_attr train_loader val_loader test_loader
    subset subsets fast device non_blocking n_bootstrap seed verbose (st st' : state)
    histories :
  subset ∈ subsets →
  train_and_evaluate_shapes cuda_is_available C n_classes n_attr train_loader
    val_loader test_loader ("sub" +:+ PyStr.str subset +:+ "/") None fast device
    non_blocking n_bootstrap seed verbose st = (Ok histories, st') →
  extends_with (driver_call C n_classes n_attr subsets n_bootstrap fast) st st'.
Proof.
  intros Hin Hrun. unfold train_and_evaluate_shapes in Hrun.
  apply bind_ok_inv in Hrun as (hp & st1 & Hhp & Hrun).
  step_lift Hhp n_subset Hsub. rewrite parse_subset_dir in Hsub. injection Hsub as <-.
  apply call_inv in Hhp as (e1 & _ & ->).
  step_call Hrun models e2 Hmodels.
  apply models_loop_inv in Hrun as (ts & outs & _ & Hts & Hall).
  exists ([EvGetHyperparameters n_classes n_attr subset fast; EvLoadModels n_classes n_attr]
            ++ concat ts).
  split; [rewrite Hts; simpl; by rewrite <- !app_assoc|].
  apply Forall_app_2; [by repeat constructor|].
  clear Hts. induction Hall as [|i t h' is_ ts outs Hout _ IH]; [constructor|].
  simpl. apply Forall_app_2; [by eapply model_outcome_calls | exact IH].
Qed.

Lemma bootstrap_iteration_calls dataset_dir n_classes n_attr subset subsets test_loader
    n_bootstrap fast batch_size device non_blocking base_seed verbose vars i
    (st st' : state) vars' :
  subset ∈ subsets →
  bootstrap_iteration cuda_is_available C dataset_dir n_classes n_attr subset
    ("sub" +:+ PyStr.str subset +:+ "/") test_loader n_bootstrap fast batch_size device
    non_blocking base_seed verbose vars i st = (Ok vars', st') →
  extends_with (driver_call C n_classes n_attr subsets n_bootstrap fast) st st'.
Proof.
  unfold bootstrap_iteration. destruct vars as [seed ht]. intros Hin H.
  step_call H u1 e1 Hsubset. step_call H loaders e2 Hloaders.
  destruct loaders as [train_loader val_loader].
  apply bind_ok_inv in H as (histories & st3 & Htrain & H).
  step_lift H summed Hadd. apply ret_inv in H as [-> ->].
  eapply train_and_evaluate_shapes_calls in Htrain; [|exact Hin].
  eapply extends_trans; [|exact Htrain].
  apply extends_call_r; [|done]. apply extends_call_r; [apply extends_refl | done].
Qed.

Lemma run_subset_calls dataset_dir n_classes n_attr n_bootstrap fast batch_size device
    non_blocking base_seed verbose class_dir lists subset subsets (st st' : state) lists' :
  subset ∈ subsets →
  run_subset cuda_is_available C dataset_dir n_classes n_attr n_bootstrap fast batch_size
    device non_blocking base_seed verbose class_dir lists subset st = (Ok lists', st') →
  extends_with (driver_call C n_classes n_attr subsets n_bootstrap fast) st st'.
Proof.
  unfold run_subset. intros Hin H.
  apply bind_ok_inv in H as (u0 & st0 & Hprint & H).
  assert (Hst0 : extends_with (driver_call C n_classes n_attr subsets n_bootstrap fast)
                   st st0).
  { destruct (negb _).
    - apply call_inv in Hprint as (e & _ & ->). by apply extends_call.
    - apply ret_inv in Hprint as [_ ->]. apply extends_refl. }
  step_call H test_loader e1 Htest.
  apply bind_ok_inv in H as (vars & st2 & Hloop & H). destruct vars as [seed ht].
  apply (for_each_extends (driver_call C n_classes n_attr subsets n_bootstrap fast))
    in Hloop; [|intros; by eapply bootstrap_iteration_calls].
  apply bind_ok_inv in H as (lists1 & st3 & Hacc & H).
  apply collect_accuracies_pure in Hacc as ->.
  step_call H u4 e4 Hmk1. step_call H u5 e5 Hplot. step_call H u6 e6 Hmk2.
  step_call H u7 e7 Hdump. step_call H u8 e8 Hreset. apply ret_inv in H as [_ ->].
  do 5 (apply extends_call_r; [|done]).
  eapply extends_trans; [|exact Hloop].
  by apply extends_call_r.
Qed.

(** X22. In a run of the driver that completes, every request for
    hyperparameters is made for the classes, attributes and mode of the run
    and for one of the requested subsets: the number that
    [train_and_evaluate_shapes] reads back from the folder name
    ["sub{subset}/"] is the subset. Every checkpoint that is loaded is
    [saved_models/{class_dir}sub{subset}/{model}_b{n_bootstrap}_loss.pth]
    for one of the subsets and one of [MODEL_STRINGS]: the name holds the
    number of bootstrap iterations of the run, not the iteration at hand, so
    all iterations on a subset train into and load the same files. *)
Theorem driver_addresses_its_subsets dataset_dir n_classes n_attr subsets n_bootstrap fast
    batch_size device non_blocking base_seed verbose (st : state) :
  is_ok (fst (run_models_on_subsets_and_plot cuda_is_available C dataset_dir n_classes
                n_attr subsets n_bootstrap fast batch_size device non_blocking base_seed
                verbose st)) = true →
  extends_with (driver_call C n_classes n_attr subsets n_bootstrap fast) st
    (snd (run_models_on_subsets_and_plot cuda_is_available C dataset_dir n_classes
            n_attr subsets n_bootstrap fast batch_size device non_blocking base_seed
            verbose st)).
Proof.
  destruct (run_models_on_subsets_and_plot _ _ _ _ _ _ _ _ _ _ _ _ _ st)
    as [[u|e] st'] eqn:Hrun; [intros _ | discriminate].
  unfold run_models_on_subsets_and_plot in Hrun.
  apply bind_ok_inv in Hrun as (lists & st1 & Hloop & H).
  apply (for_each_extends_in (driver_call C n_classes n_attr subsets n_bootstrap fast))
    in Hloop; [|intros; by eapply run_subset_calls].
  step_call H u1 e1 Hplot. apply call_inv in H as (e2 & _ & ->).
  cbn [snd]. apply extends_call_r; [|done].
  apply extends_call_r; [exact Hloop | done].
Qed.

(** X23. With [n_bootstrap <= 0] no bootstrap iteration runs and
    [histories_total] is still [None] when the test accuracies are
    collected: on a non-empty list of subsets and with at least one name in
    [MODEL_STRINGS], the driver never completes. *)
Theorem driver_needs_a_bootstrap_iteration dataset_dir n_classes n_attr subsets n_bootstrap
    fast batch_size device non_blocking base_seed verbose (st : state) :
  (n_bootstrap ≤ 0)%Z → subsets ≠ [] → MODEL_STRINGS C ≠ [] →
  is_ok (fst (run_models_on_subsets_and_plot cuda_is_available C dataset_dir n_classes
                n_attr subsets n_bootstrap fast batch_size device non_blocking base_seed
                verbose st)) = false.
Proof.
  intros Hn Hsubsets Hmodels.
  destruct (run_models_on_subsets_and_plot _ _ _ _ _ _ _ _ _ _ _ _ _ st)
    as [[u|e] st'] eqn:Hrun; [exfalso | done].
  unfold run_models_on_subsets_and_plot in Hrun.
  apply bind_ok_inv in Hrun as (lists & st1 & Hloop & _).
  destruct subsets as [|subset rest]; [done|]. cbn [for_each] in Hloop.
  apply bind_ok_inv in Hloop as (lists1 & st2 & H & _).
  unfold run_subset in H.
  apply bind_ok_inv in H as (u0 & st0 & _ & H).
  step_call H test_loader e1 Htest.
  apply bind_ok_inv in H as (vars & st3 & Hboot & H).
  unfold range in Hboot. rewrite Z2Nat.nonpos in Hboot by exact Hn.
  cbn [seq for_each] in Hboot. apply ret_inv in Hboot as [-> ->].
  apply bind_ok_inv in H as (lists2 & st4 & Hacc & _).
  destruct (MODEL_STRINGS C) as [|ms mss]; [done|].
  cbn [length seq for_each] in Hacc.
  apply bind_ok_inv in Hacc as (lists3 & st5 & Hfirst & _).
  apply bind_ok_inv in Hfirst as (a & st6 & Ha & _).
  by apply lift_inv in Ha as [Ha _].
Qed.

(** X24. A call of [train_and_evaluate_shapes] that completes returns one
    history per model that [load_models_shapes] gave, and there are no more
    models than names in [MODEL_STRINGS]: with more models the loop runs
    out of names and the call does not complete. *)
Theorem train_and_evaluate_shapes_one_history_per_model n_classes n_attr
    train_loader val_loader test_loader sub_dir hyperparameters fast device non_blocking
    n_bootstrap seed verbose (st : state) :
  is_ok (fst (train_and_evaluate_shapes cuda_is_available C n_classes n_attr train_loader
                val_loader test_loader sub_dir hyperparameters fast device non_blocking
                n_bootstrap seed verbose st)) = true →
  ∃ histories hp e e' models,
    fst (train_and_evaluate_shapes cuda_is_available C n_classes n_attr train_loader
           val_loader test_loader sub_dir hyperparameters fast device non_blocking
           n_bootstrap seed verbose st) = Ok histories
    ∧ load_models_shapes C n_classes n_attr hp e = (Ok models, e')
    ∧ (∀ given, hyperparameters = Some given → hp = given)
    ∧ length histories = length models
    ∧ (length models ≤ length (MODEL_STRINGS C))%nat
    ∧ Forall has_test_accuracy histories.
Proof.
  destruct (train_and_evaluate_shapes _ _ _ _ _ _ _ _ _ _ _ _ _ _ _ st)
    as [[histories|e] st'] eqn:Hrun; [intros _ | discriminate].
  unfold train_and_evaluate_shapes in Hrun.
  apply bind_ok_inv in Hrun as (hp & st1 & Hhp & Hrun).
  step_call Hrun models e2 Hmodels.
  apply models_loop_inv in Hrun as (ts & outs & -> & _ & Hall).
  exists ([] ++ outs), hp, (ext st1), e2, models.
  split; [reflexivity|]. split; [exact Hmodels|]. split.
  { intros given ->. by apply ret_inv in Hhp as [-> _]. }
  pose proof (Forall3_length_lr _ _ _ _ Hall) as Hlen. rewrite length_seq in Hlen.
  split; [simpl; congruence|]. split.
  - destruct (decide (length models ≤ length (MODEL_STRINGS C))%nat) as [|Hmore]; [done|].
    exfalso.
    assert (Hi : seq 0 (length models) !! length (MODEL_STRINGS C)
                 = Some (length (MODEL_STRINGS C))).
    { apply lookup_seq. lia. }
    destruct (Forall3_lookup_l _ _ _ _ _ _ Hall Hi)
      as (t & h' & _ & _ & (m & ms & ? & ? & ? & ? & ? & _ & Hms & _)).
    apply lookup_lt_Some in Hms. lia.
  - simpl. clear -Hall.
    induction Hall as [|i t h' is_ ts outs Hout _ IH]; [constructor|].
    constructor; [by eapply model_outcome_facts | exact IH].
Qed.

(** ** What the test accuracy depends on *)



(** Scoring the batches of a well-shaped loader. *)
Lemma score_batches (m : model) (step : result Z → batch → result Z) bs :
  (∀ acc b, step (Ok acc) b
            = match torch_max_1 (rows_of (call_model (eval_mode m) (b_input b))) with
              | Raise e => Raise e
              | Ok preds =>
                  match correct_in_batch preds (b_labels b) with
                  | Raise e => Raise e
                  | Ok c => Ok (acc + c)%Z
                  end
              end) →
  forallb (λ b : batch,
    let rows := rows_of (call_model (eval_mode m) (b_input b)) in
    (length rows =? length (b_labels b))%nat
    && forallb (λ row, negb (length row =? 0)%nat) rows) bs = true →
  ∀ acc, ∃ summed, fold_left step bs (Ok acc) = Ok summed.
Proof.
  intros Hstep. induction bs as [|b bs IH]; intros Hbs acc; cbn [fold_left]; [eauto|].
  cbn [forallb] in Hbs. cbv zeta in Hbs.
  apply andb_true_iff in Hbs as [[Hlen Hrows]%andb_true_iff Hbs].
  rewrite Hstep, (torch_max_1_rows _ Hrows).
  unfold correct_in_batch. rewrite length_map, Hlen. by apply IH.
Qed.

(** X26. The accuracy is divided by [len(test_loader.dataset)]: on a
    dataset without items [evaluate_on_test_set] never returns a value,
    whatever the batches hold, and when the model gives one non-empty row
    of logits per label the exception is [ZeroDivisionError]. *)
Theorem evaluate_on_test_set_needs_items (m : model) (test_loader : dataloader)
    device non_blocking :
  dataset test_loader = [] →
  is_ok (evaluate_on_test_set cuda_is_available m test_loader device non_blocking) = false
  ∧ (well_shaped m test_loader = true →
     evaluate_on_test_set cuda_is_available m test_loader device non_blocking
     = Raise ZeroDivisionError).
Proof.
  intros Hempty. unfold evaluate_on_test_set. rewrite Hempty. cbn [length Z.of_nat Z.eqb].
  split.
  - by destruct (fold_left _ _ _).
  - intros Hshape.
    match goal with
    | |- context [fold_left ?f (batches test_loader) (Ok 0%Z)] =>
        destruct (score_batches m f (batches test_loader)) with (acc := 0%Z)
          as [summed ->]; [done | exact Hshape | done]
    end.
Qed.

End Eval.
End EvaluationMore.

(** ** The properties of the rest on the concrete configuration *)

(** The directories of the example worlds are directories all the way. *)
Lemma creatable_cub_sub10 : creatable (fs ExampleData.cub_world) ExampleData.cub_sub10.
Proof.
  intros k c. do 5 (destruct k as [|k]; [vm_compute; discriminate|]).
  vm_compute. discriminate.
Qed.

Lemma creatable_shapes_sub3 :
  creatable (fs ExampleData.shapes_world) ExampleData.shapes_sub3.
Proof.
  intros k c. do 6 (destruct k as [|k]; [vm_compute; discriminate|]).
  vm_compute. discriminate.
Qed.

(** X10 for the full dataset, in the oracle folder of the empty world. *)
Lemma save_then_load_history_cub_witness :
  ∃ w1,
    PathUtilsCub.save_history_cub Example.K (Some 2%Z) None 4%nat true true
      Example.empty_world = (Ok tt, w1)
    ∧ PathUtilsCub.load_history_cub Example.K (Some 2%Z) None true true w1 = (Ok 4%nat, w1)
    ∧ warned w1 = [].
Proof.
  apply (PathUtilsCubFacts.save_then_load_history_cub Example.K (Some 2%Z) None 4%nat
           true true Example.empty_world).
  - apply creatable_empty.
  - simpl. rewrite lookup_empty. discriminate.
Defined.

(** X11 for the model type [" CBM "] with a hard bottleneck, on subset 10. *)
Lemma save_then_load_model_cub_witness :
  ∃ w1,
    PathUtilsCub.save_model_cub Example.K ExampleData.D (Some 10%Z) 7%nat " CBM " "loss"
      true false Example.empty_world = (Ok tt, w1)
    ∧ PathUtilsCub.load_model_cub Example.K ExampleData.D (Some 10%Z) " CBM " "loss"
        true false w1 = (Ok 7%nat, w1)
    ∧ warned w1 = [].
Proof.
  apply (PathUtilsCubFacts.save_then_load_model_cub Example.K ExampleData.D (Some 10%Z)
           7%nat " CBM " "loss" true false Example.empty_world).
  - vm_compute. apply list_elem_of_In. simpl. tauto.
  - vm_compute. reflexivity.
  - left. vm_compute. discriminate.
  - apply creatable_empty.
  - simpl. rewrite lookup_empty. discriminate.
Defined.

(** X12 for the model type ["CNN"] on the full dataset. *)
Lemma load_model_cub_misses_hard_cnn_witness :
  ∃ w1,
    PathUtilsCub.save_model_cub Example.K ExampleData.D None 7%nat "CNN" "loss" true false
      Example.empty_world = (Ok tt, w1)
    ∧ fs w1 !! MkPath "" ["results"; "saved_models"; "cub"; "cnn_full_loss.pth"]
      = Some (File (CTorch 7%nat))
    ∧ PathUtilsCub.load_model_cub Example.K ExampleData.D None "CNN" "loss" true false w1
      = (Raise (FileNotFoundError "results/saved_models/cub/cnn_full_loss_hard.pth"), w1).
Proof.
  apply (PathUtilsCubFacts.load_model_cub_misses_hard_cnn Example.K ExampleData.D None
           7%nat "CNN" "loss" false Example.empty_world).
  - vm_compute. reflexivity.
  - vm_compute. apply list_elem_of_In. simpl. tauto.
  - vm_compute. reflexivity.
  - apply creatable_empty.
  - simpl. rewrite lookup_empty. discriminate.
  - reflexivity.
Defined.

(** X13 for the model ["cbm"] on the full dataset, from the empty world. *)
Lemma save_then_load_hyperparameters_cub_witness :
  ∃ w1,
    PathUtilsCub.save_hyperparameters_cub Example.K ExampleData.D None Example.cbm_values
      "cbm" true Example.empty_world = (Ok tt, w1)
    ∧ PathUtilsCub.load_hyperparameters_cub Example.K None true false false w1
      = (Ok (Some (<["cbm" := Example.cbm_values]>
                     (PathUtils.stored_set (fs Example.empty_world)
                        (PathUtilsCub.cub_hp_file Example.K None true)))), w1)
    ∧ warned w1 = [].
Proof.
  apply (PathUtilsCubFacts.save_then_load_hyperparameters_cub Example.K ExampleData.D None
           true "cbm" Example.cbm_values Example.empty_world).
  - vm_compute. apply list_elem_of_In. simpl. tauto.
  - left. split; [reflexivity | apply creatable_empty].
Defined.

(** X14 in a world that holds the fast and the default file of CUB. *)
Lemma load_hyperparameters_cub_fast_default_witness :
  PathUtilsCub.load_hyperparameters_cub Example.K (Some 10%Z) false true false
    ExampleData.cub_hp_world
  = (Ok (Some Example.soft_set), ExampleData.cub_hp_world)
  ∧ PathUtilsCub.load_hyperparameters_cub Example.K (Some 10%Z) false false true
      ExampleData.cub_hp_world
    = (Ok (Some Example.default_hard_set), ExampleData.cub_hp_world).
Proof.
  split.
  - destruct (PathUtilsCubFacts.load_hyperparameters_cub_fast_default Example.K (Some 10%Z)
                false false (Some Example.soft_set) ExampleData.cub_hp_world) as [Hfast _].
    apply Hfast; [reflexivity | vm_compute; reflexivity].
  - destruct (PathUtilsCubFacts.load_hyperparameters_cub_fast_default Example.K (Some 10%Z)
                false false (Some Example.default_hard_set) ExampleData.cub_hp_world)
      as [_ Hdefault].
    apply Hdefault; [reflexivity | vm_compute; reflexivity].
Defined.

(** X15 for subset 10, from the empty world. *)
Lemma write_then_load_data_list_cub_witness :
  ∃ w1,
    PathUtilsData.write_data_list_cub ExampleData.D (Some 10%Z) 1%nat 2%nat
      Example.empty_world = (Ok tt, w1)
    ∧ PathUtilsData.load_data_list_cub ExampleData.D "train" (Some 10%Z) w1 = (Ok 1%nat, w1)
    ∧ PathUtilsData.load_data_list_cub ExampleData.D "val" (Some 10%Z) w1 = (Ok 2%nat, w1)
    ∧ warned w1 = [].
Proof.
  apply (PathUtilsDataFacts.write_then_load_data_list_cub ExampleData.D 10 1%nat 2%nat
           Example.empty_world).
  split; [apply creatable_empty|]. right. intros q _. apply lookup_empty.
Defined.

(** X16 on the folder of subset 10 that holds a test list. *)
Lemma write_data_list_cub_clears_folder_witness :
  fs ExampleData.cub_world !! (ExampleData.cub_sub10 </> MkPath "" ["test.pkl"])
  = Some (File (CPickle 9%nat))
  ∧ ∃ w1,
      PathUtilsData.write_data_list_cub ExampleData.D (Some 10%Z) 1%nat 2%nat
        ExampleData.cub_world = (Ok tt, w1)
      ∧ fs w1 !! (ExampleData.cub_sub10 </> MkPath "" ["test.pkl"]) = None
      ∧ ∃ message,
          PathUtilsData.load_data_list_cub ExampleData.D "test" (Some 10%Z) w1
          = (Raise (FileNotFoundError message), w1).
Proof.
  split; [vm_compute; reflexivity|].
  destruct (PathUtilsDataFacts.write_data_list_cub_clears_folder ExampleData.D 10
              1%nat 2%nat ExampleData.cub_world) as (w1 & Hrun & Hgone & Hlost).
  - apply creatable_cub_sub10.
  - vm_compute. reflexivity.
  - exists w1. split; [exact Hrun|]. split.
    + apply Hgone; [| discriminate | discriminate | discriminate].
      split; [reflexivity|]. by exists ["test.pkl"].
    + apply (Hlost "test"); [reflexivity | discriminate | discriminate].
Defined.

(** X18 for the default file name. *)
Lemma write_test_then_load_data_list_cub_witness :
  ∃ w1,
    PathUtilsData.write_test_data_list_cub ExampleData.D 5%nat (AStr "test_small.pkl")
      Example.empty_world = (Ok tt, w1)
    ∧ PathUtilsData.load_data_list_cub ExampleData.D "test_small" None w1 = (Ok 5%nat, w1)
    ∧ warned w1 = [].
Proof.
  apply (PathUtilsDataFacts.write_test_then_load_data_list_cub ExampleData.D "test_small"
           5%nat Example.empty_world).
  - reflexivity.
  - apply creatable_empty.
  - simpl. rewrite lookup_empty. discriminate.
Defined.

(** X19 in the empty world, where no dataset exists, and in the world with
    the dataset of 10 classes and 5 attributes. *)
Lemma data_list_shapes_needs_dataset_witness :
  (∃ message,
     PathUtilsData.load_data_list_shapes Example.K ExampleData.D (Some 10%Z) (Some 5%Z)
       (Some 98%Z) (Some 3%Z) "train" Example.empty_world
     = (Raise (ValueError message), Example.empty_world))
  ∧ (∃ message,
       PathUtilsData.write_data_list_shapes Example.K ExampleData.D (Some 10%Z) (Some 5%Z)
         (Some 98%Z) (Some 3%Z) 1%nat 2%nat Example.empty_world
       = (Raise (ValueError message), Example.empty_world))
  ∧ ((∃ data,
        PathUtilsData.load_data_list_shapes Example.K ExampleData.D (Some 10%Z) (Some 5%Z)
          (Some 98%Z) (Some 3%Z) "train" ExampleData.shapes_world
        = (Ok data, ExampleData.shapes_world))
     ∨ (∃ message,
          PathUtilsData.load_data_list_shapes Example.K ExampleData.D (Some 10%Z)
            (Some 5%Z) (Some 98%Z) (Some 3%Z) "train" ExampleData.shapes_world
          = (Raise (FileNotFoundError message), ExampleData.shapes_world))).
Proof.
  destruct (PathUtilsDataFacts.data_list_shapes_needs_dataset Example.K ExampleData.D
              (Some 10%Z) (Some 5%Z) (Some 98%Z) (Some 3%Z) "train" 1%nat 2%nat
              Example.empty_world) as [Hmissing _].
  destruct (PathUtilsDataFacts.data_list_shapes_needs_dataset Example.K ExampleData.D
              (Some 10%Z) (Some 5%Z) (Some 98%Z) (Some 3%Z) "train" 1%nat 2%nat
              ExampleData.shapes_world) as [_ Hpresent].
  destruct Hmissing as [Hload Hwrite]; [vm_compute; reflexivity|].
  split; [exact Hload|]. split; [exact Hwrite|].
  apply Hpresent. vm_compute. reflexivity.
Defined.

(** X20 on the folder of subset 3 that holds a list from an earlier run. *)
Lemma write_then_load_data_list_shapes_witness :
  ∃ w1,
    PathUtilsData.write_data_list_shapes Example.K ExampleData.D (Some 10%Z) (Some 5%Z)
      (Some 98%Z) (Some 3%Z) 1%nat 2%nat ExampleData.shapes_world = (Ok tt, w1)
    ∧ PathUtilsData.load_data_list_shapes Example.K ExampleData.D (Some 10%Z) (Some 5%Z)
        (Some 98%Z) (Some 3%Z) "train" w1 = (Ok 1%nat, w1)
    ∧ PathUtilsData.load_data_list_shapes Example.K ExampleData.D (Some 10%Z) (Some 5%Z)
        (Some 98%Z) (Some 3%Z) "val" w1 = (Ok 2%nat, w1)
    ∧ fs w1 !! (ExampleData.shapes_sub3 </> MkPath "" ["test_data.pkl"]) = None.
Proof.
  destruct (PathUtilsDataFacts.write_then_load_data_list_shapes Example.K ExampleData.D
              (Some 10%Z) (Some 5%Z) (Some 98%Z) 3 1%nat 2%nat ExampleData.shapes_world)
    as (w1 & Hrun & Htrain & Hval & Hgone & _).
  - vm_compute. reflexivity.
  - split; [apply creatable_shapes_sub3|]. left. vm_compute. reflexivity.
  - exists w1. split; [exact Hrun|]. split; [exact Htrain|]. split; [exact Hval|].
    apply Hgone; [| discriminate | discriminate | discriminate].
    split; [reflexivity|]. by exists ["test_data.pkl"].
Defined.

(** X21 in the empty world. *)
Lemma oracle_history_saved_hard_is_not_loaded_witness :
  ∃ w1,
    PathUtils.save_history_shapes Example.K (Some 10%Z) (Some 5%Z) (Some 98%Z) (Some 2%Z)
      (Some 3%Z) 4%nat true true Example.empty_world = (Ok tt, w1)
    ∧ fs w1 !! MkPath "" ["results"; "history"; "shapes"; "c10_a5_s98"; "oracle";
                          "histories_sub3_b2_hard.pkl"] = Some (File (CPickle 4%nat))
    ∧ PathUtils.load_history_shapes Example.K (Some 10%Z) (Some 5%Z) (Some 98%Z) (Some 2%Z)
        (Some 3%Z) true true w1
      = (Raise (FileNotFoundError
                  "results/history/shapes/c10_a5_s98/oracle/histories_sub3_b2.pkl"), w1).
Proof.
  apply (PathUtilsDataFacts.oracle_history_saved_hard_is_not_loaded Example.K (Some 10%Z)
           (Some 5%Z) (Some 98%Z) (Some 2%Z) (Some 3%Z) 4%nat Example.empty_world).
  - apply creatable_empty.
  - simpl. rewrite lookup_empty. discriminate.
  - reflexivity.
Defined.

(** X22 on the run of the driver for the subsets 3 and 7. *)
Lemma driver_addresses_its_subsets_witness :
  Evaluation.extends_with
    (EvaluationCalls.driver_call Example.collaborators 10 5 [3%Z; 7%Z] 2 false)
    Example.start (snd Example.run).
Proof.
  apply (EvaluationMore.driver_addresses_its_subsets false Example.collaborators
           "data/shapes/" 10%Z 5%Z [3%Z; 7%Z] 2%Z false 16%Z None false 57%Z 1%Z
           Example.start).
  vm_compute; reflexivity.
Defined.

(** X23 on the same driver without a bootstrap iteration. *)
Lemma driver_needs_a_bootstrap_iteration_witness :
  is_ok (fst (Evaluation.run_models_on_subsets_and_plot false Example.collaborators
                "data/shapes/" 10 5 [3%Z; 7%Z] 0 false 16 None false 57 1 Example.start))
  = false.
Proof.
  apply (EvaluationMore.driver_needs_a_bootstrap_iteration false Example.collaborators
           "data/shapes/" 10%Z 5%Z [3%Z; 7%Z] 0%Z false 16%Z None false 57%Z 1%Z
           Example.start).
  - lia.
  - discriminate.
  - vm_compute. discriminate.
Defined.

(** X24 on one call of the orchestrator. *)
Lemma train_and_evaluate_shapes_one_history_per_model_witness :
  ∃ histories (models : list (@Evaluation.model nat nat)),
    fst Example.train = Ok histories
    ∧ length histories = length models
    ∧ (length models ≤ 2)%nat.
Proof.
  destruct (EvaluationMore.train_and_evaluate_shapes_one_history_per_model false
              Example.collaborators 10%Z 5%Z Example.test_loader Example.test_loader
              Example.test_loader "sub3/" None false None false 2%Z (Some 57%Z) 1%Z
              Example.start)
    as (histories & hp & e & e' & models & Hrun & _ & _ & Hlen & Hnames & _).
  - vm_compute; reflexivity.
  - exists histories, models. split; [exact Hrun|]. split; [exact Hlen | exact Hnames].
Defined.


(** X26 on the loader without items. *)
Lemma evaluate_on_test_set_needs_items_witness :
  is_ok (Evaluation.evaluate_on_test_set false Example.cnn Example.empty_loader None false)
  = false
  ∧ Evaluation.evaluate_on_test_set false Example.cnn Example.empty_loader None false
    = Raise ZeroDivisionError.
Proof.
  destruct (EvaluationMore.evaluate_on_test_set_needs_items false Example.cnn
              Example.empty_loader None false) as [Hnone Hzero]; [reflexivity|].
  split; [exact Hnone | apply Hzero; reflexivity].
Defined.
